(** * analyzer.py: ledger reconciliation of an inventory-based business

    A shallow embedding of [src/analyzer.py].  The script reads a plain-text
    ledger (pass 1), validates and enriches every entry (pass 2) and folds the
    entries into FIFO item-cost queues, a per-reference profit ledger and the
    two aggregates [profit] and [cash_flow] (pass 3).

    Modelling choices:
    - Python [str] is [string]; a character is a code point below 256.
    - Python [float] is the primitive binary64 [float] of the kernel, with the
      same round-to-nearest-even operations.  The integer literal [0] that
      [convert_to_usd] returns for the amount ["0"] is carried as [+0.0]: every
      use the script makes of it is arithmetic with floats.
    - Python [int] is [Z].
    - The interpreter is a 64-bit CPython: the size of a list is a signed
      64-bit index and a list holds fewer than 2^60 items.  Below the limits
      the interpreter sets itself, memory is not counted: an allocation
      succeeds.
    - A [dict] is an insertion-ordered association list.
    - An uncaught exception aborts the script; it is the [Raise] outcome of the
      [result] monad.  The text of a message keeps only its constant prefix.
    - The exchange-rate cache directory together with the remote service is a
      function from a date to the rate table of that day, [None] when the
      table cannot be fetched or read. *)

From Stdlib Require Import Bool Ascii String List ZArith NArith Lia.
From Stdlib Require Import Floats.
From Stdlib Require Uint63.
From AAC_tactics Require Import AAC.
Import ListNotations.

Local Open Scope string_scope.
Local Open Scope list_scope.

(** ** Exceptions and results *)

Inductive exn : Type :=
| ValueError (msg : string)
| KeyError (key : string)
| IndexError
| AttributeError
| TypeError
| ZeroDivisionError
| OverflowError
| MemoryError
| OSError
| Exception (msg : string).

Inductive result (A : Type) : Type :=
| OK (a : A)
| Raise (e : exn).

Arguments OK {A} a.
Arguments Raise {A} e.

Definition bind {A B : Type} (r : result A) (k : A -> result B) : result B :=
  match r with
  | OK a => k a
  | Raise e => Raise e
  end.

Notation "x <- c ;; k" := (bind c (fun x => k))
  (at level 61, c at next level, right associativity).
Notation "' p <- c ;; k" := (bind c (fun x => match x with p => k end))
  (at level 61, p pattern, c at next level, right associativity).

(** [try: ... except Exception: raise ValueError(msg)] *)
Definition reraise_as {A : Type} (msg : string) (r : result A) : result A :=
  match r with
  | OK a => OK a
  | Raise _ => Raise (ValueError msg)
  end.

(** A [for] loop whose body may raise, threading the loop state. *)
Fixpoint for_each {A S : Type} (body : S -> A -> result S) (xs : list A) (s : S)
  : result S :=
  match xs with
  | [] => OK s
  | x :: xs' => s' <- body s x ;; for_each body xs' s'
  end.

(** ** Strings *)

Definition code (c : ascii) : N := N_of_ascii c.

Definition in_range (lo hi : N) (c : ascii) : bool :=
  (lo <=? code c)%N && (code c <=? hi)%N.

(** [str.isspace] on one character. *)
Definition is_space (c : ascii) : bool :=
  in_range 9 13 c || in_range 28 32 c || (code c =? 133)%N || (code c =? 160)%N.

Definition is_digit (c : ascii) : bool := in_range 48 57 c.
Definition is_upper (c : ascii) : bool := in_range 65 90 c.
Definition is_lower (c : ascii) : bool := in_range 97 122 c.
Definition is_alpha (c : ascii) : bool := is_upper c || is_lower c.

Definition is_empty (s : string) : bool :=
  match s with EmptyString => true | String _ _ => false end.

Fixpoint lstrip (s : string) : string :=
  match s with
  | String c s' => if is_space c then lstrip s' else s
  | EmptyString => EmptyString
  end.

Fixpoint rstrip (s : string) : string :=
  match s with
  | String c s' =>
      let r := rstrip s' in
      if is_space c && is_empty r then EmptyString else String c r
  | EmptyString => EmptyString
  end.

(** [s.strip()] *)
Definition strip (s : string) : string := rstrip (lstrip s).

(** The white space that [int] and [float] skip around a literal: that of
    the C locale (tab to carriage return, and the space), and the white space
    beyond ASCII, which the interpreter turns into spaces before it reads the
    literal.  The separators of codes 28 to 31, which [str.strip] removes, are
    no such white space. *)
Definition is_literal_space (c : ascii) : bool :=
  in_range 9 13 c || (code c =? 32)%N || (code c =? 133)%N || (code c =? 160)%N.

Fixpoint lstrip_literal (s : string) : string :=
  match s with
  | String c s' => if is_literal_space c then lstrip_literal s' else s
  | EmptyString => EmptyString
  end.

Fixpoint rstrip_literal (s : string) : string :=
  match s with
  | String c s' =>
      let r := rstrip_literal s' in
      if is_literal_space c && is_empty r then EmptyString else String c r
  | EmptyString => EmptyString
  end.

Definition strip_literal (s : string) : string := rstrip_literal (lstrip_literal s).

(** [s.split()]: the maximal runs of non-space characters. *)
Fixpoint split_ws (tok s : string) : list string :=
  match s with
  | String c s' =>
      if is_space c
      then (if is_empty tok then split_ws "" s' else tok :: split_ws "" s')
      else split_ws (tok ++ String c "") s'
  | EmptyString => if is_empty tok then [] else [tok]
  end.

(** [s.split(sep)] for a one-character separator. *)
Fixpoint split_on (sep : ascii) (tok s : string) : list string :=
  match s with
  | String c s' =>
      if Ascii.eqb c sep then tok :: split_on sep "" s'
      else split_on sep (tok ++ String c "") s'
  | EmptyString => [tok]
  end.

(** [s.split(sep, 1)]: [None] stands for the one-element list [[s]]. *)
Fixpoint split_once (sep : ascii) (s : string) : option (string * string) :=
  match s with
  | String c s' =>
      if Ascii.eqb c sep then Some ("", s')
      else match split_once sep s' with
           | Some (a, b) => Some (String c a, b)
           | None => None
           end
  | EmptyString => None
  end.

Fixpoint take (n : nat) (s : string) : string :=
  match n, s with
  | S n', String c s' => String c (take n' s')
  | _, _ => EmptyString
  end.

Fixpoint drop (n : nat) (s : string) : string :=
  match n, s with
  | S n', String _ s' => drop n' s'
  | _, _ => s
  end.

(** [s.find(sub)], [None] for [-1]. *)
Fixpoint find (sub s : string) : option nat :=
  if prefix sub s then Some 0
  else match s with
       | String _ s' => option_map S (find sub s')
       | EmptyString => None
       end.

(** [s.replace(c, '')] for a one-character [c]. *)
Fixpoint remove_char (c : ascii) (s : string) : string :=
  match s with
  | String d s' => if Ascii.eqb d c then remove_char c s' else String d (remove_char c s')
  | EmptyString => EmptyString
  end.

Definition starts_with (p s : string) : bool := prefix p s.

(** [s.endswith(c)] paired with [s[:-1]]: the string without its last
    character when that character is [c]. *)
Fixpoint chop_suffix (c : ascii) (s : string) : option string :=
  match s with
  | EmptyString => None
  | String d EmptyString => if Ascii.eqb d c then Some EmptyString else None
  | String d s' => option_map (String d) (chop_suffix c s')
  end.

Definition upper_char (c : ascii) : ascii :=
  if is_lower c then ascii_of_N (code c - 32) else c.

Definition lower_char (c : ascii) : ascii :=
  if is_upper c then ascii_of_N (code c + 32) else c.

Fixpoint map_string (f : ascii -> ascii) (s : string) : string :=
  match s with
  | String c s' => String (f c) (map_string f s')
  | EmptyString => EmptyString
  end.

(** [s.upper()], on the letters of the basic alphabet the script applies it to. *)
Definition upper (s : string) : string := map_string upper_char s.

Fixpoint forall_chars (p : ascii -> bool) (s : string) : bool :=
  match s with
  | String c s' => p c && forall_chars p s'
  | EmptyString => true
  end.

Definition mem_string (x : string) (l : list string) : bool :=
  existsb (String.eqb x) l.

(** ** Dictionaries

    A [dict] keeps its keys in insertion order; assigning to a present key
    keeps the key where it is. *)

Definition dict (V : Type) : Type := list (string * V).

Fixpoint dict_get {V : Type} (d : dict V) (k : string) : option V :=
  match d with
  | [] => None
  | (k', v) :: d' => if String.eqb k k' then Some v else dict_get d' k
  end.

(** [k in d] *)
Definition dict_mem {V : Type} (d : dict V) (k : string) : bool :=
  match dict_get d k with Some _ => true | None => false end.

(** [d[k] = v] *)
Fixpoint dict_set {V : Type} (d : dict V) (k : string) (v : V) : dict V :=
  match d with
  | [] => [(k, v)]
  | (k', v') :: d' =>
      if String.eqb k k' then (k', v) :: d' else (k', v') :: dict_set d' k v
  end.

(** [d.pop(k)]; a key stands once in a dictionary. *)
Fixpoint dict_pop {V : Type} (d : dict V) (k : string) : dict V :=
  match d with
  | [] => []
  | (k', v') :: d' =>
      if String.eqb k k' then dict_pop d' k else (k', v') :: dict_pop d' k
  end.

(** [d[k]] *)
Definition getitem {V : Type} (d : dict V) (k : string) : result V :=
  match dict_get d k with
  | Some v => OK v
  | None => Raise (KeyError k)
  end.

Definition dict_keys {V : Type} (d : dict V) : list string := map fst d.

(** [a | b] *)
Definition dict_union {V : Type} (a b : dict V) : dict V :=
  fold_left (fun d kv => dict_set d (fst kv) (snd kv)) b a.

(** ** Regular expressions

    Every pattern of the script is a sequence of quantified character classes,
    some of them captured.  [re_match] is [re.match]: anchored at the start,
    greedy, backtracking; it returns the captured groups. *)

Record piece : Type := mk_piece {
  cls : ascii -> bool;
  lo : nat;               (* least number of repetitions *)
  hi : option nat;        (* greatest number of repetitions, if bounded *)
  captured : bool
}.

Fixpoint run_length (p : ascii -> bool) (bound : option nat) (s : string) : nat :=
  match bound, s with
  | Some 0, _ => 0
  | _, EmptyString => 0
  | _, String c s' =>
      if p c then S (run_length p (option_map Nat.pred bound) s') else 0
  end.

Fixpoint backtrack (p : piece) (rest : string -> option (list string))
    (s : string) (n : nat) {struct n} : option (list string) :=
  if Nat.ltb n (lo p) then None
  else match rest (drop n s) with
       | Some gs => Some (if captured p then take n s :: gs else gs)
       | None => match n with
                 | 0 => None
                 | S n' => backtrack p rest s n'
                 end
       end.

Fixpoint re_match (ps : list piece) (s : string) : option (list string) :=
  match ps with
  | [] => Some []
  | p :: ps' => backtrack p (re_match ps') s (run_length (cls p) (hi p) s)
  end.

Definition group (gs : list string) (i : nat) : string := nth (i - 1) gs "".

Definition plus (c : ascii -> bool) : piece := mk_piece c 1 None true.
Definition star_nc (c : ascii -> bool) : piece := mk_piece c 0 None false.
Definition exactly (n : nat) (c : ascii -> bool) : piece := mk_piece c n (Some n) true.
Definition lit (c : ascii) : piece := mk_piece (Ascii.eqb c) 1 (Some 1) false.

(** ** Numbers from text *)

Fixpoint span (p : ascii -> bool) (s : string) : string * string :=
  match s with
  | String c s' =>
      if p c then let (a, b) := span p s' in (String c a, b) else (EmptyString, s)
  | EmptyString => (EmptyString, EmptyString)
  end.

Definition digit_value (c : ascii) : Z := Z.of_N (code c - 48).

Fixpoint digits_value_from (acc : Z) (s : string) : Z :=
  match s with
  | String c s' => digits_value_from (10 * acc + digit_value c) s'
  | EmptyString => acc
  end.

Definition digits_value (s : string) : Z := digits_value_from 0 s.

(** An underscore of a numeric literal must stand between two digits; the
    underscores are dropped.  [prev] is the character before [s]. *)
Fixpoint drop_underscores (prev : ascii) (s : string) : option string :=
  match s with
  | String c s' =>
      if Ascii.eqb c "_"
      then (if is_digit prev then drop_underscores c s' else None)
      else if Ascii.eqb prev "_" && negb (is_digit c) then None
           else option_map (String c) (drop_underscores c s')
  | EmptyString => if Ascii.eqb prev "_" then None else Some EmptyString
  end.

Definition split_sign (s : string) : bool * string :=
  match s with
  | String "-" r => (true, r)
  | String "+" r => (false, r)
  | _ => (false, s)
  end.

(** The default limit of the interpreter on the digits of an integer literal. *)
Definition int_max_str_digits : nat := 4300.

(** [int(s)] *)
Definition py_int (s : string) : result Z :=
  let (neg, body) := split_sign (strip_literal s) in
  match drop_underscores "000" body with
  | Some ds =>
      if negb (is_empty ds) && forall_chars is_digit ds
         && Nat.leb (String.length ds) int_max_str_digits
      then OK (if neg then - digits_value ds else digits_value ds)%Z
      else Raise (ValueError "invalid literal for int()")
  | None => Raise (ValueError "invalid literal for int()")
  end.

Definition round_half_even (n d : Z) : Z :=
  let q := (n / d)%Z in
  match (2 * (n mod d) ?= d)%Z with
  | Lt => q
  | Gt => (q + 1)%Z
  | Eq => if Z.even q then q else (q + 1)%Z
  end.

(** [2^k <= n/d], for positive [n] and [d]. *)
Definition ge_pow2 (n d k : Z) : bool :=
  if (0 <=? k)%Z then (d * 2 ^ k <=? n)%Z else (d <=? n * 2 ^ (- k))%Z.

(** The binary64 number nearest to [n/d] (ties to even), for positive [n]
    and [d]; infinity past the largest finite number. *)
Definition float_of_ratio (n d : Z) : float :=
  let l := (Z.log2 n - Z.log2 d)%Z in
  let e := if ge_pow2 n d l then l else (l - 1)%Z in
  let ex := Z.max (e - 52) (-1074) in
  let q := if (0 <=? ex)%Z then round_half_even n (d * 2 ^ ex)
           else round_half_even (n * 2 ^ (- ex)) d in
  if (971 <? ex)%Z || ((ex =? 971)%Z && (2 ^ 53 <=? q)%Z) then infinity
  else Z.ldexp (of_uint63 (Uint63.of_Z q)) ex.

(** The binary64 number nearest to [m * 10^e10], for [0 <= m]. *)
Definition float_of_decimal (neg : bool) (m e10 : Z) : float :=
  let f := if (m =? 0)%Z then zero
           else if (0 <=? e10)%Z then float_of_ratio (m * 10 ^ e10) 1
                else float_of_ratio m (10 ^ (- e10)) in
  if neg then opp f else f.

(** digits [. digits] [e [sign] digits], with a digit before the exponent:
    the mantissa as an integer and the power of ten that scales it. *)
Definition parse_decimal (s : string) : option (Z * Z) :=
  let (ip, r1) := span is_digit s in
  let (fp, r2) := match r1 with
                  | String "." r => span is_digit r
                  | _ => (EmptyString, r1)
                  end in
  let m := digits_value (ip ++ fp) in
  let scale := Z.of_nat (String.length fp) in
  if is_empty ip && is_empty fp then None
  else match r2 with
       | EmptyString => Some (m, - scale)%Z
       | String c r3 =>
           if Ascii.eqb c "e" || Ascii.eqb c "E" then
             let (eneg, r4) := split_sign r3 in
             let (ed, r5) := span is_digit r4 in
             if is_empty ed || negb (is_empty r5) then None
             else Some (m, (if eneg then - digits_value ed else digits_value ed) - scale)%Z
           else None
       end.

Definition lower (s : string) : string := map_string lower_char s.

(** [float(s)] *)
Definition py_float (s : string) : result float :=
  match drop_underscores "000" (strip_literal s) with
  | Some t =>
      let (neg, body) := split_sign t in
      let word := lower body in
      if String.eqb word "inf" || String.eqb word "infinity"
      then OK (if neg then neg_infinity else infinity)
      else if String.eqb word "nan" then OK nan
      else match parse_decimal body with
           | Some (m, e10) => OK (float_of_decimal neg m e10)
           | None => Raise (ValueError "could not convert string to float")
           end
  | None => Raise (ValueError "could not convert string to float")
  end.

(** ** Calendar dates *)

Definition is_leap (y : Z) : bool :=
  ((y mod 4 =? 0) && (negb (y mod 100 =? 0) || (y mod 400 =? 0)))%Z.

Definition days_in_month (y m : Z) : Z :=
  if (m =? 2)%Z then (if is_leap y then 29 else 28)%Z
  else if ((m =? 4) || (m =? 6) || (m =? 9) || (m =? 11))%Z then 30%Z
  else 31%Z.

(** [datetime.datetime(y, m, d)] accepts the arguments. *)
Definition datetime_ok (y m d : Z) : bool :=
  ((1 <=? y) && (y <=? 9999) && (1 <=? m) && (m <=? 12)
   && (1 <=? d) && (d <=? days_in_month y m))%Z.

(** ** Values of the fields of an entry

    A field starts as text; pass 2 replaces [COSTEACH] by a number and
    [QUANTITY] by an integer and adds the number [VALUE].  The arithmetic of
    pass 3 is written once over the numbers [num] it is run with. *)

Class Num (num : Type) : Type := {
  nzero : num;                 (* 0.0 *)
  nadd : num -> num -> num;    (* x + y *)
  nsub : num -> num -> num;    (* x - y *)
  nneg : num -> num            (* -x *)
}.

(** The numbers of the script. *)
#[export] Instance float_Num : Num float := {
  nzero := zero;
  nadd := PrimFloat.add;
  nsub := PrimFloat.sub;
  nneg := PrimFloat.opp
}.

(** Numbers without rounding. *)
#[export] Instance Z_Num : Num Z := {
  nzero := 0%Z;
  nadd := Z.add;
  nsub := Z.sub;
  nneg := Z.opp
}.

Inductive pyval (num : Type) : Type :=
| VStr (s : string)
| VNum (x : num)
| VInt (n : Z).

Arguments VStr {num} s.
Arguments VNum {num} x.
Arguments VInt {num} n.

Definition as_str {num : Type} (v : pyval num) : result string :=
  match v with VStr s => OK s | _ => Raise TypeError end.

Definition as_num {num : Type} (v : pyval num) : result num :=
  match v with VNum x => OK x | _ => Raise TypeError end.

Definition as_int {num : Type} (v : pyval num) : result Z :=
  match v with VInt n => OK n | _ => Raise TypeError end.

(** One entry of [data_table]. *)
Definition line (num : Type) : Type := dict (pyval num).

Definition get_str {num : Type} (l : line num) (k : string) : result string :=
  v <- getitem l k ;; as_str v.

Definition get_num {num : Type} (l : line num) (k : string) : result num :=
  v <- getitem l k ;; as_num v.

Definition get_int {num : Type} (l : line num) (k : string) : result Z :=
  v <- getitem l k ;; as_int v.

(** [v == s] for a string [s] *)
Definition is_text {num : Type} (v : pyval num) (s : string) : bool :=
  match v with VStr t => String.eqb t s | _ => false end.

(** ** The helpers of the script *)

(** The exchange-rate table of a date, keyed by currency code. *)
Definition rate_provider : Type := string -> option (dict float).

Definition is_amount_char (c : ascii) : bool := is_digit c || Ascii.eqb c ".".
Definition is_ref_char (c : ascii) : bool :=
  is_digit c || Ascii.eqb c "-" || Ascii.eqb c "_".

(** ["([A-Za-z]{3})([0-9.]+)"] *)
Definition amount_re : list piece := [exactly 3 is_alpha; plus is_amount_char].
(** ["([A-Za-z]+)([0-9]+)"] *)
Definition item_re : list piece := [plus is_alpha; plus is_digit].
(** ["([0-9-_]+)[A-Za-z]*"] *)
Definition ref_re : list piece := [plus is_ref_char; star_nc is_alpha].
(** ["([0-9]{4})-([0-9]{2})-([0-9]{2})"] *)
Definition date_re : list piece :=
  [exactly 4 is_digit; lit "-"; exactly 2 is_digit; lit "-"; exactly 2 is_digit].

Definition convert_to_usd (rates : rate_provider) (date amount : string)
  : result float :=
  let amount := strip amount in
  '(currency, amount_value) <-
    (if String.eqb amount "0" then OK ("USD", zero)
     else match re_match amount_re amount with
          | None => Raise (ValueError "Invalid currency format")
          | Some matches =>
              v <- py_float (group matches 2) ;; OK (group matches 1, v)
          end) ;;
  let currency := if String.eqb currency "RMB" then "CNY" else currency in
  match rates date with
  | None => Raise OSError
  | Some exchange_rate =>
      if String.eqb (upper currency) "USD" then OK amount_value
      else if negb (dict_mem exchange_rate (upper currency))
      then Raise (ValueError "Invalid currency")
      else
        rate <- getitem exchange_rate (upper currency) ;;
        if PrimFloat.eqb rate zero then Raise ZeroDivisionError
        else OK (amount_value / rate)%float
  end.

Definition compute_value (rates : rate_provider) (date amount fee : string)
    (income : bool) : result float :=
  amount_value <- convert_to_usd rates date amount ;;
  fee_value <-
    match chop_suffix "%" fee with
    | Some percent => f <- py_float percent ;; OK (amount_value * f / 100)%float
    | None => convert_to_usd rates date fee
    end ;;
  if income then OK (amount_value - fee_value)%float
  else OK (amount_value + fee_value)%float.

Definition parse_items (items : string) : result (dict Z) :=
  for_each
    (fun ret item =>
       match re_match item_re item with
       | None => Raise (ValueError "Invalid ITEMS vaule: {items}")
       | Some matches =>
           n <- py_int (group matches 2) ;; OK (dict_set ret (group matches 1) n)
       end)
    (split_ws "" items) [].

Definition remove_suffix (s : string) : result string :=
  if negb (is_empty s) then
    match re_match ref_re s with
    | Some matches => OK (group matches 1)
    | None => Raise AttributeError
    end
  else OK "".

Record fields_of_action : Type := {
  required : list string;
  optional : list string
}.

Definition AVAILABLE_ACTIONS : dict fields_of_action := [
  ("OBTAIN", {| required := ["DATE"; "TYPE"; "PROJECT"; "QUANTITY"; "COSTEACH"];
                optional := ["BATCH"; "REMARKS"] |});
  ("RESERVE", {| required := ["DATE"; "REF"; "ITEMS"];
                 optional := ["REMARKS"] |});
  ("RELEASE", {| required := ["DATE"; "TYPE"; "REF"; "ITEMS"];
                 optional := ["REMARKS"] |});
  ("INCOME", {| required := ["DATE"; "TYPE"; "AMOUNT"; "FEE"];
                optional := ["REF"; "REMARKS"] |});
  ("EXPENSE", {| required := ["DATE"; "TYPE"; "AMOUNT"; "FEE"];
                 optional := ["PROJECT"; "BATCH"; "SUPPLIER"; "REF"; "REMARKS"] |})
].

Definition AVAILABLE_TYPES : dict (list string) := [
  ("OBTAIN", ["assembled"; "returned"; "repaired"]);
  ("RELEASE", ["sales"; "gift"; "replacement"; "giveaway"; "scrap"]);
  ("INCOME", ["sales"; "donation"]);
  ("EXPENSE", ["R&D"; "material"; "shipping"; "replacement"; "reimbursement"; "refund"])
].

Definition AVAILABLE_ITEMS : list string := ["ilonena"; "ilomusiali"].

(** ** Pass 1: the fields of every line *)

(** [i.split(' ',1)[0].strip() : i.split(' ',1)[1].strip()] *)
Definition parse_field {num : Type} (fields : line num) (i : string)
  : result (line num) :=
  match split_once " " i with
  | Some (name, value) => OK (dict_set fields (strip name) (VStr (strip value)))
  | None => Raise IndexError
  end.

Definition parse_line {num : Type} (l : string) : result (line num) :=
  match split_once ":" l with
  | None => Raise (ValueError "not enough values to unpack")
  | Some (action, fields) =>
      let fields :=
        match find "REMARKS" fields with
        | Some remarks_index =>
            filter (fun i => negb (is_empty i))
                   (map strip (split_on "," "" (take remarks_index fields)))
            ++ [drop remarks_index fields]
        | None => map strip (split_on "," "" fields)
        end in
      named <- for_each parse_field fields [] ;;
      OK (dict_union [("ACTION", VStr action)] named)
  end.

(** The argument is the list [f.readlines()] returns. *)
Definition pass1 {num : Type} (lines : list string) : result (list (line num)) :=
  for_each
    (fun data_table raw =>
       let l := remove_char "010" raw in
       if is_empty l || starts_with "#" l then OK data_table
       else entry <- parse_line l ;; OK (data_table ++ [entry]))
    lines [].

(** ** Pass 2: validation, optional fields and currency conversion *)

Definition check (ok : bool) (msg : string) : result unit :=
  if ok then OK tt else Raise (ValueError msg).

Definition fill_optional {num : Type} (fields : list string) (l : line num)
  : line num :=
  fold_left (fun l f => if dict_mem l f then l else dict_set l f (VStr "")) fields l.

(** The body of the loop of pass 2: the entry as pass 3 will read it, and the
    new [last_date]. *)
Definition validate_line (rates : rate_provider) (last_date : string)
    (l : line float) : result (string * line float) :=
  (* Stage A *)
  action <- get_str l "ACTION" ;;
  _ <- check (dict_mem AVAILABLE_ACTIONS action) "Invalid action" ;;
  spec <- getitem AVAILABLE_ACTIONS action ;;
  _ <- for_each (fun _ required_field =>
                   check (dict_mem l required_field) "Missing field")
                (required spec) tt ;;
  date <- get_str l "DATE" ;;
  _ <- match re_match date_re date with
       | None => Raise (ValueError "Wrong DATE format")
       | Some matches =>
           reraise_as "Wrong DATE value"
             (y <- py_int (group matches 1) ;;
              m <- py_int (group matches 2) ;;
              d <- py_int (group matches 3) ;;
              check (datetime_ok y m d) "date value out of range")
       end ;;
  _ <- check (negb (String.ltb date last_date)) "Non-chronological date found" ;;
  let last_date := date in
  _ <- (if dict_mem l "TYPE" then
          ty <- get_str l "TYPE" ;;
          types <- getitem AVAILABLE_TYPES action ;;
          check (mem_string ty types) "Invalid TYPE value"
        else OK tt) ;;
  _ <- (if dict_mem l "PROJECT" then
          project <- get_str l "PROJECT" ;;
          check (mem_string project AVAILABLE_ITEMS) "Invalid PROJECT value"
        else OK tt) ;;
  _ <- (if dict_mem l "ITEMS" then
          items <- get_str l "ITEMS" ;;
          parsed <- parse_items items ;;
          check (forallb (fun i => mem_string i AVAILABLE_ITEMS) (dict_keys parsed))
                "Invalid ITEMS value"
        else OK tt) ;;
  let l := fill_optional (optional spec) l in
  _ <- for_each (fun _ field =>
                   check (mem_string field ("ACTION" :: required spec ++ optional spec))
                         "Unrecognized field")
                (dict_keys l) tt ;;
  (* Stage B *)
  l <- (if dict_mem l "COSTEACH" then
          usd <- reraise_as "Invalid currency in the following line"
                   (costeach <- get_str l "COSTEACH" ;;
                    convert_to_usd rates date costeach) ;;
          OK (dict_set l "COSTEACH" (VNum usd))
        else OK l) ;;
  l <- (if dict_mem l "QUANTITY" then
          n <- reraise_as "Invalid qualtity value in the following line"
                 (quantity <- get_str l "QUANTITY" ;; py_int quantity) ;;
          OK (dict_set l "QUANTITY" (VInt n))
        else OK l) ;;
  l <- (if String.eqb action "INCOME" || String.eqb action "EXPENSE" then
          amount <- get_str l "AMOUNT" ;;
          fee <- get_str l "FEE" ;;
          value <- compute_value rates date amount fee (String.eqb action "INCOME") ;;
          OK (dict_set l "VALUE" (VNum value))
        else OK l) ;;
  (* Stage C *)
  _ <- (if String.eqb action "EXPENSE" then
          ty <- getitem l "TYPE" ;;
          if is_text ty "material" then
            project <- get_str l "PROJECT" ;;
            batch <- get_str l "BATCH" ;;
            supplier <- get_str l "SUPPLIER" ;;
            check (negb (is_empty project || is_empty batch || is_empty supplier))
                  "Must have PROJECT, BATCH and SUPPLIER for material"
          else OK tt
        else OK tt) ;;
  OK (last_date, l).

Definition pass2_from (rates : rate_provider) (last_date : string)
    (data_table : list (line float)) : result (string * list (line float)) :=
  for_each
    (fun '(last_date, done) l =>
       '(last_date, l') <- validate_line rates last_date l ;;
       OK (last_date, done ++ [l']))
    data_table (last_date, []).

Definition pass2 (rates : rate_provider) (data_table : list (line float))
  : result (list (line float)) :=
  '(_, validated) <- pass2_from rates "0000-00-00" data_table ;; OK validated.

(** ** Pass 3: inventory, references and aggregates *)

(** [[x] * n].  The list is empty for a negative [n]; the interpreter refuses
    an [n] that is no index (OverflowError) and a list of 2^60 items or more
    (MemoryError). *)
Definition list_repeat {A : Type} (x : A) (n : Z) : result (list A) :=
  if ((n <? - 2 ^ 63) || (2 ^ 63 <=? n))%Z then Raise OverflowError
  else if (2 ^ 60 <=? n)%Z then Raise MemoryError
  else OK (repeat x (Z.to_nat n)).

Fixpoint times {S : Type} (n : nat) (body : S -> result S) (s : S) : result S :=
  match n with
  | 0 => OK s
  | S n' => s' <- body s ;; times n' body s'
  end.

Section Ledger.

Context {num : Type} `{Num num}.

(** One value of [reserved_items_counter]. *)
Record reservation : Type := {
  items : dict Z;
  remarks : option (pyval num)
}.

(** The global variables of pass 3. *)
Record ledger : Type := {
  item_cost : dict (list num);
  ref_value : dict num;
  reserved_items_counter : dict reservation;
  cash_flow : num;
  profit : num
}.

Definition initial : ledger := {|
  item_cost := map (fun p => (p, [])) AVAILABLE_ITEMS;
  ref_value := [("", nzero)];
  reserved_items_counter := [];
  cash_flow := nzero;
  profit := nzero
|}.

Definition add_reserved_inventory (reserved : dict reservation)
    (ref itms : string) (rem : option (pyval num)) : result (dict reservation) :=
  parsed <- parse_items itms ;;
  for_each
    (fun reserved '(item_name, quantity) =>
       let reserved :=
         if negb (dict_mem reserved ref)
         then dict_set reserved ref {| items := []; remarks := rem |}
         else reserved in
       r <- getitem reserved ref ;;
       OK (dict_set reserved ref
             {| items := dict_set (items r) item_name quantity;
                remarks := remarks r |}))
    parsed reserved.

Definition take_reserved_inventory (reserved : dict reservation)
    (ref itms : string) : result (dict reservation) :=
  parsed <- parse_items itms ;;
  for_each
    (fun reserved '(item_name, quantity) =>
       r <- getitem reserved ref ;;
       outstanding <- getitem (items r) item_name ;;
       let left := (outstanding - quantity)%Z in
       let counted := dict_set (items r) item_name left in
       if (left =? 0)%Z then
         OK (dict_set reserved ref
               {| items := dict_pop counted item_name; remarks := remarks r |})
       else if (left <? 0)%Z then
         Raise (ValueError
           "Attempting to RELEASE more items than it has from RESERVE'd items")
       else
         OK (dict_set reserved ref {| items := counted; remarks := remarks r |}))
    parsed reserved.

(** The body of [for unit in range(quantity)]. *)
Definition take_unit (item_name : string) (acc : num * dict (list num))
  : result (num * dict (list num)) :=
  let (total, costs) := acc in
  queue <- getitem costs item_name ;;
  match queue with
  | [] => Raise IndexError
  | first :: rest => OK (nadd total first, dict_set costs item_name rest)
  end.

(** The total cost of the units taken, and the queues they leave. *)
Definition take_item_and_compute_cost (costs : dict (list num)) (itms : string)
  : result (num * dict (list num)) :=
  parsed <- parse_items itms ;;
  for_each
    (fun acc '(item_name, quantity) =>
       times (Z.to_nat quantity) (take_unit item_name) acc)
    parsed (nzero, costs).

(** The branches of the loop of pass 3.  [remove_suffix(line["REF"])], which
    the script evaluates again at each use, is evaluated once. *)

Definition on_income (st : ledger) (l : line num) : result ledger :=
  ref <- get_str l "REF" ;;
  key <- remove_suffix ref ;;
  old <- getitem (ref_value st) key ;;
  value <- get_num l "VALUE" ;;
  OK {| item_cost := item_cost st;
        ref_value := dict_set (ref_value st) key (nadd old value);
        reserved_items_counter := reserved_items_counter st;
        cash_flow := nadd (cash_flow st) value;
        profit := nadd (profit st) value |}.

Definition on_expense (st : ledger) (l : line num) : result ledger :=
  value <- get_num l "VALUE" ;;
  ty <- getitem l "TYPE" ;;
  if negb (is_text ty "material") then
    ref <- get_str l "REF" ;;
    key <- remove_suffix ref ;;
    old <- getitem (ref_value st) key ;;
    OK {| item_cost := item_cost st;
          ref_value := dict_set (ref_value st) key (nsub old value);
          reserved_items_counter := reserved_items_counter st;
          cash_flow := nsub (cash_flow st) value;
          profit := nsub (profit st) value |}
  else
    OK {| item_cost := item_cost st;
          ref_value := ref_value st;
          reserved_items_counter := reserved_items_counter st;
          cash_flow := nsub (cash_flow st) value;
          profit := profit st |}.

Definition on_obtain (st : ledger) (l : line num) : result ledger :=
  project <- get_str l "PROJECT" ;;
  queue <- getitem (item_cost st) project ;;
  costeach <- get_num l "COSTEACH" ;;
  quantity <- get_int l "QUANTITY" ;;
  units <- list_repeat costeach quantity ;;
  OK {| item_cost := dict_set (item_cost st) project (queue ++ units);
        ref_value := ref_value st;
        reserved_items_counter := reserved_items_counter st;
        cash_flow := cash_flow st;
        profit := profit st |}.

Definition on_reserve (st : ledger) (l : line num) : result ledger :=
  ref <- get_str l "REF" ;;
  key <- remove_suffix ref ;;
  if dict_mem (ref_value st) key then Raise (Exception "Duplicated RESERVE REF")
  else
    itms <- get_str l "ITEMS" ;;
    '(item_value, costs) <- take_item_and_compute_cost (item_cost st) itms ;;
    reserved <- add_reserved_inventory (reserved_items_counter st) key itms
                  (dict_get l "REMARKS") ;;
    OK {| item_cost := costs;
          ref_value := dict_set (ref_value st) key (nneg item_value);
          reserved_items_counter := reserved;
          cash_flow := cash_flow st;
          profit := nsub (profit st) item_value |}.

Definition on_release (st : ledger) (l : line num) : result ledger :=
  ref <- get_str l "REF" ;;
  key <- remove_suffix ref ;;
  if negb (dict_mem (reserved_items_counter st) key) then
    itms <- get_str l "ITEMS" ;;
    '(item_value, costs) <- take_item_and_compute_cost (item_cost st) itms ;;
    let refs := if negb (dict_mem (ref_value st) key)
                then dict_set (ref_value st) key nzero
                else ref_value st in
    old <- getitem refs key ;;
    OK {| item_cost := costs;
          ref_value := dict_set refs key (nsub old item_value);
          reserved_items_counter := reserved_items_counter st;
          cash_flow := cash_flow st;
          profit := nsub (profit st) item_value |}
  else
    itms <- get_str l "ITEMS" ;;
    reserved <- take_reserved_inventory (reserved_items_counter st) key itms ;;
    OK {| item_cost := item_cost st;
          ref_value := ref_value st;
          reserved_items_counter := reserved;
          cash_flow := cash_flow st;
          profit := profit st |}.

(** The body of the loop of pass 3. *)
Definition step (st : ledger) (l : line num) : result ledger :=
  action <- getitem l "ACTION" ;;
  if is_text action "INCOME" then on_income st l
  else if is_text action "EXPENSE" then on_expense st l
  else if is_text action "OBTAIN" then on_obtain st l
  else if is_text action "RESERVE" then on_reserve st l
  else if is_text action "RELEASE" then on_release st l
  else OK st.

Definition pass3_from (st : ledger) (data_table : list (line num)) : result ledger :=
  for_each step data_table st.

Definition pass3 (data_table : list (line num)) : result ledger :=
  pass3_from initial data_table.

End Ledger.

Arguments reservation num : clear implicits.
Arguments ledger num : clear implicits.

(** ** The script *)

Definition main (rates : rate_provider) (lines : list string)
  : result (ledger float) :=
  data_table <- pass1 lines ;;
  data_table <- pass2 rates data_table ;;
  pass3 data_table.

(** ** Observations on a run *)

Section Observations.

Context {num : Type} `{Num num}.

(** [sum(xs)], from the left. *)
Definition nsum (xs : list num) : num := fold_left nadd xs nzero.

(** The ledgers pass 3 goes through after [st], one for each entry it
    processes to the end. *)
Fixpoint ledger_trace (st : ledger num) (data_table : list (line num))
  : list (ledger num) :=
  match data_table with
  | [] => []
  | l :: rest =>
      match step st l with
      | OK st' => st' :: ledger_trace st' rest
      | Raise _ => []
      end
  end.

Definition action_is (l : line num) (a : string) : bool :=
  match dict_get l "ACTION" with Some v => is_text v a | None => false end.

Definition type_is (l : line num) (t : string) : bool :=
  match dict_get l "TYPE" with Some v => is_text v t | None => false end.

Definition value_of (l : line num) : num :=
  match get_num l "VALUE" with OK v => v | Raise _ => nzero end.

(** The VALUEs of the INCOME entries. *)
Definition income_values (data_table : list (line num)) : list num :=
  map value_of (filter (fun l => action_is l "INCOME") data_table).

(** The VALUEs of the EXPENSE entries whose TYPE is not material. *)
Definition expense_values (data_table : list (line num)) : list num :=
  map value_of
    (filter (fun l => action_is l "EXPENSE" && negb (type_is l "material"))
            data_table).

(** The unit costs at the front of the queues that a request for [parsed]
    takes away, item after item. *)
Fixpoint popped (costs : dict (list num)) (parsed : dict Z) : list num :=
  match parsed with
  | [] => []
  | (item_name, quantity) :: rest =>
      match dict_get costs item_name with
      | Some queue =>
          firstn (Z.to_nat quantity) queue
          ++ popped (dict_set costs item_name (skipn (Z.to_nat quantity) queue)) rest
      | None => popped costs rest
      end
  end.

(** Whether the entry takes units out of the cost queues: a RESERVE, or a
    RELEASE under a reference that holds no reservation. *)
Definition consumes (st : ledger num) (l : line num) : bool :=
  action_is l "RESERVE"
  || (action_is l "RELEASE"
      && match r <- get_str l "REF" ;; remove_suffix r with
         | OK key => negb (dict_mem (reserved_items_counter st) key)
         | Raise _ => false
         end).

(** The unit costs the entry [l] pops in the ledger [st]. *)
Definition popped_by (st : ledger num) (l : line num) : list num :=
  if consumes st l then
    match i <- get_str l "ITEMS" ;; parse_items i with
    | OK parsed => popped (item_cost st) parsed
    | Raise _ => []
    end
  else [].

(** The unit costs popped along the run of pass 3 from [st]. *)
Fixpoint consumed_costs (st : ledger num) (data_table : list (line num))
  : list num :=
  match data_table with
  | [] => []
  | l :: rest =>
      match step st l with
      | OK st' => popped_by st l ++ consumed_costs st' rest
      | Raise _ => []
      end
  end.

(** The branch a completed step went through. *)
Inductive branch (st : ledger num) (l : line num) (st' : ledger num) : Prop :=
| by_income : getitem l "ACTION" = OK (VStr "INCOME") ->
              on_income st l = OK st' -> branch st l st'
| by_expense : getitem l "ACTION" = OK (VStr "EXPENSE") ->
               on_expense st l = OK st' -> branch st l st'
| by_obtain : getitem l "ACTION" = OK (VStr "OBTAIN") ->
              on_obtain st l = OK st' -> branch st l st'
| by_reserve : getitem l "ACTION" = OK (VStr "RESERVE") ->
               on_reserve st l = OK st' -> branch st l st'
| by_release : getitem l "ACTION" = OK (VStr "RELEASE") ->
               on_release st l = OK st' -> branch st l st'
| by_none : action_is l "INCOME" = false -> action_is l "EXPENSE" = false ->
            action_is l "RESERVE" = false -> action_is l "RELEASE" = false ->
            st' = st -> branch st l st'.

(** What the profit becomes when the entry [l] goes through in the ledger
    [st]: the entry-level delta, applied to the profit [p]. *)
Definition profit_after (st : ledger num) (l : line num) (p : num) : num :=
  if action_is l "INCOME" then nadd p (value_of l)
  else if action_is l "EXPENSE" && negb (type_is l "material")
       then nsub p (value_of l)
       else if consumes st l then nsub p (nsum (popped_by st l))
            else p.

(** The profit reconstructed from the entry-level deltas, applied one after
    the other in the order of the entries, along the run of pass 3 from
    [st]. *)
Fixpoint profit_replay (st : ledger num) (data_table : list (line num)) (p : num)
  : num :=
  match data_table with
  | [] => p
  | l :: rest =>
      match step st l with
      | OK st' => profit_replay st' rest (profit_after st l p)
      | Raise _ => p
      end
  end.



(** The quantity of an item still reserved under a reference. *)
Definition outstanding (st : ledger num) (key item_name : string) : option Z :=
  match dict_get (reserved_items_counter st) key with
  | Some r => dict_get (items r) item_name
  | None => None
  end.

End Observations.

(** The ledgers of a run of the script, in the order pass 3 enters them,
    starting with the initial one; empty when the run never reaches pass 3,
    whose variables are then never assigned. *)
Definition ledger_history (rates : rate_provider) (lines : list string)
  : list (ledger float) :=
  match data_table <- pass1 lines ;; pass2 rates data_table with
  | OK data_table => initial :: ledger_trace initial data_table
  | Raise _ => []
  end.

(** Arithmetic without rounding: the numbers form a commutative group. *)
Class ExactNum (num : Type) `{Num num} : Prop := {
  nadd_assoc : forall x y z : num, nadd x (nadd y z) = nadd (nadd x y) z;
  nadd_comm : forall x y : num, nadd x y = nadd y x;
  nadd_zero_l : forall x : num, nadd nzero x = x;
  nadd_neg_r : forall x : num, nadd x (nneg x) = nzero;
  nsub_def : forall x y : num, nsub x y = nadd x (nneg y)
}.

(** The exceptions the script raises with [raise Exception(...)]. *)
Definition is_exception (e : exn) : bool :=
  match e with Exception _ => true | _ => false end.

(** A result that is not such an exception. *)
Definition quiet {A : Type} (r : result A) : Prop :=
  forall e, r = Raise e -> is_exception e = false.

(** A character that [str.split()] keeps. *)
Definition not_space (c : ascii) : bool := negb (is_space c).

(** A string that does not begin with a character of the class [p]. *)
Definition not_started_by (p : ascii -> bool) (s : string) : bool :=
  match s with
  | String c _ => negb (p c)
  | EmptyString => true
  end.

(** A rate provider that serves every date and lists no foreign currency. *)
Definition usd_only : rate_provider := fun _ => Some [].

(** ** Ledgers used as examples *)

(** The two entries of the end-to-end scenario, as the specification gives
    them. *)
Definition widget_ledger : list string := [
  "OBTAIN: DATE 2024-01-01, TYPE assembled, PROJECT widgetX, QUANTITY 2, COSTEACH USD5";
  "RELEASE: DATE 2024-01-02, TYPE sales, REF order1, ITEMS widgetX1"
].

(** The same two entries for the configured item ilonena and the reference 1. *)
Definition ilonena_ledger : list string := [
  "OBTAIN: DATE 2024-01-01, TYPE assembled, PROJECT ilonena, QUANTITY 2, COSTEACH USD5";
  "RELEASE: DATE 2024-01-02, TYPE sales, REF 1, ITEMS ilonena1"
].

(** [ilonena_ledger] as pass 3 reads it. *)
Definition ilonena_validated : list (line float) := [
  [("ACTION", VStr "OBTAIN"); ("DATE", VStr "2024-01-01");
   ("TYPE", VStr "assembled"); ("PROJECT", VStr "ilonena");
   ("QUANTITY", VInt 2); ("COSTEACH", VNum 5%float);
   ("BATCH", VStr ""); ("REMARKS", VStr "")];
  [("ACTION", VStr "RELEASE"); ("DATE", VStr "2024-01-02");
   ("TYPE", VStr "sales"); ("REF", VStr "1");
   ("ITEMS", VStr "ilonena1"); ("REMARKS", VStr "")]
].

(** A ledger whose second entry is dated before its first. *)
Definition out_of_order_ledger : list string := [
  "OBTAIN: DATE 2024-01-02, TYPE assembled, PROJECT ilonena, QUANTITY 1, COSTEACH USD5";
  "INCOME: DATE 2024-01-01, TYPE sales, AMOUNT USD10, FEE 0%"
].

(** Its two entries as pass 1 hands them to pass 2. *)
Definition out_of_order_first : line float :=
  [("ACTION", VStr "OBTAIN"); ("DATE", VStr "2024-01-02");
   ("TYPE", VStr "assembled"); ("PROJECT", VStr "ilonena");
   ("QUANTITY", VStr "1"); ("COSTEACH", VStr "USD5")].

Definition out_of_order_second : line float :=
  [("ACTION", VStr "INCOME"); ("DATE", VStr "2024-01-01"); ("TYPE", VStr "sales");
   ("AMOUNT", VStr "USD10"); ("FEE", VStr "0%")].

(** A ledger that holds one unit of ilonena, bought at 10 USD, and the
    entries that buy a second unit at 20 USD and release one unit. *)
Definition stocked : ledger float := {|
  item_cost := [("ilonena", [10%float]); ("ilomusiali", [])];
  ref_value := [("", 0%float)];
  reserved_items_counter := [];
  cash_flow := 0%float;
  profit := 0%float
|}.



(** Two RESERVE entries whose references strip to the same key 7, and the
    ledger the first of them leaves when it is processed in [stocked]. *)
Definition reserve_7a : line float :=
  [("ACTION", VStr "RESERVE"); ("DATE", VStr "2024-01-03"); ("REF", VStr "7a");
   ("ITEMS", VStr "ilonena1"); ("REMARKS", VStr "")].

Definition reserve_7b : line float :=
  [("ACTION", VStr "RESERVE"); ("DATE", VStr "2024-01-04"); ("REF", VStr "7b");
   ("ITEMS", VStr "ilonena1"); ("REMARKS", VStr "")].

Definition after_reserve : ledger float := {|
  item_cost := [("ilonena", []); ("ilomusiali", [])];
  ref_value := [("", 0%float); ("7", (-10)%float)];
  reserved_items_counter :=
    [("7", {| items := [("ilonena", 1%Z)]; remarks := Some (VStr "") |})];
  cash_flow := 0%float;
  profit := (-10)%float
|}.

(** A ledger that holds three units of ilonena, a RESERVE of the three under
    the reference 7, the ledger it leaves, and three RELEASE entries under
    references that strip to 7. *)
Definition three_in_stock : ledger float := {|
  item_cost := [("ilonena", [5%float; 5%float; 5%float]); ("ilomusiali", [])];
  ref_value := [("", 0%float)];
  reserved_items_counter := [];
  cash_flow := 0%float;
  profit := 0%float
|}.

Definition reserve_three : line float :=
  [("ACTION", VStr "RESERVE"); ("DATE", VStr "2024-01-02"); ("REF", VStr "7");
   ("ITEMS", VStr "ilonena3"); ("REMARKS", VStr "")].

Definition three_reserved : ledger float := {|
  item_cost := [("ilonena", []); ("ilomusiali", [])];
  ref_value := [("", 0%float); ("7", (-15)%float)];
  reserved_items_counter :=
    [("7", {| items := [("ilonena", 3%Z)]; remarks := Some (VStr "") |})];
  cash_flow := 0%float;
  profit := (-15)%float
|}.

Definition release_of (ref itms : string) : line float :=
  [("ACTION", VStr "RELEASE"); ("DATE", VStr "2024-01-03");
   ("TYPE", VStr "sales"); ("REF", VStr ref);
   ("ITEMS", VStr itms); ("REMARKS", VStr "")].

(** Three entries without reference, and a ledger with an order 1 next to an
    income without reference, in amounts that binary64 cannot hold exactly. *)
Definition tenths_ledger : list string := [
  "INCOME: DATE 2024-01-01, TYPE sales, AMOUNT USD0.1, FEE 0%";
  "EXPENSE: DATE 2024-01-02, TYPE shipping, AMOUNT USD0.3, FEE 0%";
  "INCOME: DATE 2024-01-03, TYPE sales, AMOUNT USD0.2, FEE 0%"
].

Definition order_ledger : list string := [
  "OBTAIN: DATE 2024-01-01, TYPE assembled, PROJECT ilonena, QUANTITY 1, COSTEACH USD0.1";
  "INCOME: DATE 2024-01-01, TYPE sales, AMOUNT USD0.7, FEE 0%";
  "RELEASE: DATE 2024-01-02, TYPE sales, REF 1, ITEMS ilonena1";
  "INCOME: DATE 2024-01-04, TYPE sales, AMOUNT USD0.2, FEE 0%, REF 1"
].

(** A purchase of material, which is paid but not yet consumed. *)
Definition material_ledger : list string := [
  "EXPENSE: DATE 2024-01-01, TYPE material, AMOUNT USD10, FEE 0, PROJECT ilonena, BATCH 1, SUPPLIER acme"
].

(** The validated entries of a ledger; none when the ledger is rejected. *)
Definition validated (rates : rate_provider) (lines : list string)
  : list (line float) :=
  match data_table <- pass1 lines ;; pass2 rates data_table with
  | OK data_table => data_table
  | Raise _ => []
  end.

(** The ledger that pass 3 leaves for the validated entries of a record
    file; the initial ledger when they are not processed to the end. *)
Definition reconciled (rates : rate_provider) (lines : list string)
  : ledger float :=
  match pass3 (validated rates lines) with
  | OK st => st
  | Raise _ => initial
  end.

(** The claimed reconstruction of the profit from the entries. *)
Definition profit_by_entries {num : Type} `{Num num} (data_table : list (line num))
  : num :=
  nsub (nsub (nsum (income_values data_table)) (nsum (expense_values data_table)))
       (nsum (consumed_costs initial data_table)).


(** Four entries in whole cents, as pass 3 reads them, and the ledger they
    leave. *)
Definition cents_table : list (line Z) := [
  [("ACTION", VStr "OBTAIN"); ("PROJECT", VStr "ilonena");
   ("QUANTITY", VInt 2); ("COSTEACH", VNum 500%Z)];
  [("ACTION", VStr "RELEASE"); ("REF", VStr "1"); ("ITEMS", VStr "ilonena1")];
  [("ACTION", VStr "INCOME"); ("REF", VStr "1"); ("VALUE", VNum 1200%Z)];
  [("ACTION", VStr "EXPENSE"); ("TYPE", VStr "shipping"); ("REF", VStr "");
   ("VALUE", VNum 300%Z)]
].

Definition cents_final : ledger Z := {|
  item_cost := [("ilonena", [500%Z]); ("ilomusiali", [])];
  ref_value := [("", (-300)%Z); ("1", 700%Z)];
  reserved_items_counter := [];
  cash_flow := 900%Z;
  profit := 400%Z
|}.

(** An income under a reference that no earlier entry mentions. *)
Definition income_new_reference : list string := [
  "INCOME: DATE 2024-01-01, TYPE sales, AMOUNT USD10, FEE 0%, REF 1"
].

(** ** Predicates of the further properties *)

(** A well-formed entry of a parsed request. *)
Definition item_entry_ok (entry : string * Z) : Prop :=
  fst entry <> "" /\ forall_chars is_alpha (fst entry) = true /\ (0 <= snd entry)%Z.

(** The dates follow one another without going back, starting after [last]. *)
Fixpoint chronological (last : string) (dates : list string) : bool :=
  match dates with
  | [] => true
  | d :: rest => negb (String.ltb d last) && chronological d rest
  end.

(** The DATE of an entry. *)
Definition date_of (l : line float) : string :=
  match get_str l "DATE" with OK d => d | Raise _ => "" end.

(** The fields that pass 2 rewrites or adds. *)
Definition enriched (k : string) : bool :=
  String.eqb k "COSTEACH" || String.eqb k "QUANTITY" || String.eqb k "VALUE".

(** The entries of a ledger as pass 1 reads them; none when a line is
    malformed. *)
Definition parsed_table (lines : list string) : list (line float) :=
  match pass1 lines with
  | OK data_table => data_table
  | Raise _ => []
  end.

(** What the cash flow becomes when an entry goes through. *)
Definition cash_after {num : Type} `{Num num} (cash : num) (l : line num) : num :=
  if action_is l "INCOME" then nadd cash (value_of l)
  else if action_is l "EXPENSE" then nsub cash (value_of l)
  else cash.

(** Whether the queues hold the units that an entry of a request asks for;
    nothing is looked up for an entry that asks for no unit. *)
Definition in_stock {num : Type} (costs : dict (list num)) (entry : string * Z)
  : bool :=
  match Z.to_nat (snd entry) with
  | 0 => true
  | S _ =>
      match dict_get costs (fst entry) with
      | Some queue => Nat.leb (Z.to_nat (snd entry)) (List.length queue)
      | None => false
      end
  end.

(** The number of units that a request asks of an item. *)
Definition requested (parsed : dict Z) (item_name : string) : nat :=
  match dict_get parsed item_name with
  | Some quantity => Z.to_nat quantity
  | None => 0
  end.

(** The unit costs at the front of the queue of an item that an entry of a
    request asks for. *)
Definition oldest_units {num : Type} (costs : dict (list num)) (entry : string * Z)
  : list num :=
  match dict_get costs (fst entry) with
  | Some queue => firstn (Z.to_nat (snd entry)) queue
  | None => []
  end.

(** An OBTAIN entry that brings a negative number of units. *)
Definition negative_obtain : list string := [
  "OBTAIN: DATE 2024-01-01, TYPE returned, PROJECT ilonena, QUANTITY -3, COSTEACH USD5"
].

(** A RESERVE entry as it stands in a record file. *)
Definition reserve_record : list string := [
  "RESERVE: DATE 2024-01-03, REF 7a, ITEMS ilonena1"
].

(** Whether pass 1 reads an entry from a line of the file: the line is
    neither empty nor a comment. *)
Definition kept (raw : string) : bool :=
  negb (is_empty (remove_char "010" raw) || starts_with "#" (remove_char "010" raw)).

(** A rate provider that can read no table: no cache file, no network. *)
Definition no_rates : rate_provider := fun _ => None.

(** * Properties *)

(** ** Results and loops *)

Lemma for_each_app {A S : Type} (body : S -> A -> result S) (xs ys : list A) (s : S) :
  for_each body (xs ++ ys) s = s' <- for_each body xs s ;; for_each body ys s'.
Proof.
  revert s. induction xs as [|x xs IH]; intros s; simpl.
  - reflexivity.
  - destruct (body s x) as [s'|e]; simpl; [apply IH | reflexivity].
Qed.

(** ** Strings and patterns *)

Lemma take_app (a b : string) : take (String.length a) (a ++ b) = a.
Proof. induction a as [|c a IH]; simpl; [destruct b | rewrite IH]; reflexivity. Qed.

Lemma drop_app (a b : string) : drop (String.length a) (a ++ b) = b.
Proof. induction a as [|c a IH]; simpl; [destruct b; reflexivity | exact IH]. Qed.

Lemma run_length_app (p : ascii -> bool) (a b : string) :
  forall_chars p a = true -> not_started_by p b = true ->
  run_length p None (a ++ b) = String.length a.
Proof.
  intros Ha Hb. induction a as [|c a IH]; simpl in *.
  - destruct b as [|c b]; simpl in *; [reflexivity|].
    apply negb_true_iff in Hb. rewrite Hb. reflexivity.
  - apply andb_true_iff in Ha as [Hc Ha]. rewrite Hc, (IH Ha). reflexivity.
Qed.

Lemma backtrack_hit (p : piece) (rest : string -> option (list string))
    (s : string) (n : nat) (gs : list string) :
  Nat.ltb n (lo p) = false -> rest (drop n s) = Some gs ->
  backtrack p rest s n = Some (if captured p then take n s :: gs else gs).
Proof.
  intros Hlo Hrest. destruct n; simpl in *; rewrite Hlo, Hrest; reflexivity.
Qed.

Lemma re_match_star (c : ascii -> bool) (s : string) :
  re_match [star_nc c] s = Some [].
Proof. simpl. apply (backtrack_hit (star_nc c)); reflexivity. Qed.

Lemma alpha_not_ref_char (c : ascii) : is_alpha c = true -> is_ref_char c = false.
Proof.
  destruct c as [[] [] [] [] [] [] [] []]; vm_compute; intros E;
    first [reflexivity | discriminate E].
Qed.

Lemma alpha_not_started_by_ref (s : string) :
  forall_chars is_alpha s = true -> not_started_by is_ref_char s = true.
Proof.
  destruct s as [|c s]; simpl; intros Hs; [reflexivity|].
  apply andb_true_iff in Hs as [Hc _]. rewrite (alpha_not_ref_char c Hc). reflexivity.
Qed.

Lemma re_match_ref (p rest : string) :
  p <> "" -> forall_chars is_ref_char p = true ->
  not_started_by is_ref_char rest = true ->
  re_match ref_re (p ++ rest) = Some [p].
Proof.
  intros Hne Hp Hrest. unfold ref_re.
  change (re_match (plus is_ref_char :: [star_nc is_alpha]) (p ++ rest))
    with (backtrack (plus is_ref_char) (re_match [star_nc is_alpha]) (p ++ rest)
            (run_length is_ref_char None (p ++ rest))).
  rewrite (run_length_app _ _ _ Hp Hrest).
  rewrite (backtrack_hit _ _ _ _ [] ); simpl captured.
  - rewrite take_app. reflexivity.
  - destruct p; [contradiction Hne; reflexivity | reflexivity].
  - apply re_match_star.
Qed.

Lemma remove_suffix_run (p rest : string) :
  p <> "" -> forall_chars is_ref_char p = true ->
  not_started_by is_ref_char rest = true ->
  remove_suffix (p ++ rest) = OK p.
Proof.
  intros Hne Hp Hrest. unfold remove_suffix.
  rewrite (re_match_ref p rest Hne Hp Hrest).
  destruct p; [contradiction Hne; reflexivity | reflexivity].
Qed.

Lemma remove_suffix_no_match (c : ascii) (s : string) :
  is_ref_char c = false -> remove_suffix (String c s) = Raise AttributeError.
Proof.
  intros Hc. unfold remove_suffix, ref_re. simpl. rewrite Hc. reflexivity.
Qed.

(** C4 (as amended).  The reference key of the empty string is the empty
    string.  The key of a string that begins with a digit, a hyphen or an
    underscore is its longest leading run [p] of such characters, whatever
    follows the run; in particular two strings that extend [p] by letters
    only, such as 123a and 123b, have the same key [p].  On a non-empty string
    that begins with any other character the derivation raises: the pattern
    does not match. *)
Theorem remove_suffix_spec :
  forall (p rest sfx1 sfx2 : string) (c : ascii) (s : string),
    p <> "" ->
    forall_chars is_ref_char p = true ->
    not_started_by is_ref_char rest = true ->
    forall_chars is_alpha sfx1 = true ->
    forall_chars is_alpha sfx2 = true ->
    is_ref_char c = false ->
    remove_suffix "" = OK ""
    /\ remove_suffix (p ++ rest) = OK p
    /\ remove_suffix (p ++ sfx1) = remove_suffix (p ++ sfx2)
    /\ remove_suffix (String c s) = Raise AttributeError.
Proof.
  intros p rest sfx1 sfx2 c s Hne Hp Hrest H1 H2 Hc.
  repeat split.
  - apply remove_suffix_run; assumption.
  - rewrite !remove_suffix_run; auto using alpha_not_started_by_ref.
  - apply remove_suffix_no_match; assumption.
Qed.

Lemma remove_suffix_spec_witness :
  remove_suffix "" = OK ""
  /\ remove_suffix ("123" ++ "a-4") = OK "123"
  /\ remove_suffix ("123" ++ "a") = remove_suffix ("123" ++ "b")
  /\ remove_suffix (String "o" "rder-123a") = Raise AttributeError.
Proof.
  apply (remove_suffix_spec "123" "a-4" "a" "b" "o" "rder-123a");
    solve [reflexivity | discriminate].
Defined.

(** C4, counterexample.  The derivation fails on order-123a and on
    order-123b: neither has a key. *)
Lemma remove_suffix_fails_on_named_reference :
  remove_suffix "order-123a" = Raise AttributeError
  /\ remove_suffix "order-123b" = Raise AttributeError.
Proof. split; reflexivity. Qed.

(** ** Currency conversion and fees *)

Lemma chop_suffix_app (c : ascii) (p : string) :
  chop_suffix c (p ++ String c "") = Some p.
Proof.
  induction p as [|d p IH]; simpl.
  - rewrite Ascii.eqb_refl. reflexivity.
  - rewrite IH. destruct p; reflexivity.
Qed.

Lemma compute_value_percent (rates : rate_provider) (date amount percent : string)
    (a f : float) (income : bool) :
  convert_to_usd rates date amount = OK a ->
  py_float percent = OK f ->
  compute_value rates date amount (percent ++ "%") income
  = OK (if income then a - a * f / 100 else a + a * f / 100)%float.
Proof.
  intros Ha Hf. unfold compute_value.
  rewrite Ha; simpl. rewrite chop_suffix_app, Hf; simpl.
  destruct income; reflexivity.
Qed.

Lemma compute_value_absolute (rates : rate_provider) (date amount fee : string)
    (a v : float) (income : bool) :
  convert_to_usd rates date amount = OK a ->
  chop_suffix "%" fee = None ->
  convert_to_usd rates date fee = OK v ->
  compute_value rates date amount fee income
  = OK (if income then a - v else a + v)%float.
Proof.
  intros Ha Hfee Hv. unfold compute_value.
  rewrite Ha; simpl. rewrite Hfee, Hv; simpl.
  destruct income; reflexivity.
Qed.

Lemma convert_usd_100 (rates : rate_provider) (date : string) (table : dict float) :
  rates date = Some table -> convert_to_usd rates date "USD100" = OK 100%float.
Proof. intros Hd. vm_compute. rewrite Hd. reflexivity. Qed.

(** C9 (as amended).  On a date whose rate table can be read, an income of
    USD100 with a fee of 0% is worth 100.0 and an expense of USD100 with a fee
    of 10% is worth 110.0.  In general a fee [percent%] is that percentage of the
    converted amount, a fee that is not a percentage is converted on its own,
    and the fee is subtracted from the amount of an income and added to the
    amount of an expense. *)
Theorem compute_value_spec :
  forall (rates : rate_provider) (d : string) (table : dict float)
         (amount percent fee : string) (a f v : float),
    rates d = Some table ->
    convert_to_usd rates d amount = OK a ->
    py_float percent = OK f ->
    chop_suffix "%" fee = None ->
    convert_to_usd rates d fee = OK v ->
    compute_value rates d "USD100" "0%" true = OK 100%float
    /\ compute_value rates d "USD100" "10%" false = OK 110%float
    /\ compute_value rates d amount (percent ++ "%") true = OK (a - a * f / 100)%float
    /\ compute_value rates d amount (percent ++ "%") false = OK (a + a * f / 100)%float
    /\ compute_value rates d amount fee true = OK (a - v)%float
    /\ compute_value rates d amount fee false = OK (a + v)%float.
Proof.
  intros rates d table amount percent fee a f v Hd Ha Hf Hfee Hv.
  pose proof (convert_usd_100 rates d table Hd) as H100.
  repeat split.
  - exact (compute_value_percent rates d "USD100" "0" 100%float 0%float true
             H100 eq_refl).
  - exact (compute_value_percent rates d "USD100" "10" 100%float 10%float false
             H100 eq_refl).
  - apply (compute_value_percent rates d amount percent a f true Ha Hf).
  - apply (compute_value_percent rates d amount percent a f false Ha Hf).
  - apply (compute_value_absolute rates d amount fee a v true Ha Hfee Hv).
  - apply (compute_value_absolute rates d amount fee a v false Ha Hfee Hv).
Qed.

Lemma compute_value_spec_witness :
  compute_value usd_only "2024-01-01" "USD100" "0%" true = OK 100%float
  /\ compute_value usd_only "2024-01-01" "USD100" "10%" false = OK 110%float
  /\ compute_value usd_only "2024-01-01" "USD250" ("4" ++ "%") true
     = OK (250 - 250 * 4 / 100)%float
  /\ compute_value usd_only "2024-01-01" "USD250" ("4" ++ "%") false
     = OK (250 + 250 * 4 / 100)%float
  /\ compute_value usd_only "2024-01-01" "USD250" "USD3" true = OK (250 - 3)%float
  /\ compute_value usd_only "2024-01-01" "USD250" "USD3" false = OK (250 + 3)%float.
Proof.
  apply (compute_value_spec usd_only "2024-01-01" [] "USD250" "4" "USD3"
           250%float 4%float 3%float); reflexivity.
Defined.

(** C9, counterexample.  On a date whose rate table cannot be read,
    [compute_value] returns nothing, not even for USD100 with a fee of 0%:
    the table of the date is read before the currency is compared with USD. *)
Lemma compute_value_without_rates :
  compute_value no_rates "2024-01-01" "USD100" "0%" true = Raise OSError.
Proof. vm_compute. reflexivity. Qed.

(** ** Whole runs on small ledgers *)

(** C3.  An INCOME entry whose reference is not yet a key of [ref_value]
    does not add its value anywhere: the update of [ref_value] raises
    [KeyError] and the run aborts.  (The RELEASE branch creates a missing key
    at zero before it updates it.) *)
Theorem income_new_reference_raises :
  main usd_only income_new_reference = Raise (KeyError "1").
Proof. vm_compute. reflexivity. Qed.

(** C5, counterexample.  The scenario as given does not validate: widgetX is
    not one of [AVAILABLE_ITEMS]. *)
Lemma widget_ledger_rejected :
  main usd_only widget_ledger = Raise (ValueError "Invalid PROJECT value").
Proof. vm_compute. reflexivity. Qed.


(** ** Pass 2 entry by entry *)

Ltac bind_ok_in H :=
  match type of H with
  | bind ?r _ = OK _ =>
      let a := fresh "a" in
      let E := fresh "E" in
      destruct r as [a|] eqn:E; cbn [bind] in H; [|discriminate H]
  end.

Lemma pass2_loop_acc (rates : rate_provider) (table : list (line float))
    (last : string) (done : list (line float)) :
  for_each
    (fun '(last_date, done) l =>
       '(last_date, l') <- validate_line rates last_date l ;;
       OK (last_date, done ++ [l']))
    table (last, done)
  = '(last', more) <- pass2_from rates last table ;; OK (last', done ++ more).
Proof.
  unfold pass2_from. revert last done.
  induction table as [|l table IH]; intros last done; cbn [for_each bind].
  - rewrite app_nil_r. reflexivity.
  - destruct (validate_line rates last l) as [[d l']|e]; cbn [bind]; [|reflexivity].
    rewrite (IH d (done ++ [l'])), (IH d ([] ++ [l'])).
    destruct (for_each _ table (d, [])) as [[d' more]|e]; cbn [bind]; [|reflexivity].
    rewrite <- app_assoc. reflexivity.
Qed.

Lemma pass2_from_cons (rates : rate_provider) (last : string)
    (l : line float) (table : list (line float)) :
  pass2_from rates last (l :: table)
  = '(d, l') <- validate_line rates last l ;;
    '(d', more) <- pass2_from rates d table ;;
    OK (d', l' :: more).
Proof.
  unfold pass2_from at 1. cbn [for_each].
  destruct (validate_line rates last l) as [[d l']|e]; cbn [bind]; [|reflexivity].
  apply (pass2_loop_acc rates table d ([] ++ [l'])).
Qed.

Lemma pass2_from_app (rates : rate_provider) (last : string)
    (done rest : list (line float)) :
  pass2_from rates last (done ++ rest)
  = '(d, done') <- pass2_from rates last done ;;
    '(d', rest') <- pass2_from rates d rest ;;
    OK (d', done' ++ rest').
Proof.
  unfold pass2_from at 1. rewrite for_each_app.
  fold (pass2_from rates last done).
  destruct (pass2_from rates last done) as [[d done']|e]; cbn [bind]; [|reflexivity].
  apply pass2_loop_acc.
Qed.

Lemma pass2_stops_at_failure (rates : rate_provider)
    (done rest done' : list (line float)) (l : line float) (last : string) (e : exn) :
  pass2_from rates "0000-00-00" done = OK (last, done') ->
  validate_line rates last l = Raise e ->
  pass2 rates (done ++ l :: rest) = Raise e.
Proof.
  intros Hdone Hl. unfold pass2.
  rewrite pass2_from_app, Hdone; cbn [bind].
  rewrite pass2_from_cons, Hl. reflexivity.
Qed.

Lemma validate_line_chronological (rates : rate_provider) (last d : string)
    (l l' : line float) :
  validate_line rates last l = OK (d, l') ->
  get_str l "DATE" = OK d /\ String.ltb d last = false.
Proof.
  intros Hv. unfold validate_line in Hv.
  do 7 bind_ok_in Hv.
  unfold check in E5. destruct (String.ltb a3 last) eqn:Hlt; [discriminate E5|].
  repeat bind_ok_in Hv.
  injection Hv as <- _. split; [reflexivity | exact Hlt].
Qed.


(** Runs the first action of a sequence on its own, so that what follows it
    is only ever entered with a value. *)
Ltac eval_bind_with Hd :=
  lazymatch goal with
  | |- bind ?r ?k = _ =>
      let r' := fresh "r" in
      let E := fresh "E" in
      remember r as r' eqn:E in |- *;
      vm_compute in E; try (rewrite Hd in E; vm_compute in E);
      subst r'; cbn beta iota zeta delta [bind]
  end.

Lemma ilonena_ledger_validates (rates : rate_provider) (table : dict float) :
  rates "2024-01-01" = Some table ->
  (data_table <- pass1 ilonena_ledger ;; pass2 rates data_table)
  = OK ilonena_validated.
Proof.
  intros Hd.
  assert (H1 : @pass1 float ilonena_ledger
               = OK [ [("ACTION", VStr "OBTAIN"); ("DATE", VStr "2024-01-01");
                       ("TYPE", VStr "assembled"); ("PROJECT", VStr "ilonena");
                       ("QUANTITY", VStr "2"); ("COSTEACH", VStr "USD5")];
                      [("ACTION", VStr "RELEASE"); ("DATE", VStr "2024-01-02");
                       ("TYPE", VStr "sales"); ("REF", VStr "1");
                       ("ITEMS", VStr "ilonena1")] ])
    by (vm_compute; reflexivity).
  rewrite H1; cbn [bind]. unfold pass2.
  rewrite pass2_from_cons.
  match goal with
  | |- context [validate_line rates "0000-00-00" ?l] =>
      assert (V1 : validate_line rates "0000-00-00" l
                   = OK ("2024-01-01", nth 0 ilonena_validated []))
        by (unfold validate_line; repeat eval_bind_with Hd; reflexivity)
  end.
  rewrite V1; cbn [bind]. rewrite pass2_from_cons.
  match goal with
  | |- context [validate_line rates "2024-01-01" ?l] =>
      assert (V2 : validate_line rates "2024-01-01" l
                   = OK ("2024-01-02", nth 1 ilonena_validated []))
        by (unfold validate_line; repeat eval_bind_with Hd; reflexivity)
  end.
  rewrite V2; cbn [bind]. reflexivity.
Qed.

(** C5 (as amended).  With the rate table of 2024-01-01 at hand, the scenario
    for the configured item ilonena under the reference 1 validates and
    reconciles: one unit of ilonena is left, at 5 USD; the reference 1 stands
    at -5.0; the profit is -5.0 and the cash flow 0.0. *)
Theorem ilonena_ledger_reconciles :
  forall (rates : rate_provider) (table : dict float),
    rates "2024-01-01" = Some table ->
    exists st : ledger float,
      main rates ilonena_ledger = OK st
      /\ dict_get (item_cost st) "ilonena" = Some [5%float]
      /\ dict_get (ref_value st) "1" = Some (-5)%float
      /\ profit st = (-5)%float
      /\ cash_flow st = 0%float.
Proof.
  intros rates table Hd.
  pose proof (ilonena_ledger_validates rates table Hd) as Hv.
  unfold main.
  destruct (pass1 ilonena_ledger) as [t|e]; cbn [bind] in *; [|discriminate Hv].
  rewrite Hv; cbn [bind].
  eexists. split; [vm_compute; reflexivity|]. repeat split.
Qed.

Lemma ilonena_ledger_reconciles_witness :
  exists st : ledger float,
    main usd_only ilonena_ledger = OK st
    /\ dict_get (item_cost st) "ilonena" = Some [5%float]
    /\ dict_get (ref_value st) "1" = Some (-5)%float
    /\ profit st = (-5)%float
    /\ cash_flow st = 0%float.
Proof. apply (ilonena_ledger_reconciles usd_only []). reflexivity. Defined.

Lemma pass2_from_last_date (rates : rate_provider) (d0 last : string)
    (before done' : list (line float)) (prev : line float) :
  pass2_from rates d0 (before ++ [prev]) = OK (last, done') ->
  get_str prev "DATE" = OK last.
Proof.
  rewrite pass2_from_app. intros Hv.
  destruct (pass2_from rates d0 before) as [[d b']|]; cbn [bind] in Hv;
    [|discriminate Hv].
  rewrite pass2_from_cons in Hv.
  destruct (validate_line rates d prev) as [[d' p']|] eqn:Hp; cbn [bind] in Hv;
    [|discriminate Hv].
  apply validate_line_chronological in Hp as [Hdate _].
  cbn in Hv. injection Hv as <- _. exact Hdate.
Qed.

(** C8.  Let the entries [done] before the entry [l] pass validation, [last]
    being the date validation has reached (the DATE of the entry just before
    [l], if there is one).  If [l] is dated before [last] it fails
    validation.  If [l] fails validation, with the exception [e], the run ends
    with [e] and pass 3 is never entered: no ledger is ever created, let
    alone changed.  Conversely a run that enters pass 3 has validated every
    entry, and pass 3 starts from the initial ledger. *)
Theorem validation_precedes_reconciliation :
  forall (rates : rate_provider) (lines : list string)
         (done rest done' : list (line float)) (l : line float) (last : string),
    pass1 lines = OK (done ++ l :: rest) ->
    pass2_from rates "0000-00-00" done = OK (last, done') ->
    (forall before prev, done = before ++ [prev] -> get_str prev "DATE" = OK last)
    /\ (forall date, get_str l "DATE" = OK date -> String.ltb date last = true ->
        exists e, validate_line rates last l = Raise e)
    /\ (forall e, validate_line rates last l = Raise e ->
        main rates lines = Raise e /\ ledger_history rates lines = [])
    /\ (ledger_history rates lines <> [] ->
        exists validated,
          pass2 rates (done ++ l :: rest) = OK validated
          /\ ledger_history rates lines = initial :: ledger_trace initial validated).
Proof.
  intros rates lines done rest done' l last H1 Hdone.
  split; [|split; [|split]].
  - intros before prev ->. exact (pass2_from_last_date _ _ _ _ _ _ Hdone).
  - intros date Hdate Hlt.
    destruct (validate_line rates last l) as [[d l']|e] eqn:Hv; [|exists e; reflexivity].
    apply validate_line_chronological in Hv as [Hd' Hge].
    rewrite Hdate in Hd'. injection Hd' as <-. rewrite Hlt in Hge. discriminate Hge.
  - intros e He. split.
    + unfold main. rewrite H1; cbn [bind].
      rewrite (pass2_stops_at_failure rates done rest done' l last e Hdone He).
      reflexivity.
    + unfold ledger_history. rewrite H1; cbn [bind].
      rewrite (pass2_stops_at_failure rates done rest done' l last e Hdone He).
      reflexivity.
  - intros Hne. unfold ledger_history in *. rewrite H1 in *; cbn [bind] in *.
    destruct (pass2 rates (done ++ l :: rest)) as [validated|e].
    + exists validated. split; reflexivity.
    + contradiction Hne; reflexivity.
Qed.

Lemma validation_precedes_reconciliation_witness :
  (forall before prev,
      [out_of_order_first] = before ++ [prev] -> get_str prev "DATE" = OK "2024-01-02")
  /\ (forall date,
        get_str out_of_order_second "DATE" = OK date ->
        String.ltb date "2024-01-02" = true ->
        exists e, validate_line usd_only "2024-01-02" out_of_order_second = Raise e)
  /\ (forall e,
        validate_line usd_only "2024-01-02" out_of_order_second = Raise e ->
        main usd_only out_of_order_ledger = Raise e
        /\ ledger_history usd_only out_of_order_ledger = [])
  /\ (ledger_history usd_only out_of_order_ledger <> [] ->
      exists validated,
        pass2 usd_only ([out_of_order_first] ++ out_of_order_second :: []) = OK validated
        /\ ledger_history usd_only out_of_order_ledger
           = initial :: ledger_trace initial validated).
Proof.
  apply (validation_precedes_reconciliation usd_only out_of_order_ledger
           [out_of_order_first] []
           [[("ACTION", VStr "OBTAIN"); ("DATE", VStr "2024-01-02");
             ("TYPE", VStr "assembled"); ("PROJECT", VStr "ilonena");
             ("QUANTITY", VInt 1); ("COSTEACH", VNum 5%float);
             ("BATCH", VStr ""); ("REMARKS", VStr "")]]
           out_of_order_second "2024-01-02").
  - vm_compute. reflexivity.
  - vm_compute. reflexivity.
Defined.

(** ** Dictionaries *)

Lemma dict_get_set_same {V : Type} (d : dict V) (k : string) (v : V) :
  dict_get (dict_set d k v) k = Some v.
Proof.
  induction d as [|[k' v'] d IH]; simpl.
  - rewrite String.eqb_refl. reflexivity.
  - destruct (String.eqb k k') eqn:E; simpl; rewrite E; [reflexivity | exact IH].
Qed.

Lemma dict_get_set_other {V : Type} (d : dict V) (k k' : string) (v : V) :
  k <> k' -> dict_get (dict_set d k v) k' = dict_get d k'.
Proof.
  intros Hne. induction d as [|[k0 v0] d IH]; simpl.
  - destruct (String.eqb_spec k' k); [congruence | reflexivity].
  - destruct (String.eqb_spec k k0) as [->|Hk]; simpl.
    + destruct (String.eqb_spec k' k0); [congruence | reflexivity].
    + rewrite IH. reflexivity.
Qed.

Lemma dict_set_set {V : Type} (d : dict V) (k : string) (v v' : V) :
  dict_set (dict_set d k v) k v' = dict_set d k v'.
Proof.
  induction d as [|[k0 v0] d IH]; simpl.
  - rewrite String.eqb_refl. reflexivity.
  - destruct (String.eqb k k0) eqn:E; simpl; rewrite E; [reflexivity | rewrite IH; reflexivity].
Qed.

Lemma dict_set_id {V : Type} (d : dict V) (k : string) (v : V) :
  dict_get d k = Some v -> dict_set d k v = d.
Proof.
  induction d as [|[k0 v0] d IH]; simpl; [discriminate|].
  destruct (String.eqb_spec k k0) as [->|Hk].
  - intros [= ->]. reflexivity.
  - intros Hg. rewrite (IH Hg). reflexivity.
Qed.

Lemma dict_get_pop_same {V : Type} (d : dict V) (k : string) :
  dict_get (dict_pop d k) k = None.
Proof.
  induction d as [|[k0 v0] d IH]; simpl; [reflexivity|].
  destruct (String.eqb k k0) eqn:E; simpl; [exact IH | rewrite E; exact IH].
Qed.

Lemma dict_mem_set_same {V : Type} (d : dict V) (k : string) (v : V) :
  dict_mem (dict_set d k v) k = true.
Proof. unfold dict_mem. rewrite dict_get_set_same. reflexivity. Qed.

Lemma dict_mem_set_mono {V : Type} (d : dict V) (k k' : string) (v : V) :
  dict_mem d k' = true -> dict_mem (dict_set d k v) k' = true.
Proof.
  unfold dict_mem. destruct (String.eqb_spec k k') as [->|Hk].
  - rewrite dict_get_set_same. reflexivity.
  - rewrite (dict_get_set_other d k k' v Hk). trivial.
Qed.

Lemma getitem_ok {V : Type} (d : dict V) (k : string) (v : V) :
  getitem d k = OK v <-> dict_get d k = Some v.
Proof.
  unfold getitem. destruct (dict_get d k); split; intros E;
    solve [injection E as ->; reflexivity | discriminate E].
Qed.

(** ** One item with its quantity *)

Ltac by_char c :=
  destruct c as [[] [] [] [] [] [] [] []]; vm_compute; intros;
  solve [reflexivity | discriminate | congruence].

Lemma alpha_not_space (c : ascii) : is_alpha c = true -> is_space c = false.
Proof. by_char c. Qed.

Lemma digit_not_space (c : ascii) : is_digit c = true -> is_space c = false.
Proof. by_char c. Qed.

Lemma digit_not_alpha (c : ascii) : is_digit c = true -> is_alpha c = false.
Proof. by_char c. Qed.

Lemma digit_not_underscore (c : ascii) : is_digit c = true -> Ascii.eqb c "_" = false.
Proof. by_char c. Qed.

Lemma digit_no_sign (c : ascii) (s : string) :
  is_digit c = true -> split_sign (String c s) = (false, String c s).
Proof. by_char c. Qed.

Lemma forall_chars_app (p : ascii -> bool) (a b : string) :
  forall_chars p (a ++ b) = forall_chars p a && forall_chars p b.
Proof.
  induction a as [|c a IH]; simpl; [reflexivity|].
  rewrite IH, andb_assoc. reflexivity.
Qed.

Lemma forall_chars_weaken (p q : ascii -> bool) (s : string) :
  (forall c, p c = true -> q c = true) ->
  forall_chars p s = true -> forall_chars q s = true.
Proof.
  intros Hpq. induction s as [|c s IH]; simpl; [reflexivity|].
  intros Hs. apply andb_true_iff in Hs as [Hc Hs].
  rewrite (Hpq c Hc), (IH Hs). reflexivity.
Qed.

Lemma app_assoc_char (tok : string) (c : ascii) (s : string) :
  ((tok ++ String c "") ++ s = tok ++ String c s)%string.
Proof. induction tok as [|d tok IH]; simpl; [reflexivity | rewrite IH; reflexivity]. Qed.

Lemma split_ws_one_token (tok s : string) :
  forall_chars not_space s = true ->
  split_ws tok s = if is_empty (tok ++ s) then [] else [(tok ++ s)%string].
Proof.
  revert tok. induction s as [|c s IH]; intros tok Hs; simpl.
  - replace (tok ++ "")%string with tok; [reflexivity|].
    induction tok as [|d tok IHt]; simpl; [reflexivity | rewrite <- IHt; reflexivity].
  - simpl in Hs. apply andb_true_iff in Hs as [Hc Hs].
    unfold not_space in Hc. apply negb_true_iff in Hc. rewrite Hc.
    rewrite (IH _ Hs), app_assoc_char. reflexivity.
Qed.

Lemma take_all (a : string) : take (String.length a) a = a.
Proof. induction a as [|c a IH]; simpl; [|rewrite IH]; reflexivity. Qed.

Lemma run_length_all (p : ascii -> bool) (a : string) :
  forall_chars p a = true -> run_length p None a = String.length a.
Proof.
  induction a as [|c a IH]; simpl; [reflexivity|].
  intros Ha. apply andb_true_iff in Ha as [Hc Ha]. rewrite Hc, (IH Ha). reflexivity.
Qed.

Lemma lstrip_no_space (s : string) : forall_chars not_space s = true -> lstrip s = s.
Proof.
  destruct s as [|c s]; simpl; [reflexivity|].
  intros Hs. apply andb_true_iff in Hs as [Hc _].
  unfold not_space in Hc. apply negb_true_iff in Hc. rewrite Hc. reflexivity.
Qed.

Lemma rstrip_no_space (s : string) : forall_chars not_space s = true -> rstrip s = s.
Proof.
  induction s as [|c s IH]; simpl; [reflexivity|].
  intros Hs. apply andb_true_iff in Hs as [Hc Hs].
  unfold not_space in Hc. apply negb_true_iff in Hc. rewrite Hc, (IH Hs). reflexivity.
Qed.

Lemma literal_space_is_space (c : ascii) : is_literal_space c = true -> is_space c = true.
Proof. by_char c. Qed.

Lemma lstrip_literal_no_space (s : string) :
  forall_chars not_space s = true -> lstrip_literal s = s.
Proof.
  destruct s as [|c s]; simpl; [reflexivity|].
  intros Hs. apply andb_true_iff in Hs as [Hc _].
  unfold not_space in Hc. apply negb_true_iff in Hc.
  destruct (is_literal_space c) eqn:Hl; [|reflexivity].
  rewrite (literal_space_is_space c Hl) in Hc. discriminate Hc.
Qed.

Lemma rstrip_literal_no_space (s : string) :
  forall_chars not_space s = true -> rstrip_literal s = s.
Proof.
  induction s as [|c s IH]; simpl; [reflexivity|].
  intros Hs. apply andb_true_iff in Hs as [Hc Hs].
  unfold not_space in Hc. apply negb_true_iff in Hc. rewrite (IH Hs).
  destruct (is_literal_space c) eqn:Hl; [|reflexivity].
  rewrite (literal_space_is_space c Hl) in Hc. discriminate Hc.
Qed.

Lemma drop_underscores_digits (prev : ascii) (ds : string) :
  forall_chars is_digit ds = true ->
  Ascii.eqb prev "_" = false ->
  drop_underscores prev ds = Some ds.
Proof.
  revert prev. induction ds as [|c ds IH]; intros prev Hds Hprev; simpl.
  - rewrite Hprev. reflexivity.
  - simpl in Hds. apply andb_true_iff in Hds as [Hc Hds].
    rewrite (digit_not_underscore c Hc), Hprev; simpl.
    rewrite (IH c Hds (digit_not_underscore c Hc)). reflexivity.
Qed.

Lemma py_int_digits (ds : string) :
  ds <> "" -> forall_chars is_digit ds = true ->
  String.length ds <= int_max_str_digits ->
  py_int ds = OK (digits_value ds).
Proof.
  intros Hne Hds Hlen. unfold py_int, strip_literal.
  assert (Hns : forall_chars not_space ds = true).
  { apply (forall_chars_weaken is_digit); [|exact Hds].
    intros c Hc. unfold not_space. rewrite (digit_not_space c Hc). reflexivity. }
  rewrite (lstrip_literal_no_space _ Hns), (rstrip_literal_no_space _ Hns).
  destruct ds as [|c ds]; [contradiction Hne; reflexivity|].
  pose proof Hds as Hds'. simpl in Hds'. apply andb_true_iff in Hds' as [Hc _].
  rewrite (digit_no_sign c ds Hc).
  rewrite (drop_underscores_digits "000" _ Hds eq_refl).
  rewrite Hds. apply Nat.leb_le in Hlen. rewrite Hlen. reflexivity.
Qed.

Lemma re_match_item (item ds : string) :
  item <> "" -> forall_chars is_alpha item = true ->
  ds <> "" -> forall_chars is_digit ds = true ->
  re_match item_re (item ++ ds) = Some [item; ds].
Proof.
  intros Hi Ha Hd Hds. unfold item_re.
  change (re_match (plus is_alpha :: [plus is_digit]) (item ++ ds))
    with (backtrack (plus is_alpha) (re_match [plus is_digit]) (item ++ ds)
            (run_length is_alpha None (item ++ ds))).
  assert (Hstop : not_started_by is_alpha ds = true).
  { destruct ds as [|c ds]; [reflexivity|]. simpl in *.
    apply andb_true_iff in Hds as [Hc _]. rewrite (digit_not_alpha c Hc). reflexivity. }
  rewrite (run_length_app _ _ _ Ha Hstop).
  rewrite (backtrack_hit _ _ _ _ [ds]); simpl captured.
  - rewrite take_app. reflexivity.
  - destruct item; [contradiction Hi; reflexivity | reflexivity].
  - rewrite drop_app.
    change (re_match [plus is_digit] ds)
      with (backtrack (plus is_digit) (re_match []) ds (run_length is_digit None ds)).
    rewrite (run_length_all _ _ Hds).
    rewrite (backtrack_hit _ _ _ _ []); simpl captured.
    + rewrite take_all. reflexivity.
    + destruct ds; [contradiction Hd; reflexivity | reflexivity].
    + reflexivity.
Qed.

(** A request for one item: letters followed by the digits of a quantity. *)
Lemma parse_items_single (item ds : string) :
  item <> "" -> forall_chars is_alpha item = true ->
  ds <> "" -> forall_chars is_digit ds = true ->
  String.length ds <= int_max_str_digits ->
  parse_items (item ++ ds) = OK [(item, digits_value ds)].
Proof.
  intros Hi Ha Hd Hds Hlen. unfold parse_items.
  assert (Hns : forall_chars not_space (item ++ ds) = true).
  { rewrite forall_chars_app. apply andb_true_iff. split.
    - apply (forall_chars_weaken is_alpha); [|exact Ha].
      intros c Hc. unfold not_space. rewrite (alpha_not_space c Hc). reflexivity.
    - apply (forall_chars_weaken is_digit); [|exact Hds].
      intros c Hc. unfold not_space. rewrite (digit_not_space c Hc). reflexivity. }
  rewrite (split_ws_one_token "" _ Hns). simpl append.
  destruct (is_empty (item ++ ds)) eqn:He.
  { destruct item; [contradiction Hi; reflexivity | discriminate He]. }
  cbn [for_each bind].
  rewrite (re_match_item item ds Hi Ha Hd Hds).
  unfold group; simpl nth.
  rewrite (py_int_digits ds Hd Hds Hlen). reflexivity.
Qed.

(** ** The cost queues *)

Section CostQueues.

Context {num : Type} `{Num num}.

Lemma times_take_unit (item_name : string) (n : nat) :
  forall (costs : dict (list num)) (queue : list num) (total : num),
    dict_get costs item_name = Some queue ->
    n <= List.length queue ->
    times n (take_unit item_name) (total, costs)
    = OK (fold_left nadd (firstn n queue) total,
          dict_set costs item_name (skipn n queue)).
Proof.
  induction n as [|n IH]; intros costs queue total Hq Hn.
  - simpl. rewrite (dict_set_id _ _ _ Hq). reflexivity.
  - destruct queue as [|c queue]; [simpl in Hn; lia|].
    cbn [times take_unit]. unfold getitem. rewrite Hq. cbn [bind].
    rewrite (IH (dict_set costs item_name queue) queue (nadd total c)).
    + rewrite dict_set_set. reflexivity.
    + apply dict_get_set_same.
    + simpl in Hn. lia.
Qed.

Lemma times_take_unit_inv (item_name : string) (n : nat) :
  forall (costs costs' : dict (list num)) (total total' : num),
    times n (take_unit item_name) (total, costs) = OK (total', costs') ->
    match dict_get costs item_name with
    | Some queue =>
        total' = fold_left nadd (firstn n queue) total
        /\ costs' = dict_set costs item_name (skipn n queue)
    | None => total' = total /\ costs' = costs
    end.
Proof.
  induction n as [|n IH]; intros costs costs' total total' Hrun.
  - simpl in Hrun. injection Hrun as <- <-.
    destruct (dict_get costs item_name) as [queue|] eqn:Hq; [|split; reflexivity].
    simpl. rewrite (dict_set_id _ _ _ Hq). split; reflexivity.
  - cbn [times take_unit] in Hrun. unfold getitem in Hrun.
    destruct (dict_get costs item_name) as [queue|] eqn:Hq; cbn [bind] in Hrun;
      [|discriminate Hrun].
    destruct queue as [|c queue]; cbn [bind] in Hrun; [discriminate Hrun|].
    apply IH in Hrun. rewrite dict_get_set_same in Hrun.
    destruct Hrun as [-> ->]. rewrite dict_set_set. split; reflexivity.
Qed.

Lemma take_loop_total (parsed : dict Z) :
  forall (costs costs' : dict (list num)) (total total' : num),
    for_each
      (fun acc '(item_name, quantity) =>
         times (Z.to_nat quantity) (take_unit item_name) acc)
      parsed (total, costs) = OK (total', costs') ->
    total' = fold_left nadd (popped costs parsed) total.
Proof.
  induction parsed as [|[item_name quantity] parsed IH];
    intros costs costs' total total' Hrun.
  - simpl in Hrun. injection Hrun as <- _. reflexivity.
  - cbn [for_each] in Hrun.
    destruct (times (Z.to_nat quantity) (take_unit item_name) (total, costs))
      as [[t1 c1]|] eqn:H1; cbn [bind] in Hrun; [|discriminate Hrun].
    apply times_take_unit_inv in H1. apply IH in Hrun. simpl.
    destruct (dict_get costs item_name) as [queue|]; destruct H1 as [-> ->].
    + rewrite fold_left_app. exact Hrun.
    + exact Hrun.
Qed.

(** The total that [take_item_and_compute_cost] returns is the sum, from
    the left, of the unit costs it pops. *)
Lemma take_item_total (costs costs' : dict (list num)) (itms : string) (total : num) :
  take_item_and_compute_cost costs itms = OK (total, costs') ->
  exists parsed, parse_items itms = OK parsed /\ total = nsum (popped costs parsed).
Proof.
  unfold take_item_and_compute_cost. intros Hrun.
  destruct (parse_items itms) as [parsed|]; cbn [bind] in Hrun; [|discriminate Hrun].
  exists parsed. split; [reflexivity|].
  exact (take_loop_total parsed _ _ _ _ Hrun).
Qed.


End CostQueues.

(** ** One step of pass 3 *)

Section Steps.

Context {num : Type} `{Num num}.

Lemma is_text_eq (v : pyval num) (s : string) : is_text v s = true -> v = VStr s.
Proof.
  destruct v as [t| |]; simpl; try discriminate.
  intros E. apply String.eqb_eq in E. rewrite E. reflexivity.
Qed.

Lemma step_income (st : ledger num) (l : line num) :
  getitem l "ACTION" = OK (VStr "INCOME") -> step st l = on_income st l.
Proof. intros E. unfold step. rewrite E. reflexivity. Qed.

Lemma step_expense (st : ledger num) (l : line num) :
  getitem l "ACTION" = OK (VStr "EXPENSE") -> step st l = on_expense st l.
Proof. intros E. unfold step. rewrite E. reflexivity. Qed.

Lemma step_obtain (st : ledger num) (l : line num) :
  getitem l "ACTION" = OK (VStr "OBTAIN") -> step st l = on_obtain st l.
Proof. intros E. unfold step. rewrite E. reflexivity. Qed.

Lemma step_reserve (st : ledger num) (l : line num) :
  getitem l "ACTION" = OK (VStr "RESERVE") -> step st l = on_reserve st l.
Proof. intros E. unfold step. rewrite E. reflexivity. Qed.

Lemma step_release (st : ledger num) (l : line num) :
  getitem l "ACTION" = OK (VStr "RELEASE") -> step st l = on_release st l.
Proof. intros E. unfold step. rewrite E. reflexivity. Qed.

Lemma step_branch (st st' : ledger num) (l : line num) :
  step st l = OK st' -> branch st l st'.
Proof.
  unfold step. intros Hs.
  destruct (getitem l "ACTION") as [action|] eqn:Ha; cbn [bind] in Hs;
    [|discriminate Hs].
  destruct (is_text action "INCOME") eqn:E1.
  { apply is_text_eq in E1. subst action. apply by_income; [exact Ha | exact Hs]. }
  destruct (is_text action "EXPENSE") eqn:E2.
  { apply is_text_eq in E2. subst action. apply by_expense; [exact Ha | exact Hs]. }
  destruct (is_text action "OBTAIN") eqn:E3.
  { apply is_text_eq in E3. subst action. apply by_obtain; [exact Ha | exact Hs]. }
  destruct (is_text action "RESERVE") eqn:E4.
  { apply is_text_eq in E4. subst action. apply by_reserve; [exact Ha | exact Hs]. }
  destruct (is_text action "RELEASE") eqn:E5.
  { apply is_text_eq in E5. subst action. apply by_release; [exact Ha | exact Hs]. }
  apply getitem_ok in Ha.
  apply by_none; unfold action_is; try rewrite Ha; try assumption.
  injection Hs as <-. reflexivity.
Qed.

Lemma action_is_of (l : line num) (a b : string) :
  getitem l "ACTION" = OK (VStr a) -> action_is l b = String.eqb a b.
Proof.
  intros Ha. apply getitem_ok in Ha. unfold action_is. rewrite Ha. reflexivity.
Qed.

(** *** OBTAIN *)

Lemma list_repeat_fits {A : Type} (x : A) (n : Z) :
  (- 2 ^ 63 <= n < 2 ^ 60)%Z -> list_repeat x n = OK (repeat x (Z.to_nat n)).
Proof.
  intros Hn. unfold list_repeat.
  assert (H1 : (n <? - 2 ^ 63)%Z = false) by (apply Z.ltb_ge; lia).
  assert (H2 : (2 ^ 63 <=? n)%Z = false) by (apply Z.leb_gt; lia).
  assert (H3 : (2 ^ 60 <=? n)%Z = false) by (apply Z.leb_gt; lia).
  rewrite H1, H2, H3. reflexivity.
Qed.

Lemma list_repeat_inv {A : Type} (x : A) (n : Z) (units : list A) :
  list_repeat x n = OK units ->
  (- 2 ^ 63 <= n < 2 ^ 60)%Z /\ units = repeat x (Z.to_nat n).
Proof.
  unfold list_repeat.
  destruct (n <? - 2 ^ 63)%Z eqn:H1; [discriminate|].
  destruct (2 ^ 63 <=? n)%Z eqn:H2; [discriminate|].
  destruct (2 ^ 60 <=? n)%Z eqn:H3; [discriminate|].
  cbn [orb]. intros [= <-].
  apply Z.ltb_ge in H1. apply Z.leb_gt in H3. split; [lia | reflexivity].
Qed.




Lemma on_obtain_appends (st : ledger num) (l : line num) (project : string)
    (queue : list num) (costeach : num) (quantity : Z) :
  get_str l "PROJECT" = OK project ->
  get_num l "COSTEACH" = OK costeach ->
  get_int l "QUANTITY" = OK quantity ->
  (- 2 ^ 63 <= quantity < 2 ^ 60)%Z ->
  dict_get (item_cost st) project = Some queue ->
  on_obtain st l
  = OK {| item_cost := dict_set (item_cost st) project
                         (queue ++ repeat costeach (Z.to_nat quantity));
          ref_value := ref_value st;
          reserved_items_counter := reserved_items_counter st;
          cash_flow := cash_flow st;
          profit := profit st |}.
Proof.
  intros Hp Hc Hn Hfits Hq. unfold on_obtain, getitem.
  rewrite Hp; cbn [bind]. rewrite Hq; cbn [bind].
  rewrite Hc; cbn [bind]. rewrite Hn; cbn [bind].
  rewrite (list_repeat_fits costeach quantity Hfits). reflexivity.
Qed.

(** *** RELEASE under a reference without reservation *)


End Steps.



(** ** Which exceptions the helpers raise *)

Ltac run_ok_in H :=
  repeat first
    [ bind_ok_in H
    | match type of H with
      | (if ?b then _ else _) = OK _ =>
          let E := fresh "E" in destruct b eqn:E; try discriminate H
      | (let (_, _) := ?p in _) = OK _ => destruct p
      end ].

Lemma quiet_ok {A : Type} (a : A) : quiet (OK a).
Proof. intros e E. discriminate E. Qed.

Lemma quiet_raise {A : Type} (e : exn) : is_exception e = false -> quiet (@Raise A e).
Proof. intros He e' E. injection E as <-. exact He. Qed.

Lemma quiet_bind {A B : Type} (r : result A) (k : A -> result B) :
  quiet r -> (forall a, quiet (k a)) -> quiet (bind r k).
Proof.
  intros Hr Hk e E. destruct r as [a|e']; cbn [bind] in E.
  - exact (Hk a e E).
  - apply (Hr e). injection E as ->. reflexivity.
Qed.

Lemma quiet_for_each {A S : Type} (body : S -> A -> result S) (xs : list A) :
  (forall s x, quiet (body s x)) -> forall s, quiet (for_each body xs s).
Proof.
  intros Hb. induction xs as [|x xs IH]; intros s; cbn [for_each].
  - apply quiet_ok.
  - apply quiet_bind; [apply Hb | exact IH].
Qed.

Lemma quiet_times {S : Type} (n : nat) (body : S -> result S) :
  (forall s, quiet (body s)) -> forall s, quiet (times n body s).
Proof.
  intros Hb. induction n as [|n IH]; intros s; cbn [times].
  - apply quiet_ok.
  - apply quiet_bind; [apply Hb | exact IH].
Qed.

Lemma quiet_getitem {V : Type} (d : dict V) (k : string) : quiet (getitem d k).
Proof. unfold getitem. destruct (dict_get d k); [apply quiet_ok | apply quiet_raise; reflexivity]. Qed.

Lemma quiet_get_str {num : Type} (l : line num) (k : string) : quiet (get_str l k).
Proof.
  unfold get_str. apply quiet_bind; [apply quiet_getitem|].
  intros [s|x|n]; simpl; first [apply quiet_ok | apply quiet_raise; reflexivity].
Qed.

Lemma quiet_py_int (s : string) : quiet (py_int s).
Proof.
  unfold py_int. destruct (split_sign (strip_literal s)) as [neg body].
  destruct (drop_underscores "000" body) as [ds|]; [|apply quiet_raise; reflexivity].
  destruct (_ && _); [apply quiet_ok | apply quiet_raise; reflexivity].
Qed.

Lemma quiet_parse_items (itms : string) : quiet (parse_items itms).
Proof.
  unfold parse_items. apply quiet_for_each. intros ret item.
  destruct (re_match item_re item); [|apply quiet_raise; reflexivity].
  apply quiet_bind; [apply quiet_py_int | intros; apply quiet_ok].
Qed.

Section Reservations.

Context {num : Type} `{Num num}.

Lemma quiet_take_item (costs : dict (list num)) (itms : string) :
  quiet (take_item_and_compute_cost costs itms).
Proof.
  unfold take_item_and_compute_cost.
  apply quiet_bind; [apply quiet_parse_items|]. intros parsed.
  apply quiet_for_each. intros acc [item_name quantity].
  apply quiet_times. intros [total c]. unfold take_unit.
  apply quiet_bind; [apply quiet_getitem|].
  intros [|first rest]; [apply quiet_raise; reflexivity | apply quiet_ok].
Qed.

Lemma quiet_add_reserved (reserved : dict (reservation num)) (ref itms : string)
    (rem : option (pyval num)) :
  quiet (add_reserved_inventory reserved ref itms rem).
Proof.
  unfold add_reserved_inventory.
  apply quiet_bind; [apply quiet_parse_items|]. intros parsed.
  apply quiet_for_each. intros r [item_name quantity].
  apply quiet_bind; [apply quiet_getitem | intros; apply quiet_ok].
Qed.

(** *** RESERVE *)

Lemma on_reserve_duplicate (st : ledger num) (l : line num) (ref key : string) :
  get_str l "REF" = OK ref -> remove_suffix ref = OK key ->
  dict_mem (ref_value st) key = true ->
  on_reserve st l = Raise (Exception "Duplicated RESERVE REF").
Proof.
  intros Hr Hk Hm. unfold on_reserve.
  rewrite Hr; cbn [bind]. rewrite Hk; cbn [bind]. rewrite Hm. reflexivity.
Qed.

Lemma on_reserve_new (st : ledger num) (l : line num) (ref key : string) :
  get_str l "REF" = OK ref -> remove_suffix ref = OK key ->
  dict_mem (ref_value st) key = false ->
  quiet (on_reserve st l).
Proof.
  intros Hr Hk Hm. unfold on_reserve.
  rewrite Hr; cbn [bind]. rewrite Hk; cbn [bind]. rewrite Hm.
  apply quiet_bind; [apply quiet_get_str|]. intros itms.
  apply quiet_bind; [apply quiet_take_item|]. intros [item_value costs].
  apply quiet_bind; [apply quiet_add_reserved | intros; apply quiet_ok].
Qed.

Lemma on_reserve_records_key (st st' : ledger num) (l : line num) (ref key : string) :
  get_str l "REF" = OK ref -> remove_suffix ref = OK key ->
  on_reserve st l = OK st' ->
  dict_mem (ref_value st') key = true.
Proof.
  intros Hr Hk Hs. unfold on_reserve in Hs.
  rewrite Hr in Hs; cbn [bind] in Hs. rewrite Hk in Hs; cbn [bind] in Hs.
  run_ok_in Hs. injection Hs as <-. cbn [ref_value].
  apply dict_mem_set_same.
Qed.

(** The keys of [ref_value] are never removed. *)
Lemma step_keeps_keys (st st' : ledger num) (l : line num) (k : string) :
  step st l = OK st' ->
  dict_mem (ref_value st) k = true -> dict_mem (ref_value st') k = true.
Proof.
  intros Hs Hk. destruct (step_branch st st' l Hs) as [_ Hb|_ Hb|_ Hb|_ Hb|_ Hb| ].
  - unfold on_income in Hb. run_ok_in Hb. injection Hb as <-. cbn [ref_value].
    apply dict_mem_set_mono. exact Hk.
  - unfold on_expense in Hb. run_ok_in Hb; injection Hb as <-; cbn [ref_value];
      [apply dict_mem_set_mono|]; exact Hk.
  - unfold on_obtain in Hb. run_ok_in Hb. injection Hb as <-. exact Hk.
  - unfold on_reserve in Hb. run_ok_in Hb. injection Hb as <-. cbn [ref_value].
    apply dict_mem_set_mono. exact Hk.
  - unfold on_release in Hb. run_ok_in Hb; injection Hb as <-; cbn [ref_value];
      [|exact Hk].
    apply dict_mem_set_mono.
    match goal with
    | |- context [negb (dict_mem (ref_value st) ?key)] =>
        destruct (negb (dict_mem (ref_value st) key))
    end; [apply dict_mem_set_mono|]; exact Hk.
  - subst st'. exact Hk.
Qed.

Lemma pass3_keeps_keys (table : list (line num)) (k : string) :
  forall st st' : ledger num,
    pass3_from st table = OK st' ->
    dict_mem (ref_value st) k = true -> dict_mem (ref_value st') k = true.
Proof.
  unfold pass3_from. induction table as [|l table IH]; intros st st' Hs Hk.
  - simpl in Hs. injection Hs as <-. exact Hk.
  - cbn [for_each] in Hs.
    destruct (step st l) as [st1|] eqn:H1; cbn [bind] in Hs; [|discriminate Hs].
    exact (IH st1 st' Hs (step_keeps_keys st st1 l k H1 Hk)).
Qed.

End Reservations.

(** C6.  A RESERVE entry whose suffix-stripped reference is already a key of
    [ref_value] aborts the run with the duplicate-reference exception; one
    whose stripped reference is not yet a key does not raise that exception,
    whatever else happens to it.  In particular, once a RESERVE under a
    reference has gone through, a later RESERVE whose reference strips to the
    same key aborts the run with the duplicate-reference exception. *)
Theorem reserve_duplicate_reference :
  forall (num : Type) (N : Num num) (st st1 st2 : ledger num)
         (first second : line num) (between : list (line num))
         (ref1 ref2 key : string),
    getitem first "ACTION" = OK (VStr "RESERVE") ->
    get_str first "REF" = OK ref1 -> remove_suffix ref1 = OK key ->
    getitem second "ACTION" = OK (VStr "RESERVE") ->
    get_str second "REF" = OK ref2 -> remove_suffix ref2 = OK key ->
    (dict_mem (ref_value st) key = true ->
     step st first = Raise (Exception "Duplicated RESERVE REF"))
    /\ (dict_mem (ref_value st) key = false ->
        forall msg, step st first <> Raise (Exception msg))
    /\ (step st first = OK st1 -> pass3_from st1 between = OK st2 ->
        step st2 second = Raise (Exception "Duplicated RESERVE REF")).
Proof.
  intros num N st st1 st2 first second between ref1 ref2 key
         Ha1 Hr1 Hk1 Ha2 Hr2 Hk2.
  rewrite (step_reserve st first Ha1), (step_reserve st2 second Ha2).
  split; [|split].
  - exact (on_reserve_duplicate st first ref1 key Hr1 Hk1).
  - intros Hm msg E.
    pose proof (on_reserve_new st first ref1 key Hr1 Hk1 Hm _ E) as Hq.
    discriminate Hq.
  - intros H1 H2.
    apply (on_reserve_duplicate st2 second ref2 key Hr2 Hk2).
    apply (pass3_keeps_keys between key st1 st2 H2).
    exact (on_reserve_records_key st st1 first ref1 key Hr1 Hk1 H1).
Qed.

Lemma reserve_duplicate_reference_witness :
  (dict_mem (ref_value stocked) "7" = true ->
   step stocked reserve_7a = Raise (Exception "Duplicated RESERVE REF"))
  /\ (dict_mem (ref_value stocked) "7" = false ->
      forall msg, step stocked reserve_7a <> Raise (Exception msg))
  /\ (step stocked reserve_7a = OK after_reserve ->
      pass3_from after_reserve [] = OK after_reserve ->
      step after_reserve reserve_7b = Raise (Exception "Duplicated RESERVE REF")).
Proof.
  apply (reserve_duplicate_reference float float_Num stocked after_reserve
           after_reserve reserve_7a reserve_7b [] "7a" "7b" "7");
    reflexivity.
Defined.

Example reserve_7a_in_stocked : step stocked reserve_7a = OK after_reserve.
Proof. vm_compute. reflexivity. Qed.

(** ** Reserved quantities *)

Section Releases.

Context {num : Type} `{Num num}.

Lemma add_reserved_single (reserved : dict (reservation num))
    (key item ds : string) (rem : option (pyval num)) :
  item <> "" -> forall_chars is_alpha item = true ->
  ds <> "" -> forall_chars is_digit ds = true ->
  String.length ds <= int_max_str_digits ->
  exists reserved' r,
    add_reserved_inventory reserved key (item ++ ds) rem = OK reserved'
    /\ dict_get reserved' key = Some r
    /\ dict_get (items r) item = Some (digits_value ds).
Proof.
  intros Hi Ha Hd Hds Hlen. unfold add_reserved_inventory.
  rewrite (parse_items_single item ds Hi Ha Hd Hds Hlen). cbn [bind for_each].
  set (reserved0 := if negb (dict_mem reserved key)
                    then dict_set reserved key {| items := []; remarks := rem |}
                    else reserved).
  assert (Hin : exists r0, dict_get reserved0 key = Some r0).
  { unfold reserved0, dict_mem.
    destruct (dict_get reserved key) as [r0|] eqn:Hg; cbn [negb].
    - exists r0. exact Hg.
    - eexists. apply dict_get_set_same. }
  destruct Hin as [r0 Hr0]. unfold getitem. rewrite Hr0. cbn [bind].
  eexists. eexists. split; [reflexivity|]. split.
  - apply dict_get_set_same.
  - cbn [items]. apply dict_get_set_same.
Qed.

Lemma on_reserve_outstanding (st st' : ledger num) (l : line num)
    (ref key item ds : string) :
  item <> "" -> forall_chars is_alpha item = true ->
  ds <> "" -> forall_chars is_digit ds = true ->
  String.length ds <= int_max_str_digits ->
  get_str l "REF" = OK ref -> remove_suffix ref = OK key ->
  get_str l "ITEMS" = OK (item ++ ds)%string ->
  on_reserve st l = OK st' ->
  outstanding st' key item = Some (digits_value ds).
Proof.
  intros Hi Ha Hd Hds Hlen Hr Hk Hit Hs. unfold on_reserve in Hs.
  rewrite Hr in Hs; cbn [bind] in Hs. rewrite Hk in Hs; cbn [bind] in Hs.
  destruct (dict_mem (ref_value st) key); [discriminate Hs|].
  rewrite Hit in Hs; cbn [bind] in Hs.
  destruct (take_item_and_compute_cost (item_cost st) (item ++ ds))
    as [[item_value costs]|]; cbn [bind] in Hs; [|discriminate Hs].
  destruct (add_reserved_single (reserved_items_counter st) key item ds
              (dict_get l "REMARKS") Hi Ha Hd Hds Hlen)
    as (reserved' & r & Hadd & Hg & Hq).
  rewrite Hadd in Hs; cbn [bind] in Hs. injection Hs as <-.
  unfold outstanding. cbn [reserved_items_counter]. rewrite Hg. exact Hq.
Qed.

(** A RELEASE of one item under a reference that holds a reservation. *)
Lemma on_release_reserved (st : ledger num) (l : line num)
    (ref key item ds : string) (n : Z) :
  item <> "" -> forall_chars is_alpha item = true ->
  ds <> "" -> forall_chars is_digit ds = true ->
  String.length ds <= int_max_str_digits ->
  get_str l "REF" = OK ref -> remove_suffix ref = OK key ->
  get_str l "ITEMS" = OK (item ++ ds)%string ->
  outstanding st key item = Some n ->
  (digits_value ds < n)%Z \/ digits_value ds = n ->
  exists st',
    on_release st l = OK st'
    /\ outstanding st' key item
       = (if (n - digits_value ds =? 0)%Z then None else Some (n - digits_value ds)%Z)
    /\ dict_mem (reserved_items_counter st') key = true.
Proof.
  intros Hi Ha Hd Hds Hlen Hr Hk Hit Hout Hle. unfold on_release.
  rewrite Hr; cbn [bind]. rewrite Hk; cbn [bind].
  unfold outstanding in Hout.
  destruct (dict_get (reserved_items_counter st) key) as [r|] eqn:Hg;
    [|discriminate Hout].
  unfold dict_mem at 1. rewrite Hg. cbn [negb].
  rewrite Hit; cbn [bind]. unfold take_reserved_inventory.
  rewrite (parse_items_single item ds Hi Ha Hd Hds Hlen). cbn [bind for_each].
  unfold getitem. rewrite Hg; cbn [bind]. rewrite Hout; cbn [bind].
  destruct (n - digits_value ds =? 0)%Z eqn:Hz.
  - cbn [bind]. eexists. split; [reflexivity|].
    unfold outstanding, dict_mem. cbn [reserved_items_counter].
    rewrite dict_get_set_same. cbn [items]. rewrite dict_get_pop_same.
    split; reflexivity.
  - assert (Hpos : (n - digits_value ds <? 0)%Z = false).
    { apply Z.ltb_ge. apply Z.eqb_neq in Hz. lia. }
    rewrite Hpos. cbn [bind]. eexists. split; [reflexivity|].
    unfold outstanding, dict_mem. cbn [reserved_items_counter].
    rewrite dict_get_set_same. cbn [items]. rewrite dict_get_set_same.
    split; reflexivity.
Qed.

(** A RELEASE of an item that the reservation of its reference no longer
    lists. *)
Lemma on_release_dropped (st : ledger num) (l : line num)
    (ref key item ds : string) :
  item <> "" -> forall_chars is_alpha item = true ->
  ds <> "" -> forall_chars is_digit ds = true ->
  String.length ds <= int_max_str_digits ->
  get_str l "REF" = OK ref -> remove_suffix ref = OK key ->
  get_str l "ITEMS" = OK (item ++ ds)%string ->
  dict_mem (reserved_items_counter st) key = true ->
  outstanding st key item = None ->
  on_release st l = Raise (KeyError item).
Proof.
  intros Hi Ha Hd Hds Hlen Hr Hk Hit Hm Hout. unfold on_release.
  rewrite Hr; cbn [bind]. rewrite Hk; cbn [bind]. rewrite Hm. cbn [negb].
  rewrite Hit; cbn [bind]. unfold take_reserved_inventory.
  rewrite (parse_items_single item ds Hi Ha Hd Hds Hlen). cbn [bind for_each].
  unfold outstanding in Hout. unfold dict_mem in Hm. unfold getitem.
  destruct (dict_get (reserved_items_counter st) key) as [r|]; [|discriminate Hm].
  cbn [bind]. rewrite Hout. reflexivity.
Qed.

End Releases.

(** C7.  After a RESERVE of 3 units of an item under a reference, a RELEASE of
    1 unit and then a RELEASE of 2 units of the item under that reference both
    go through; 2 units are outstanding after the first and the item is no
    longer listed, nothing of it being outstanding, after the second.  A third
    RELEASE of 1 more unit under the reference aborts the run, yet not with
    the over-release [ValueError] of [take_reserved_inventory]: the item was
    dropped when it reached zero, and its lookup raises [KeyError] before the
    test for a negative quantity is reached. *)
Theorem reserve_then_release :
  forall (num : Type) (N : Num num) (st0 st : ledger num)
         (reserve r1 r2 r3 : line num) (ref0 ref1 ref2 ref3 key item : string),
    item <> "" -> forall_chars is_alpha item = true ->
    getitem reserve "ACTION" = OK (VStr "RESERVE") ->
    get_str reserve "REF" = OK ref0 -> remove_suffix ref0 = OK key ->
    get_str reserve "ITEMS" = OK (item ++ "3")%string ->
    getitem r1 "ACTION" = OK (VStr "RELEASE") ->
    get_str r1 "REF" = OK ref1 -> remove_suffix ref1 = OK key ->
    get_str r1 "ITEMS" = OK (item ++ "1")%string ->
    getitem r2 "ACTION" = OK (VStr "RELEASE") ->
    get_str r2 "REF" = OK ref2 -> remove_suffix ref2 = OK key ->
    get_str r2 "ITEMS" = OK (item ++ "2")%string ->
    getitem r3 "ACTION" = OK (VStr "RELEASE") ->
    get_str r3 "REF" = OK ref3 -> remove_suffix ref3 = OK key ->
    get_str r3 "ITEMS" = OK (item ++ "1")%string ->
    step st0 reserve = OK st ->
    exists st1 st2 : ledger num,
      outstanding st key item = Some 3%Z
      /\ step st r1 = OK st1
      /\ outstanding st1 key item = Some 2%Z
      /\ step st1 r2 = OK st2
      /\ outstanding st2 key item = None
      /\ step st2 r3 = Raise (KeyError item).
Proof.
  intros num N st0 st reserve r1 r2 r3 ref0 ref1 ref2 ref3 key item Hi Ha
         Ha0 Hr0 Hk0 Hi0 Ha1 Hr1 Hk1 Hi1 Ha2 Hr2 Hk2 Hi2 Ha3 Hr3 Hk3 Hi3 Hs.
  assert (Hlen : forall ds, String.length ds = 1 -> String.length ds <= int_max_str_digits).
  { intros ds ->. apply Nat.leb_le. reflexivity. }
  rewrite (step_reserve st0 reserve Ha0) in Hs.
  assert (H3 : outstanding st key item = Some 3%Z).
  { apply (on_reserve_outstanding st0 st reserve ref0 key item "3" Hi Ha);
      solve [assumption | discriminate | reflexivity | apply Hlen; reflexivity]. }
  destruct (on_release_reserved st r1 ref1 key item "1" 3%Z Hi Ha) as (st1 & H1 & Ho1 & _);
    try solve [assumption | discriminate | reflexivity | apply Hlen; reflexivity
              | left; reflexivity].
  destruct (on_release_reserved st1 r2 ref2 key item "2" 2%Z Hi Ha) as (st2 & H2 & Ho2 & Hm2);
    try solve [assumption | discriminate | reflexivity | apply Hlen; reflexivity
              | right; reflexivity].
  exists st1, st2.
  rewrite (step_release st r1 Ha1), (step_release st1 r2 Ha2), (step_release st2 r3 Ha3).
  repeat split; try assumption.
  apply (on_release_dropped st2 r3 ref3 key item "1" Hi Ha);
    solve [assumption | discriminate | reflexivity | apply Hlen; reflexivity].
Qed.

Lemma reserve_then_release_witness :
  exists st1 st2 : ledger float,
    outstanding three_reserved "7" "ilonena" = Some 3%Z
    /\ step three_reserved (release_of "7a" "ilonena1") = OK st1
    /\ outstanding st1 "7" "ilonena" = Some 2%Z
    /\ step st1 (release_of "7b" "ilonena2") = OK st2
    /\ outstanding st2 "7" "ilonena" = None
    /\ step st2 (release_of "7" "ilonena1") = Raise (KeyError "ilonena").
Proof.
  apply (reserve_then_release float float_Num three_in_stock three_reserved
           reserve_three (release_of "7a" "ilonena1") (release_of "7b" "ilonena2")
           (release_of "7" "ilonena1") "7" "7a" "7b" "7" "7" "ilonena");
    first [ reflexivity | discriminate ].
Defined.

(** ** What each branch does to the references and to the profit *)

Section Effects.

Context {num : Type} `{Num num}.

Lemma on_income_effect (st st' : ledger num) (l : line num) :
  on_income st l = OK st' ->
  exists key old v,
    get_num l "VALUE" = OK v
    /\ dict_get (ref_value st) key = Some old
    /\ ref_value st' = dict_set (ref_value st) key (nadd old v)
    /\ profit st' = nadd (profit st) v.
Proof.
  unfold on_income. intros Hr. run_ok_in Hr. injection Hr as <-.
  match goal with
  | Hg : getitem (ref_value st) ?key = OK ?old, Hv : get_num l "VALUE" = OK ?v |- _ =>
      exists key, old, v; apply getitem_ok in Hg
  end.
  repeat split; assumption.
Qed.

Lemma on_expense_effect (st st' : ledger num) (l : line num) :
  on_expense st l = OK st' ->
  exists v,
    get_num l "VALUE" = OK v
    /\ ((type_is l "material" = false
         /\ exists key old,
             dict_get (ref_value st) key = Some old
             /\ ref_value st' = dict_set (ref_value st) key (nsub old v)
             /\ profit st' = nsub (profit st) v)
        \/ (type_is l "material" = true
            /\ ref_value st' = ref_value st /\ profit st' = profit st)).
Proof.
  unfold on_expense. intros Hr.
  destruct (get_num l "VALUE") as [v|] eqn:Hv; cbn [bind] in Hr; [|discriminate Hr].
  destruct (getitem l "TYPE") as [ty|] eqn:Hty; cbn [bind] in Hr; [|discriminate Hr].
  apply getitem_ok in Hty.
  exists v. split; [reflexivity|].
  destruct (is_text ty "material") eqn:Hm; cbn [negb] in Hr.
  - right. injection Hr as <-. unfold type_is. rewrite Hty, Hm.
    repeat split.
  - left. run_ok_in Hr. injection Hr as <-. unfold type_is. rewrite Hty, Hm.
    split; [reflexivity|].
    match goal with
    | Hg : getitem (ref_value st) ?key = OK ?old |- _ =>
        exists key, old; apply getitem_ok in Hg; repeat split; assumption
    end.
Qed.

Lemma on_obtain_effect (st st' : ledger num) (l : line num) :
  on_obtain st l = OK st' ->
  ref_value st' = ref_value st /\ profit st' = profit st.
Proof.
  unfold on_obtain. intros Hr. run_ok_in Hr. injection Hr as <-. split; reflexivity.
Qed.

Lemma on_reserve_effect (st st' : ledger num) (l : line num) :
  getitem l "ACTION" = OK (VStr "RESERVE") ->
  on_reserve st l = OK st' ->
  exists key,
    dict_get (ref_value st) key = None
    /\ ref_value st' = dict_set (ref_value st) key (nneg (nsum (popped_by st l)))
    /\ profit st' = nsub (profit st) (nsum (popped_by st l)).
Proof.
  intros Ha. unfold on_reserve. intros Hr.
  destruct (get_str l "REF") as [ref|]; cbn [bind] in Hr; [|discriminate Hr].
  destruct (remove_suffix ref) as [key|]; cbn [bind] in Hr; [|discriminate Hr].
  destruct (dict_mem (ref_value st) key) eqn:Hm; [discriminate Hr|].
  destruct (get_str l "ITEMS") as [itms|] eqn:Hi; cbn [bind] in Hr; [|discriminate Hr].
  destruct (take_item_and_compute_cost (item_cost st) itms) as [[item_value costs]|] eqn:Ht;
    cbn [bind] in Hr; [|discriminate Hr].
  destruct (add_reserved_inventory _ _ _ _) as [reserved|]; cbn [bind] in Hr;
    [|discriminate Hr].
  injection Hr as <-.
  destruct (take_item_total _ _ _ _ Ht) as (parsed & Hp & ->).
  assert (Hpop : popped_by st l = popped (item_cost st) parsed).
  { unfold popped_by, consumes. rewrite (action_is_of l _ "RESERVE" Ha).
    cbn [String.eqb Ascii.eqb Bool.eqb orb]. rewrite Hi; cbn [bind]. rewrite Hp.
    reflexivity. }
  rewrite Hpop. exists key. unfold dict_mem in Hm.
  destruct (dict_get (ref_value st) key); [discriminate Hm|].
  repeat split.
Qed.

Lemma on_release_effect (st st' : ledger num) (l : line num) :
  getitem l "ACTION" = OK (VStr "RELEASE") ->
  on_release st l = OK st' ->
  (exists key old,
      dict_get (if negb (dict_mem (ref_value st) key)
                then dict_set (ref_value st) key nzero
                else ref_value st) key = Some old
      /\ ref_value st'
         = dict_set (if negb (dict_mem (ref_value st) key)
                     then dict_set (ref_value st) key nzero
                     else ref_value st)
                    key (nsub old (nsum (popped_by st l)))
      /\ profit st' = nsub (profit st) (nsum (popped_by st l)))
  \/ (popped_by st l = []
      /\ ref_value st' = ref_value st /\ profit st' = profit st).
Proof.
  intros Ha. unfold on_release. intros Hr.
  destruct (get_str l "REF") as [ref|] eqn:Href; cbn [bind] in Hr; [|discriminate Hr].
  destruct (remove_suffix ref) as [key|] eqn:Hkey; cbn [bind] in Hr; [|discriminate Hr].
  assert (Hc : consumes st l = negb (dict_mem (reserved_items_counter st) key)).
  { unfold consumes. rewrite (action_is_of l _ "RESERVE" Ha), (action_is_of l _ "RELEASE" Ha).
    cbn [String.eqb Ascii.eqb Bool.eqb orb andb]. rewrite Href; cbn [bind].
    rewrite Hkey. reflexivity. }
  destruct (negb (dict_mem (reserved_items_counter st) key)) eqn:Hm.
  - left.
    destruct (get_str l "ITEMS") as [itms|] eqn:Hi; cbn [bind] in Hr; [|discriminate Hr].
    destruct (take_item_and_compute_cost (item_cost st) itms) as [[item_value costs]|] eqn:Ht;
      cbn [bind] in Hr; [|discriminate Hr].
    destruct (take_item_total _ _ _ _ Ht) as (parsed & Hp & ->).
    assert (Hpop : popped_by st l = popped (item_cost st) parsed).
    { unfold popped_by. rewrite Hc. rewrite Hi; cbn [bind]. rewrite Hp. reflexivity. }
    rewrite Hpop.
    destruct (getitem _ key) as [old|] eqn:Hg; cbn [bind] in Hr; [|discriminate Hr].
    injection Hr as <-. apply getitem_ok in Hg.
    exists key, old. repeat split. exact Hg.
  - right. run_ok_in Hr. injection Hr as <-.
    unfold popped_by. rewrite Hc. repeat split.
Qed.

End Effects.

(** ** Sums in exact arithmetic *)

Section Exact.

Context {num : Type} {N : Num num} {E : ExactNum num}.

#[local] Instance nadd_Associative : Associative eq nadd := nadd_assoc.
#[local] Instance nadd_Commutative : Commutative eq nadd := nadd_comm.
#[local] Instance nadd_Unit : Unit eq nadd nzero.
Proof.
  split; intros x; [apply nadd_zero_l | rewrite nadd_comm; apply nadd_zero_l].
Qed.

Lemma nadd_zero_r (x : num) : nadd x nzero = x.
Proof. rewrite nadd_comm. apply nadd_zero_l. Qed.

Lemma nneg_add (x y : num) : nneg (nadd x y) = nadd (nneg x) (nneg y).
Proof.
  assert (Hxy : nadd (nadd x y) (nadd (nneg x) (nneg y)) = nzero).
  { transitivity (nadd (nadd x (nneg x)) (nadd y (nneg y))); [aac_reflexivity|].
    rewrite !nadd_neg_r. apply nadd_zero_l. }
  transitivity (nadd (nneg (nadd x y)) (nadd (nadd x y) (nadd (nneg x) (nneg y)))).
  - rewrite Hxy. symmetry. apply nadd_zero_r.
  - transitivity (nadd (nadd (nadd x y) (nneg (nadd x y))) (nadd (nneg x) (nneg y)));
      [aac_reflexivity|].
    rewrite nadd_neg_r. apply nadd_zero_l.
Qed.

Lemma nneg_zero : nneg nzero = nzero.
Proof. rewrite <- (nadd_zero_l (nneg nzero)). apply nadd_neg_r. Qed.

Lemma nsub_zero_r (x : num) : nsub x nzero = x.
Proof. rewrite nsub_def, nneg_zero. apply nadd_zero_r. Qed.

Lemma fold_nadd_from (xs : list num) (a : num) :
  fold_left nadd xs a = nadd a (nsum xs).
Proof.
  unfold nsum. revert a. induction xs as [|x xs IH]; intros a; simpl.
  - symmetry. apply nadd_zero_r.
  - rewrite (IH (nadd a x)), (IH (nadd nzero x)). aac_reflexivity.
Qed.

Lemma nsum_cons (x : num) (xs : list num) : nsum (x :: xs) = nadd x (nsum xs).
Proof.
  unfold nsum at 1. simpl. rewrite fold_nadd_from, nadd_zero_l. reflexivity.
Qed.

Lemma nsum_app (xs ys : list num) : nsum (xs ++ ys) = nadd (nsum xs) (nsum ys).
Proof.
  unfold nsum at 1. rewrite fold_left_app. fold (nsum xs). apply fold_nadd_from.
Qed.

Lemma nsum_one (x : num) : nsum [x] = x.
Proof. rewrite nsum_cons. apply nadd_zero_r. Qed.

(** *** The values of a dictionary *)



(** *** The references add up to the profit *)






(** *** The profit entry by entry *)

Lemma values_cons (l : line num) (table : list (line num)) :
  income_values (l :: table) = income_values [l] ++ income_values table
  /\ expense_values (l :: table) = expense_values [l] ++ expense_values table.
Proof.
  unfold income_values, expense_values. simpl.
  destruct (action_is l "INCOME"); destruct (action_is l "EXPENSE" && _);
    split; reflexivity.
Qed.

Lemma no_values (l : line num) :
  action_is l "INCOME" = false -> income_values [l] = [].
Proof. intros Ha. unfold income_values. simpl. rewrite Ha. reflexivity. Qed.

Lemma no_expense (l : line num) :
  action_is l "EXPENSE" && negb (type_is l "material") = false ->
  expense_values [l] = [].
Proof. intros Ha. unfold expense_values. simpl. rewrite Ha. reflexivity. Qed.

Lemma not_consuming (st : ledger num) (l : line num) :
  action_is l "RESERVE" = false -> action_is l "RELEASE" = false ->
  popped_by st l = [].
Proof. intros H1 H2. unfold popped_by, consumes. rewrite H1, H2. reflexivity. Qed.

Lemma bare (p : num) : nsub (nsub (nadd p (nsum [])) (nsum [])) (nsum []) = p.
Proof.
  change (nsum []) with (@nzero num N). rewrite !nsub_zero_r. apply nadd_zero_r.
Qed.

(** What one entry does to the profit. *)
Lemma step_profit (st st' : ledger num) (l : line num) :
  step st l = OK st' ->
  profit st'
  = nsub (nsub (nadd (profit st) (nsum (income_values [l])))
               (nsum (expense_values [l])))
         (nsum (popped_by st l)).
Proof.
  intros Hs.
  destruct (step_branch st st' l Hs) as [Ha Hr|Ha Hr|Ha Hr|Ha Hr|Ha Hr|H1 H2 H3 H4 ->].
  - destruct (on_income_effect st st' l Hr) as (key & old & v & Hv & _ & _ & ->).
    rewrite (not_consuming st l), no_expense;
      try (rewrite (action_is_of l _ _ Ha); reflexivity).
    unfold income_values. simpl. rewrite (action_is_of l _ _ Ha). simpl.
    unfold value_of. rewrite Hv.
    change (nsum []) with (@nzero num N). rewrite !nsub_zero_r, nsum_one. reflexivity.
  - destruct (on_expense_effect st st' l Hr)
      as (v & Hv & [(Hm & key & old & _ & _ & ->)|(Hm & _ & ->)]).
    + rewrite (not_consuming st l), no_values;
        try (rewrite (action_is_of l _ _ Ha); reflexivity).
      unfold expense_values. simpl. rewrite (action_is_of l _ _ Ha), Hm. simpl.
      unfold value_of. rewrite Hv.
      change (nsum []) with (@nzero num N).
      rewrite !nsub_zero_r, nsum_one, nadd_zero_r. reflexivity.
    + rewrite (not_consuming st l), no_values, no_expense;
        try (rewrite (action_is_of l _ _ Ha); reflexivity).
      * symmetry. apply bare.
      * rewrite (action_is_of l _ _ Ha), Hm. reflexivity.
  - destruct (on_obtain_effect st st' l Hr) as [_ ->].
    rewrite (not_consuming st l), no_values, no_expense;
      try (rewrite (action_is_of l _ _ Ha); reflexivity).
    symmetry. apply bare.
  - destruct (on_reserve_effect st st' l Ha Hr) as (key & _ & _ & ->).
    rewrite no_values, no_expense;
      try (rewrite (action_is_of l _ _ Ha); reflexivity).
    change (nsum []) with (@nzero num N). rewrite !nsub_zero_r, nadd_zero_r.
    reflexivity.
  - rewrite no_values, no_expense;
      try (rewrite (action_is_of l _ _ Ha); reflexivity).
    change (nsum []) with (@nzero num N). rewrite !nsub_zero_r, nadd_zero_r.
    destruct (on_release_effect st st' l Ha Hr)
      as [(key & old & _ & _ & ->)|(-> & _ & ->)]; [reflexivity|].
    change (nsum []) with (@nzero num N). rewrite nsub_zero_r. reflexivity.
  - rewrite (not_consuming st l H3 H4), (no_values l H1), no_expense;
      [|rewrite H2; reflexivity].
    symmetry. apply bare.
Qed.

Lemma regroup (p i1 e1 c1 i2 e2 c2 : num) :
  nsub (nsub (nadd (nsub (nsub (nadd p i1) e1) c1) i2) e2) c2
  = nsub (nsub (nadd p (nadd i1 i2)) (nadd e1 e2)) (nadd c1 c2).
Proof. rewrite !nsub_def, !nneg_add. aac_reflexivity. Qed.

Lemma pass3_profit (table : list (line num)) :
  forall st st' : ledger num,
    pass3_from st table = OK st' ->
    profit st'
    = nsub (nsub (nadd (profit st) (nsum (income_values table)))
                 (nsum (expense_values table)))
           (nsum (consumed_costs st table)).
Proof.
  unfold pass3_from. induction table as [|l table IH]; intros st st' Hs.
  - simpl in Hs. injection Hs as <-. symmetry. apply bare.
  - cbn [for_each] in Hs.
    destruct (step st l) as [st1|] eqn:H1; cbn [bind] in Hs; [|discriminate Hs].
    destruct (values_cons l table) as [-> ->].
    cbn [consumed_costs]. rewrite H1, !nsum_app.
    rewrite (IH st1 st' Hs), (step_profit st st1 l H1). apply regroup.
Qed.

End Exact.

(** ** The two identities of the aggregates *)

#[export] Instance Z_Exact : ExactNum Z.
Proof. split; intros; simpl; lia. Qed.

Lemma for_each_prefix {A S : Type} (body : S -> A -> result S) (xs : list A)
    (k : nat) (s s' : S) :
  for_each body xs s = OK s' -> exists s1, for_each body (firstn k xs) s = OK s1.
Proof.
  rewrite <- (firstn_skipn k xs) at 1. rewrite for_each_app.
  destruct (for_each body (firstn k xs) s) as [s1|]; cbn [bind]; [|discriminate].
  intros _. exists s1. reflexivity.
Qed.


(** ** The entry-level deltas *)

Section Deltas.

Context {num : Type} `{Num num}.

Lemma on_release_profit (st st' : ledger num) (l : line num) :
  getitem l "ACTION" = OK (VStr "RELEASE") ->
  on_release st l = OK st' ->
  profit st'
  = if consumes st l then nsub (profit st) (nsum (popped_by st l)) else profit st.
Proof.
  intros Ha. unfold on_release. intros Hr.
  destruct (get_str l "REF") as [ref|] eqn:Href; cbn [bind] in Hr; [|discriminate Hr].
  destruct (remove_suffix ref) as [key|] eqn:Hkey; cbn [bind] in Hr; [|discriminate Hr].
  assert (Hc : consumes st l = negb (dict_mem (reserved_items_counter st) key)).
  { unfold consumes. rewrite (action_is_of l _ "RESERVE" Ha), (action_is_of l _ "RELEASE" Ha).
    cbn [String.eqb Ascii.eqb Bool.eqb orb andb]. rewrite Href; cbn [bind].
    rewrite Hkey. reflexivity. }
  rewrite Hc.
  destruct (negb (dict_mem (reserved_items_counter st) key)) eqn:Hm.
  - destruct (get_str l "ITEMS") as [itms|] eqn:Hi; cbn [bind] in Hr; [|discriminate Hr].
    destruct (take_item_and_compute_cost (item_cost st) itms) as [[item_value costs]|] eqn:Ht;
      cbn [bind] in Hr; [|discriminate Hr].
    destruct (take_item_total _ _ _ _ Ht) as (parsed & Hp & ->).
    assert (Hpop : popped_by st l = popped (item_cost st) parsed).
    { unfold popped_by. rewrite Hc. rewrite Hi; cbn [bind]. rewrite Hp. reflexivity. }
    rewrite Hpop.
    destruct (getitem _ key) as [old|]; cbn [bind] in Hr; [|discriminate Hr].
    injection Hr as <-. reflexivity.
  - run_ok_in Hr. injection Hr as <-. reflexivity.
Qed.

(** What one entry does to the profit, in whatever arithmetic. *)
Lemma step_profit_after (st st' : ledger num) (l : line num) :
  step st l = OK st' -> profit st' = profit_after st l (profit st).
Proof.
  intros Hs. unfold profit_after.
  destruct (step_branch st st' l Hs) as [Ha Hr|Ha Hr|Ha Hr|Ha Hr|Ha Hr|H1 H2 H3 H4 ->].
  - rewrite (action_is_of l _ _ Ha). cbn [String.eqb Ascii.eqb Bool.eqb].
    destruct (on_income_effect st st' l Hr) as (key & old & v & Hv & _ & _ & ->).
    unfold value_of. rewrite Hv. reflexivity.
  - rewrite !(action_is_of l _ _ Ha). cbn [String.eqb Ascii.eqb Bool.eqb andb].
    destruct (on_expense_effect st st' l Hr)
      as (v & Hv & [(Hm & key & old & _ & _ & ->)|(Hm & _ & ->)]); rewrite Hm;
      cbn [negb].
    + unfold value_of. rewrite Hv. reflexivity.
    + unfold consumes. rewrite !(action_is_of l _ _ Ha). reflexivity.
  - rewrite !(action_is_of l _ _ Ha). cbn [String.eqb Ascii.eqb Bool.eqb andb].
    destruct (on_obtain_effect st st' l Hr) as [_ ->].
    unfold consumes. rewrite !(action_is_of l _ _ Ha). reflexivity.
  - rewrite !(action_is_of l _ _ Ha). cbn [String.eqb Ascii.eqb Bool.eqb andb].
    destruct (on_reserve_effect st st' l Ha Hr) as (key & _ & _ & ->).
    unfold consumes. rewrite (action_is_of l _ "RESERVE" Ha). reflexivity.
  - rewrite !(action_is_of l _ _ Ha). cbn [String.eqb Ascii.eqb Bool.eqb andb].
    exact (on_release_profit st st' l Ha Hr).
  - rewrite H1, H2. cbn [andb]. unfold consumes. rewrite H3, H4. reflexivity.
Qed.

Lemma pass3_replay (table : list (line num)) :
  forall st st' : ledger num,
    pass3_from st table = OK st' ->
    profit st' = profit_replay st table (profit st).
Proof.
  unfold pass3_from. induction table as [|l table IH]; intros st st' Hs.
  - simpl in Hs. injection Hs as <-. reflexivity.
  - cbn [for_each] in Hs. cbn [profit_replay].
    destruct (step st l) as [st1|] eqn:H1; cbn [bind] in Hs; [|discriminate Hs].
    rewrite <- (step_profit_after st st1 l H1). exact (IH st1 st' Hs).
Qed.


End Deltas.

(** C1 (as amended).  Every entry that goes through changes the profit by its
    entry-level delta, in the arithmetic of the script: the VALUE of an INCOME
    is added, the VALUE of an EXPENSE whose TYPE is not material is
    subtracted, the sum, from the left, of the unit costs that a RESERVE or a
    RELEASE without reservation pops from the cost queues is subtracted, and
    any other entry leaves the profit as it is.  So every run of pass 3 that
    completes ends with the profit that these deltas give when they are
    applied to 0.0 one after the other in the order of the entries, and the
    same holds after each entry, that is for every prefix of the entries.  In
    exact arithmetic, where the numbers form a commutative group under
    addition, that profit is the sum of the INCOME VALUEs, minus the sum of
    the EXPENSE VALUEs whose TYPE is not material, minus the sum of the unit
    costs popped. *)
Theorem profit_identity :
  forall (num : Type) (N : Num num) (table : list (line num)) (st : ledger num),
    pass3 table = OK st ->
    (forall (s s' : ledger num) (l : line num),
        step s l = OK s' -> profit s' = profit_after s l (profit s))
    /\ profit st = profit_replay initial table nzero
    /\ (forall k : nat,
          exists st_k : ledger num,
            pass3 (firstn k table) = OK st_k
            /\ profit st_k = profit_replay initial (firstn k table) nzero)
    /\ (ExactNum num ->
        profit st = profit_by_entries table
        /\ forall k : nat,
             exists st_k : ledger num,
               pass3 (firstn k table) = OK st_k
               /\ profit st_k = profit_by_entries (firstn k table)).
Proof.
  intros num N table st Hs.
  assert (Hreplay : forall t s, pass3 t = OK s ->
                                profit s = profit_replay initial t nzero).
  { intros t s Ht. exact (pass3_replay t initial s Ht). }
  split; [intros s s' l; apply step_profit_after|].
  split; [exact (Hreplay table st Hs)|]. split.
  - intros k. destruct (for_each_prefix step table k _ _ Hs) as [st_k Hk].
    exists st_k. split; [exact Hk | exact (Hreplay _ _ Hk)].
  - intros E.
    assert (Hall : forall t s, pass3 t = OK s -> profit s = profit_by_entries t).
    { intros t s Ht. unfold pass3 in Ht. rewrite (pass3_profit t _ _ Ht).
      unfold profit_by_entries. cbn [profit initial]. rewrite nadd_zero_l.
      reflexivity. }
    split; [exact (Hall table st Hs)|].
    intros k. destruct (for_each_prefix step table k _ _ Hs) as [st_k Hk].
    exists st_k. split; [exact Hk | exact (Hall _ _ Hk)].
Qed.

Lemma profit_identity_witness :
  (forall (s s' : ledger float) (l : line float),
      step s l = OK s' -> profit s' = profit_after s l (profit s))
  /\ profit (reconciled usd_only tenths_ledger)
     = profit_replay initial (validated usd_only tenths_ledger) nzero
  /\ (forall k : nat,
        exists st_k : ledger float,
          pass3 (firstn k (validated usd_only tenths_ledger)) = OK st_k
          /\ profit st_k
             = profit_replay initial (firstn k (validated usd_only tenths_ledger))
                 nzero)
  /\ (ExactNum float ->
      profit (reconciled usd_only tenths_ledger)
      = profit_by_entries (validated usd_only tenths_ledger)
      /\ forall k : nat,
           exists st_k : ledger float,
             pass3 (firstn k (validated usd_only tenths_ledger)) = OK st_k
             /\ profit st_k
                = profit_by_entries (firstn k (validated usd_only tenths_ledger))).
Proof.
  apply (profit_identity float float_Num (validated usd_only tenths_ledger)
           (reconciled usd_only tenths_ledger)).
  vm_compute. reflexivity.
Defined.

(** C1, counterexample.  In binary64 the profit of [tenths_ledger], which the
    script accumulates entry by entry as (0.1 - 0.3) + 0.2, is not the
    reconstruction (0.1 + 0.2) - 0.3 from the sums of the entries. *)
Lemma profit_identity_rounds :
  exists st : ledger float,
    main usd_only tenths_ledger = OK st
    /\ pass3 (validated usd_only tenths_ledger) = OK st
    /\ profit st <> profit_by_entries (validated usd_only tenths_ledger).
Proof.
  eexists. split; [vm_compute; reflexivity|]. split; [vm_compute; reflexivity|].
  intros Hf. apply (f_equal Prim2SF) in Hf. vm_compute in Hf. discriminate Hf.
Qed.




(** * Further properties of the script *)

(** ** Loops that keep an invariant *)

Lemma for_each_invariant {A S : Type} (body : S -> A -> result S) (I : S -> Prop)
    (xs : list A) :
  (forall s x s', body s x = OK s' -> I s -> I s') ->
  forall s s', for_each body xs s = OK s' -> I s -> I s'.
Proof.
  intros Hbody. induction xs as [|x xs IH]; intros s s' Hrun Hs.
  - simpl in Hrun. injection Hrun as <-. exact Hs.
  - cbn [for_each] in Hrun.
    destruct (body s x) as [s1|] eqn:H1; cbn [bind] in Hrun; [|discriminate Hrun].
    exact (IH s1 s' Hrun (Hbody s x s1 H1 Hs)).
Qed.

Lemma times_invariant {S : Type} (body : S -> result S) (I : S -> Prop) (n : nat) :
  (forall s s', body s = OK s' -> I s -> I s') ->
  forall s s', times n body s = OK s' -> I s -> I s'.
Proof.
  intros Hbody. induction n as [|n IH]; intros s s' Hrun Hs.
  - simpl in Hrun. injection Hrun as <-. exact Hs.
  - cbn [times] in Hrun.
    destruct (body s) as [s1|] eqn:H1; cbn [bind] in Hrun; [|discriminate Hrun].
    exact (IH s1 s' Hrun (Hbody s s1 H1 Hs)).
Qed.

(** ** What a pattern matches *)

Lemma take_run (p : ascii -> bool) (s : string) (m : nat) :
  m <= run_length p None s ->
  forall_chars p (take m s) = true /\ String.length (take m s) = m.
Proof.
  revert m. induction s as [|c s IH]; intros m Hm.
  - simpl in Hm. assert (m = 0) as -> by lia. split; reflexivity.
  - destruct m as [|m]; [split; reflexivity|].
    simpl in Hm. destruct (p c) eqn:Hc; [|lia].
    destruct (IH m ltac:(lia)) as [Hall Hlen].
    simpl. rewrite Hc, Hall, Hlen. split; reflexivity.
Qed.

Lemma take_drop (s : string) (m : nat) : (take m s ++ drop m s)%string = s.
Proof.
  revert m. induction s as [|c s IH]; intros [|m]; simpl; try reflexivity.
  rewrite IH. reflexivity.
Qed.

Lemma drop_run (p : ascii -> bool) (s : string) :
  not_started_by p (drop (run_length p None s) s) = true.
Proof.
  induction s as [|c s IH]; simpl; [reflexivity|].
  destruct (p c) eqn:Hc; simpl; [exact IH | rewrite Hc; reflexivity].
Qed.

Lemma prefix_take (s : string) (m : nat) : prefix (take m s) s = true.
Proof.
  revert m. induction s as [|c s IH]; intros [|m]; simpl; try reflexivity.
  destruct (ascii_dec c c) as [_|Hne]; [apply IH | contradiction Hne; reflexivity].
Qed.

Lemma backtrack_inv (p : piece) (rest : string -> option (list string))
    (s : string) (n : nat) (gs : list string) :
  backtrack p rest s n = Some gs ->
  exists m gs',
    m <= n /\ lo p <= m /\ rest (drop m s) = Some gs'
    /\ gs = (if captured p then take m s :: gs' else gs').
Proof.
  induction n as [|n IH]; cbn [backtrack]; intros Hb.
  - destruct (Nat.ltb 0 (lo p)) eqn:Hlo; [discriminate Hb|].
    apply Nat.ltb_ge in Hlo.
    destruct (rest (drop 0 s)) as [gs'|] eqn:Hr; [|discriminate Hb].
    injection Hb as <-. exists 0, gs'. repeat split; [lia | exact Hlo | exact Hr].
  - destruct (Nat.ltb (S n) (lo p)) eqn:Hlo; [discriminate Hb|].
    apply Nat.ltb_ge in Hlo.
    destruct (rest (drop (S n) s)) as [gs'|] eqn:Hr.
    + injection Hb as <-. exists (S n), gs'. repeat split; [lia | exact Hlo | exact Hr].
    + destruct (IH Hb) as (m & gs' & Hm & Hl & Hr' & Hg).
      exists m, gs'. repeat split; [lia | exact Hl | exact Hr' | exact Hg].
Qed.

(** ** The key of a reference *)

Lemma remove_suffix_inv (s k : string) :
  remove_suffix s = OK k ->
  (s = "" /\ k = "")
  \/ (1 <= run_length is_ref_char None s
      /\ k = take (run_length is_ref_char None s) s).
Proof.
  unfold remove_suffix. destruct s as [|c s]; cbn [is_empty negb].
  - intros [= <-]. left. split; reflexivity.
  - intros Hk. right.
    destruct (re_match ref_re (String c s)) as [gs|] eqn:Hm; [|discriminate Hk].
    injection Hk as <-. unfold ref_re in Hm.
    change (re_match (plus is_ref_char :: [star_nc is_alpha]) (String c s))
      with (backtrack (plus is_ref_char) (re_match [star_nc is_alpha]) (String c s)
              (run_length is_ref_char None (String c s))) in Hm.
    set (n := run_length is_ref_char None (String c s)) in *.
    assert (Hn : 1 <= n).
    { destruct (backtrack_inv _ _ _ _ _ Hm) as (m & gs' & Hle & Hlo & _ & _).
      simpl in Hlo. lia. }
    rewrite (backtrack_hit _ _ _ _ [] ) in Hm.
    + injection Hm as <-. split; [exact Hn | reflexivity].
    + apply Nat.ltb_ge. exact Hn.
    + apply re_match_star.
Qed.

(** X1.  Whenever the derivation of a reference key succeeds, the key is a
    prefix of the reference, it holds nothing but digits, hyphens and
    underscores, it is empty only for the empty reference, and it is its own
    key: deriving the key of a key changes nothing. *)
Theorem remove_suffix_key :
  forall s k : string,
    remove_suffix s = OK k ->
    prefix k s = true
    /\ forall_chars is_ref_char k = true
    /\ (k = "" <-> s = "")
    /\ remove_suffix k = OK k.
Proof.
  intros s k Hk. destruct (remove_suffix_inv s k Hk) as [[-> ->]|[Hn ->]].
  - repeat split; reflexivity.
  - destruct (take_run is_ref_char s _ (le_n _)) as [Hall Hlen].
    set (n := run_length is_ref_char None s) in *.
    assert (Hne : take n s <> "").
    { intros He. rewrite He in Hlen. simpl in Hlen. lia. }
    split; [apply prefix_take|]. split; [exact Hall|]. split.
    + split; [intros He; contradiction | intros ->; destruct n; contradiction Hne; reflexivity].
    + replace (take n s) with (take n s ++ "")%string at 1.
      * apply remove_suffix_run; [exact Hne | exact Hall | reflexivity].
      * clear. induction (take n s) as [|c t IH]; simpl; [|rewrite IH]; reflexivity.
Qed.

Lemma remove_suffix_key_witness :
  prefix "2024-017" "2024-017b" = true
  /\ forall_chars is_ref_char "2024-017" = true
  /\ ("2024-017" = "" <-> "2024-017b" = "")
  /\ remove_suffix "2024-017" = OK "2024-017".
Proof. apply (remove_suffix_key "2024-017b" "2024-017"). reflexivity. Defined.

(** ** The items of a request *)

Lemma digits_value_from_nonneg (s : string) (acc : Z) :
  (0 <= acc)%Z -> (0 <= digits_value_from acc s)%Z.
Proof.
  revert acc. induction s as [|c s IH]; intros acc Hacc;
    cbn [digits_value_from]; [exact Hacc|].
  apply IH. unfold digit_value.
  pose proof (N2Z.is_nonneg (code c - 48)). lia.
Qed.

Lemma py_int_of_digits (ds : string) (n : Z) :
  ds <> "" -> forall_chars is_digit ds = true ->
  py_int ds = OK n -> n = digits_value ds.
Proof.
  intros Hne Hds. unfold py_int, strip_literal.
  assert (Hns : forall_chars not_space ds = true).
  { apply (forall_chars_weaken is_digit); [|exact Hds].
    intros c Hc. unfold not_space. rewrite (digit_not_space c Hc). reflexivity. }
  rewrite (lstrip_literal_no_space _ Hns), (rstrip_literal_no_space _ Hns).
  destruct ds as [|c ds]; [contradiction Hne; reflexivity|].
  pose proof Hds as Hds'. simpl in Hds'. apply andb_true_iff in Hds' as [Hc _].
  rewrite (digit_no_sign c ds Hc).
  rewrite (drop_underscores_digits "000" _ Hds eq_refl).
  destruct (_ && _); intros [= <-]. reflexivity.
Qed.

Lemma re_match_item_inv (item : string) (gs : list string) :
  re_match item_re item = Some gs ->
  group gs 1 <> "" /\ forall_chars is_alpha (group gs 1) = true
  /\ group gs 2 <> "" /\ forall_chars is_digit (group gs 2) = true.
Proof.
  unfold item_re.
  change (re_match (plus is_alpha :: [plus is_digit]) item)
    with (backtrack (plus is_alpha) (re_match [plus is_digit]) item
            (run_length is_alpha None item)).
  intros Hm.
  destruct (backtrack_inv _ _ _ _ _ Hm) as (m1 & gs1 & Hle1 & Hlo1 & Hrest & ->).
  change (re_match [plus is_digit] (drop m1 item))
    with (backtrack (plus is_digit) (re_match []) (drop m1 item)
            (run_length is_digit None (drop m1 item))) in Hrest.
  destruct (backtrack_inv _ _ _ _ _ Hrest) as (m2 & gs2 & Hle2 & Hlo2 & Hnil & ->).
  simpl in Hnil. injection Hnil as <-. simpl in Hlo1, Hlo2.
  destruct (take_run is_alpha item m1 Hle1) as [Ha1 Hl1].
  destruct (take_run is_digit (drop m1 item) m2 Hle2) as [Ha2 Hl2].
  cbn [captured plus group Nat.sub nth].
  repeat split; try assumption.
  - intros He. rewrite He in Hl1. simpl in Hl1. lia.
  - intros He. rewrite He in Hl2. simpl in Hl2. lia.
Qed.

Lemma dict_get_keys {V : Type} (d : dict V) (k : string) :
  In k (dict_keys d) <-> dict_mem d k = true.
Proof.
  unfold dict_keys, dict_mem. induction d as [|[k0 v0] d IH]; simpl.
  - split; [contradiction | discriminate].
  - destruct (String.eqb_spec k k0) as [->|Hne].
    + split; [reflexivity | left; reflexivity].
    + rewrite <- IH. split; [intros [E|Hin]; [congruence | exact Hin] | right; assumption].
Qed.

Lemma dict_keys_set_present {V : Type} (d : dict V) (k : string) (v : V) :
  dict_mem d k = true -> dict_keys (dict_set d k v) = dict_keys d.
Proof.
  unfold dict_keys, dict_mem. induction d as [|[k0 v0] d IH]; simpl; [discriminate|].
  destruct (String.eqb k k0); simpl; [reflexivity|].
  intros Hm. rewrite (IH Hm). reflexivity.
Qed.

Lemma dict_keys_set_absent {V : Type} (d : dict V) (k : string) (v : V) :
  dict_mem d k = false -> dict_keys (dict_set d k v) = dict_keys d ++ [k].
Proof.
  unfold dict_keys, dict_mem. induction d as [|[k0 v0] d IH]; simpl; [reflexivity|].
  destruct (String.eqb k k0); simpl; [discriminate|].
  intros Hm. rewrite (IH Hm). reflexivity.
Qed.

Lemma dict_set_nodup {V : Type} (d : dict V) (k : string) (v : V) :
  NoDup (dict_keys d) -> NoDup (dict_keys (dict_set d k v)).
Proof.
  intros Hd. destruct (dict_mem d k) eqn:Hm.
  - rewrite (dict_keys_set_present d k v Hm). exact Hd.
  - rewrite (dict_keys_set_absent d k v Hm).
    apply NoDup_app; [exact Hd | repeat constructor; intros [] |].
    intros x Hx [<-|[]]. apply dict_get_keys in Hx. congruence.
Qed.

Lemma dict_set_forall {V : Type} (P : string * V -> Prop) (d : dict V)
    (k : string) (v : V) :
  (forall k' v', P (k', v') -> String.eqb k k' = true -> P (k', v)) ->
  P (k, v) -> Forall P d -> Forall P (dict_set d k v).
Proof.
  intros Hsame Hkv Hd. induction Hd as [|[k0 v0] d H0 Hd IH]; simpl.
  - repeat constructor. exact Hkv.
  - destruct (String.eqb k k0) eqn:E; constructor.
    + exact (Hsame k0 v0 H0 E).
    + exact Hd.
    + exact H0.
    + exact IH.
Qed.

(** X2.  What [parse_items] returns lists every item once, under a non-empty
    name made of letters, with a quantity that is not negative. *)
Theorem parse_items_entries :
  forall (itms : string) (parsed : dict Z),
    parse_items itms = OK parsed ->
    NoDup (dict_keys parsed) /\ Forall item_entry_ok parsed.
Proof.
  intros itms parsed Hrun. unfold parse_items in Hrun.
  refine (for_each_invariant _
            (fun d : dict Z => NoDup (dict_keys d) /\ Forall item_entry_ok d)
            _ _ _ _ Hrun _);
    [|split; constructor].
  intros d item d' Hbody [Hnd Hall].
  destruct (re_match item_re item) as [gs|] eqn:Hm; [|discriminate Hbody].
  destruct (re_match_item_inv item gs Hm) as (Hn1 & Ha1 & Hn2 & Ha2).
  destruct (py_int (group gs 2)) as [n|] eqn:Hint; cbn [bind] in Hbody;
    [|discriminate Hbody].
  injection Hbody as <-.
  rewrite (py_int_of_digits _ _ Hn2 Ha2 Hint).
  split; [apply dict_set_nodup; exact Hnd|].
  apply dict_set_forall; [| |exact Hall].
  - intros k' v' [Hk1 [Hk2 _]] _. repeat split; try assumption.
    apply digits_value_from_nonneg. lia.
  - repeat split; try assumption. apply digits_value_from_nonneg. lia.
Qed.

Lemma parse_items_entries_witness :
  NoDup (dict_keys [("ilonena", 2%Z); ("ilomusiali", 5%Z)])
  /\ Forall item_entry_ok [("ilonena", 2%Z); ("ilomusiali", 5%Z)].
Proof.
  apply (parse_items_entries "ilonena1 ilomusiali5  ilonena2"). reflexivity.
Defined.

(** ** What validation establishes *)

Lemma mem_string_In (x : string) (l : list string) :
  mem_string x l = true <-> In x l.
Proof.
  unfold mem_string. rewrite existsb_exists. split.
  - intros (y & Hy & E). apply String.eqb_eq in E. subst y. exact Hy.
  - intros Hx. exists x. split; [exact Hx | apply String.eqb_refl].
Qed.

Lemma check_ok (b : bool) (msg : string) (u : unit) : check b msg = OK u -> b = true.
Proof. unfold check. destruct b; [reflexivity | discriminate]. Qed.

Lemma for_each_check {A : Type} (f : A -> bool) (msg : string) (xs : list A) (u : unit) :
  for_each (fun _ x => check (f x) msg) xs tt = OK u ->
  forall x, In x xs -> f x = true.
Proof.
  induction xs as [|y xs IH]; intros Hrun x Hx; [contradiction Hx|].
  cbn [for_each] in Hrun.
  destruct (check (f y) msg) as [[]|] eqn:Hy; cbn [bind] in Hrun; [|discriminate Hrun].
  destruct Hx as [<-|Hx]; [exact (check_ok _ _ _ Hy) | exact (IH Hrun x Hx)].
Qed.

Lemma get_str_inv {num : Type} (l : line num) (k s : string) :
  get_str l k = OK s <-> dict_get l k = Some (VStr s).
Proof.
  unfold get_str, getitem. destruct (dict_get l k) as [[t|x|n]|]; cbn; split;
    intros E; try discriminate E; injection E as ->; reflexivity.
Qed.

Lemma dict_mem_set_other {V : Type} (d : dict V) (k k' : string) (v : V) :
  k <> k' -> dict_mem (dict_set d k v) k' = dict_mem d k'.
Proof. intros Hne. unfold dict_mem. rewrite (dict_get_set_other d k k' v Hne). reflexivity. Qed.

Lemma fill_optional_get {num : Type} (fields : list string) (l : line num) (k : string) :
  dict_mem l k = true -> dict_get (fill_optional fields l) k = dict_get l k.
Proof.
  unfold fill_optional. revert l. induction fields as [|f fields IH]; intros l Hk; simpl.
  - reflexivity.
  - destruct (dict_mem l f) eqn:Hf; [exact (IH l Hk)|].
    assert (Hne : f <> k) by (intros ->; congruence).
    rewrite IH.
    + apply dict_get_set_other. exact Hne.
    + rewrite (dict_mem_set_other l f k _ Hne). exact Hk.
Qed.

Lemma fill_optional_mem {num : Type} (fields : list string) (l : line num) (k : string) :
  dict_mem l k = true -> dict_mem (fill_optional fields l) k = true.
Proof.
  intros Hk. unfold dict_mem at 1. rewrite (fill_optional_get fields l k Hk). exact Hk.
Qed.

Lemma fill_optional_fills {num : Type} (fields : list string) (l : line num) (k : string) :
  In k fields -> dict_mem (fill_optional fields l) k = true.
Proof.
  unfold fill_optional. revert l. induction fields as [|f fields IH]; intros l Hk;
    [contradiction Hk|].
  simpl. destruct Hk as [->|Hk].
  - destruct (dict_mem l k) eqn:Hm.
    + apply (fill_optional_mem fields l k Hm).
    + apply (fill_optional_mem fields). apply dict_mem_set_same.
  - apply IH. exact Hk.
Qed.

(** The stages of the validation of an entry that is accepted. *)
Lemma validate_line_inv (rates : rate_provider) (last d : string) (l l' : line float) :
  validate_line rates last l = OK (d, l') ->
  exists (action : string) (spec : fields_of_action) (lc lq : line float),
    get_str l "ACTION" = OK action
    /\ dict_get AVAILABLE_ACTIONS action = Some spec
    /\ (forall f, In f (required spec) -> dict_mem l f = true)
    /\ get_str l "DATE" = OK d
    /\ match re_match date_re d with
       | None => Raise (ValueError "Wrong DATE format")
       | Some matches =>
           reraise_as "Wrong DATE value"
             (y <- py_int (group matches 1) ;;
              m <- py_int (group matches 2) ;;
              dd <- py_int (group matches 3) ;;
              check (datetime_ok y m dd) "date value out of range")
       end = OK tt
    /\ String.ltb d last = false
    /\ (if dict_mem l "TYPE" then
          ty <- get_str l "TYPE" ;;
          types <- getitem AVAILABLE_TYPES action ;;
          check (mem_string ty types) "Invalid TYPE value"
        else OK tt) = OK tt
    /\ (if dict_mem l "PROJECT" then
          project <- get_str l "PROJECT" ;;
          check (mem_string project AVAILABLE_ITEMS) "Invalid PROJECT value"
        else OK tt) = OK tt
    /\ (if dict_mem l "ITEMS" then
          items <- get_str l "ITEMS" ;;
          parsed <- parse_items items ;;
          check (forallb (fun i => mem_string i AVAILABLE_ITEMS) (dict_keys parsed))
                "Invalid ITEMS value"
        else OK tt) = OK tt
    /\ (forall f, In f (dict_keys (fill_optional (optional spec) l)) ->
                  In f ("ACTION" :: required spec ++ optional spec))
    /\ (if dict_mem (fill_optional (optional spec) l) "COSTEACH" then
          usd <- reraise_as "Invalid currency in the following line"
                   (costeach <- get_str (fill_optional (optional spec) l) "COSTEACH" ;;
                    convert_to_usd rates d costeach) ;;
          OK (dict_set (fill_optional (optional spec) l) "COSTEACH" (VNum usd))
        else OK (fill_optional (optional spec) l)) = OK lc
    /\ (if dict_mem lc "QUANTITY" then
          n <- reraise_as "Invalid qualtity value in the following line"
                 (quantity <- get_str lc "QUANTITY" ;; py_int quantity) ;;
          OK (dict_set lc "QUANTITY" (VInt n))
        else OK lc) = OK lq
    /\ (if String.eqb action "INCOME" || String.eqb action "EXPENSE" then
          amount <- get_str lq "AMOUNT" ;;
          fee <- get_str lq "FEE" ;;
          value <- compute_value rates d amount fee (String.eqb action "INCOME") ;;
          OK (dict_set lq "VALUE" (VNum value))
        else OK lq) = OK l'
    /\ (if String.eqb action "EXPENSE" then
          ty <- getitem l' "TYPE" ;;
          if is_text ty "material" then
            project <- get_str l' "PROJECT" ;;
            batch <- get_str l' "BATCH" ;;
            supplier <- get_str l' "SUPPLIER" ;;
            check (negb (is_empty project || is_empty batch || is_empty supplier))
                  "Must have PROJECT, BATCH and SUPPLIER for material"
          else OK tt
        else OK tt) = OK tt.
Proof.
  intros Hv. unfold validate_line in Hv.
  destruct (get_str l "ACTION") as [action|] eqn:Ha; cbn [bind] in Hv; [|discriminate Hv].
  destruct (check (dict_mem AVAILABLE_ACTIONS action) _) as [[]|] eqn:Hknown;
    cbn [bind] in Hv; [|discriminate Hv].
  destruct (getitem AVAILABLE_ACTIONS action) as [spec|] eqn:Hspec; cbn [bind] in Hv;
    [|discriminate Hv].
  destruct (for_each _ (required spec) tt) as [[]|] eqn:Hreq; cbn [bind] in Hv;
    [|discriminate Hv].
  destruct (get_str l "DATE") as [date|] eqn:Hdate; cbn [bind] in Hv; [|discriminate Hv].
  destruct (match re_match date_re date with Some _ => _ | None => _ end)
    as [[]|] eqn:Hcal; cbn [bind] in Hv; [|discriminate Hv].
  destruct (check (negb (String.ltb date last)) _) as [[]|] eqn:Hchron;
    cbn [bind] in Hv; [|discriminate Hv].
  destruct (if dict_mem l "TYPE" then _ else _) as [[]|] eqn:Hty; cbn [bind] in Hv;
    [|discriminate Hv].
  destruct (if dict_mem l "PROJECT" then _ else _) as [[]|] eqn:Hproj; cbn [bind] in Hv;
    [|discriminate Hv].
  destruct (if dict_mem l "ITEMS" then _ else _) as [[]|] eqn:Hitems; cbn [bind] in Hv;
    [|discriminate Hv].
  destruct (for_each _ (dict_keys (fill_optional (optional spec) l)) tt)
    as [[]|] eqn:Hfields; cbn [bind] in Hv; [|discriminate Hv].
  destruct (if dict_mem (fill_optional (optional spec) l) "COSTEACH" then _ else _)
    as [lc|] eqn:Hc; cbn [bind] in Hv; [|discriminate Hv].
  destruct (if dict_mem lc "QUANTITY" then _ else _) as [lq|] eqn:Hq; cbn [bind] in Hv;
    [|discriminate Hv].
  destruct (if String.eqb action "INCOME" || String.eqb action "EXPENSE" then _ else _)
    as [lv|] eqn:Hval; cbn [bind] in Hv; [|discriminate Hv].
  destruct (if String.eqb action "EXPENSE" then _ else _) as [[]|] eqn:HC;
    cbn [bind] in Hv; [|discriminate Hv].
  injection Hv as <- <-.
  exists action, spec, lc, lq.
  apply getitem_ok in Hspec.
  apply check_ok in Hchron. apply negb_true_iff in Hchron.
  split; [reflexivity|]. split; [exact Hspec|].
  split; [exact (for_each_check _ _ _ _ Hreq)|].
  split; [first [reflexivity | exact Hdate]|].
  split; [first [reflexivity | exact Hcal]|].
  split; [exact Hchron|].
  split; [first [reflexivity | exact Hty]|].
  split; [first [reflexivity | exact Hproj]|].
  split; [first [reflexivity | exact Hitems]|].
  split.
  { intros f Hf. apply mem_string_In. exact (for_each_check _ _ _ _ Hfields f Hf). }
  split; [first [reflexivity | exact Hc]|].
  split; [first [reflexivity | exact Hq]|].
  split; [first [reflexivity | exact Hval] | first [reflexivity | exact HC]].
Qed.

Lemma calendar_inv (d : string) :
  match re_match date_re d with
  | None => Raise (ValueError "Wrong DATE format")
  | Some matches =>
      reraise_as "Wrong DATE value"
        (y <- py_int (group matches 1) ;;
         m <- py_int (group matches 2) ;;
         dd <- py_int (group matches 3) ;;
         check (datetime_ok y m dd) "date value out of range")
  end = OK tt ->
  exists matches y m dd,
    re_match date_re d = Some matches
    /\ py_int (group matches 1) = OK y
    /\ py_int (group matches 2) = OK m
    /\ py_int (group matches 3) = OK dd
    /\ datetime_ok y m dd = true.
Proof.
  destruct (re_match date_re d) as [matches|]; [|discriminate].
  unfold reraise_as.
  destruct (py_int (group matches 1)) as [y|] eqn:Hy; cbn [bind]; [|discriminate].
  destruct (py_int (group matches 2)) as [m|] eqn:Hm; cbn [bind]; [|discriminate].
  destruct (py_int (group matches 3)) as [dd|] eqn:Hdd; cbn [bind]; [|discriminate].
  destruct (check (datetime_ok y m dd) _) as [[]|] eqn:Hok; [|discriminate].
  intros _. exists matches, y, m, dd. apply check_ok in Hok.
  repeat split; first [reflexivity | assumption].
Qed.

(** X3.  An entry that validation accepts has one of the five actions, all
    the fields its action requires and no field its action does not list; its
    DATE begins with a real calendar date and is not earlier than the date
    validation had reached; and its TYPE, PROJECT and ITEMS, when present,
    name only an allowed type of the action and configured items. *)
Theorem validate_line_sound :
  forall (rates : rate_provider) (last d : string) (l l' : line float),
    validate_line rates last l = OK (d, l') ->
    exists (action : string) (spec : fields_of_action),
      get_str l "ACTION" = OK action
      /\ dict_get AVAILABLE_ACTIONS action = Some spec
      /\ (forall f, In f (required spec) -> dict_mem l f = true)
      /\ (forall f, In f (dict_keys l) ->
                    In f ("ACTION" :: required spec ++ optional spec))
      /\ get_str l "DATE" = OK d
      /\ String.ltb d last = false
      /\ (exists matches y m dd,
            re_match date_re d = Some matches
            /\ py_int (group matches 1) = OK y
            /\ py_int (group matches 2) = OK m
            /\ py_int (group matches 3) = OK dd
            /\ datetime_ok y m dd = true)
      /\ (dict_mem l "TYPE" = true ->
          exists ty types,
            get_str l "TYPE" = OK ty
            /\ dict_get AVAILABLE_TYPES action = Some types /\ In ty types)
      /\ (dict_mem l "PROJECT" = true ->
          exists project,
            get_str l "PROJECT" = OK project /\ In project AVAILABLE_ITEMS)
      /\ (dict_mem l "ITEMS" = true ->
          exists itms parsed,
            get_str l "ITEMS" = OK itms /\ parse_items itms = OK parsed
            /\ forall name, In name (dict_keys parsed) -> In name AVAILABLE_ITEMS).
Proof.
  intros rates last d l l' Hv.
  destruct (validate_line_inv rates last d l l' Hv)
    as (action & spec & lc & lq & Ha & Hspec & Hreq & Hdate & Hcal & Hchron
        & Hty & Hproj & Hitems & Hfields & _).
  exists action, spec.
  split; [exact Ha|]. split; [exact Hspec|]. split; [exact Hreq|].
  split.
  { intros f Hf. apply Hfields. apply dict_get_keys. apply fill_optional_mem.
    apply dict_get_keys. exact Hf. }
  split; [exact Hdate|]. split; [exact Hchron|].
  split; [exact (calendar_inv d Hcal)|].
  split; [|split].
  - intros Hm. rewrite Hm in Hty.
    destruct (get_str l "TYPE") as [ty|] eqn:Hg; cbn [bind] in Hty; [|discriminate Hty].
    destruct (getitem AVAILABLE_TYPES action) as [types|] eqn:Ht; cbn [bind] in Hty;
      [|discriminate Hty].
    exists ty, types. apply getitem_ok in Ht. apply check_ok, mem_string_In in Hty.
    split; [reflexivity|]. split; [exact Ht | exact Hty].
  - intros Hm. rewrite Hm in Hproj.
    destruct (get_str l "PROJECT") as [project|] eqn:Hg; cbn [bind] in Hproj;
      [|discriminate Hproj].
    exists project. apply check_ok, mem_string_In in Hproj.
    split; [reflexivity | exact Hproj].
  - intros Hm. rewrite Hm in Hitems.
    destruct (get_str l "ITEMS") as [itms|] eqn:Hg; cbn [bind] in Hitems;
      [|discriminate Hitems].
    destruct (parse_items itms) as [parsed|] eqn:Hp; cbn [bind] in Hitems;
      [|discriminate Hitems].
    exists itms, parsed. apply check_ok in Hitems.
    split; [reflexivity|]. split; [exact Hp|].
    intros name Hn. rewrite forallb_forall in Hitems.
    apply mem_string_In. exact (Hitems name Hn).
Qed.

Lemma validate_line_sound_witness :
  exists (action : string) (spec : fields_of_action),
    get_str out_of_order_first "ACTION" = OK action
    /\ dict_get AVAILABLE_ACTIONS action = Some spec
    /\ (forall f, In f (required spec) -> dict_mem out_of_order_first f = true)
    /\ (forall f, In f (dict_keys out_of_order_first) ->
                  In f ("ACTION" :: required spec ++ optional spec))
    /\ get_str out_of_order_first "DATE" = OK "2024-01-02"
    /\ String.ltb "2024-01-02" "0000-00-00" = false
    /\ (exists matches y m dd,
          re_match date_re "2024-01-02" = Some matches
          /\ py_int (group matches 1) = OK y
          /\ py_int (group matches 2) = OK m
          /\ py_int (group matches 3) = OK dd
          /\ datetime_ok y m dd = true)
    /\ (dict_mem out_of_order_first "TYPE" = true ->
        exists ty types,
          get_str out_of_order_first "TYPE" = OK ty
          /\ dict_get AVAILABLE_TYPES action = Some types /\ In ty types)
    /\ (dict_mem out_of_order_first "PROJECT" = true ->
        exists project,
          get_str out_of_order_first "PROJECT" = OK project
          /\ In project AVAILABLE_ITEMS)
    /\ (dict_mem out_of_order_first "ITEMS" = true ->
        exists itms parsed,
          get_str out_of_order_first "ITEMS" = OK itms /\ parse_items itms = OK parsed
          /\ forall name, In name (dict_keys parsed) -> In name AVAILABLE_ITEMS).
Proof.
  apply (validate_line_sound usd_only "0000-00-00" "2024-01-02" out_of_order_first
           [("ACTION", VStr "OBTAIN"); ("DATE", VStr "2024-01-02");
            ("TYPE", VStr "assembled"); ("PROJECT", VStr "ilonena");
            ("QUANTITY", VInt 1); ("COSTEACH", VNum 5%float);
            ("BATCH", VStr ""); ("REMARKS", VStr "")]).
  vm_compute. reflexivity.
Defined.

Lemma fill_optional_default {num : Type} (fields : list string) (l : line num)
    (k : string) :
  In k fields -> dict_mem l k = false ->
  dict_get (fill_optional fields l) k = Some (VStr "").
Proof.
  unfold fill_optional. revert l. induction fields as [|f fields IH]; intros l Hk Hm;
    [contradiction Hk|].
  simpl. destruct (String.eqb_spec f k) as [->|Hne].
  - rewrite Hm.
    change (fold_left _ fields ?x) with (fill_optional fields x).
    rewrite fill_optional_get; [apply dict_get_set_same | apply dict_mem_set_same].
  - destruct Hk as [->|Hk]; [contradiction Hne; reflexivity|].
    destruct (dict_mem l f); apply IH; try assumption.
    rewrite (dict_mem_set_other l f k _ Hne). exact Hm.
Qed.

Lemma enriched_other (k : string) :
  enriched k = false -> "COSTEACH" <> k /\ "QUANTITY" <> k /\ "VALUE" <> k.
Proof.
  unfold enriched. intros Hk.
  apply orb_false_iff in Hk as [Hk Hv]. apply orb_false_iff in Hk as [Hc Hq].
  apply String.eqb_neq in Hc, Hq, Hv. repeat split; congruence.
Qed.

(** Validation leaves alone every field but COSTEACH, QUANTITY and VALUE, and
    gives the empty text to an optional field that is absent. *)
Lemma validate_line_fields (rates : rate_provider) (last d : string)
    (l l' : line float) :
  validate_line rates last l = OK (d, l') ->
  exists (action : string) (spec : fields_of_action),
    get_str l "ACTION" = OK action
    /\ dict_get AVAILABLE_ACTIONS action = Some spec
    /\ forall k, enriched k = false ->
         dict_get l' k = dict_get (fill_optional (optional spec) l) k.
Proof.
  intros Hv.
  destruct (validate_line_inv rates last d l l' Hv)
    as (action & spec & lc & lq & Ha & Hspec & _ & _ & _ & _ & _ & _ & _ & _
        & Hc & Hq & Hval & _).
  exists action, spec. split; [exact Ha|]. split; [exact Hspec|].
  intros k Hk. destruct (enriched_other k Hk) as (Hn1 & Hn2 & Hn3).
  set (lf := fill_optional (optional spec) l) in *.
  assert (H1 : dict_get lc k = dict_get lf k).
  { destruct (dict_mem lf "COSTEACH"); [|injection Hc as <-; reflexivity].
    destruct (reraise_as "Invalid currency in the following line" _) as [usd|];
      cbn [bind] in Hc; [|discriminate Hc].
    injection Hc as <-. apply dict_get_set_other. exact Hn1. }
  assert (H2 : dict_get lq k = dict_get lc k).
  { destruct (dict_mem lc "QUANTITY"); [|injection Hq as <-; reflexivity].
    destruct (reraise_as "Invalid qualtity value in the following line" _) as [n|];
      cbn [bind] in Hq; [|discriminate Hq].
    injection Hq as <-. apply dict_get_set_other. exact Hn2. }
  assert (H3 : dict_get l' k = dict_get lq k).
  { destruct (_ || _); [|injection Hval as <-; reflexivity].
    destruct (get_str lq "AMOUNT"); cbn [bind] in Hval; [|discriminate Hval].
    destruct (get_str lq "FEE"); cbn [bind] in Hval; [|discriminate Hval].
    destruct (compute_value _ _ _ _ _); cbn [bind] in Hval; [|discriminate Hval].
    injection Hval as <-. apply dict_get_set_other. exact Hn3. }
  rewrite H3, H2, H1. reflexivity.
Qed.

Lemma validate_line_keeps (rates : rate_provider) (last d : string)
    (l l' : line float) (k : string) :
  validate_line rates last l = OK (d, l') ->
  enriched k = false -> dict_mem l k = true ->
  dict_get l' k = dict_get l k.
Proof.
  intros Hv Hk Hm.
  destruct (validate_line_fields rates last d l l' Hv) as (action & spec & _ & _ & Hf).
  rewrite (Hf k Hk). apply fill_optional_get. exact Hm.
Qed.

Lemma validate_line_date (rates : rate_provider) (last d : string)
    (l l' : line float) :
  validate_line rates last l = OK (d, l') -> date_of l = d /\ date_of l' = d.
Proof.
  intros Hv. destruct (validate_line_chronological rates last d l l' Hv) as [Hd _].
  unfold date_of. rewrite Hd. split; [reflexivity|].
  apply get_str_inv in Hd.
  assert (Hm : dict_mem l "DATE" = true) by (unfold dict_mem; rewrite Hd; reflexivity).
  pose proof (validate_line_keeps rates last d l l' "DATE" Hv eq_refl Hm) as Hk.
  rewrite Hd in Hk. apply get_str_inv in Hk. rewrite Hk. reflexivity.
Qed.

(** X4.  The entries of a table that pass 2 accepts are in chronological
    order: the DATE of each is not earlier than that of the entry before it,
    as texts.  Pass 2 hands on as many entries as it got, under the same
    dates. *)
Theorem pass2_chronological :
  forall (rates : rate_provider) (table validated : list (line float)),
    pass2 rates table = OK validated ->
    chronological "0000-00-00" (map date_of table) = true
    /\ List.length validated = List.length table
    /\ map date_of validated = map date_of table.
Proof.
  intros rates table validated. unfold pass2.
  destruct (pass2_from rates "0000-00-00" table) as [[d out]|] eqn:Hrun; cbn [bind];
    [|discriminate].
  intros [= <-]. revert Hrun. generalize "0000-00-00" as last.
  revert d out. induction table as [|l table IH]; intros d out last Hrun.
  - unfold pass2_from in Hrun. simpl in Hrun. injection Hrun as <- <-.
    repeat split.
  - rewrite pass2_from_cons in Hrun.
    destruct (validate_line rates last l) as [[d1 l1]|] eqn:Hl; cbn [bind] in Hrun;
      [|discriminate Hrun].
    destruct (pass2_from rates d1 table) as [[d2 more]|] eqn:Hmore; cbn [bind] in Hrun;
      [|discriminate Hrun].
    injection Hrun as <- <-.
    destruct (IH d2 more d1 Hmore) as (Hc & Hlen & Hdates).
    destruct (validate_line_chronological rates last d1 l l1 Hl) as [_ Hlt].
    destruct (validate_line_date rates last d1 l l1 Hl) as [Hd Hd'].
    cbn [map chronological List.length]. rewrite Hd, Hd', Hlt, Hc, Hlen, Hdates.
    repeat split.
Qed.

Lemma pass2_chronological_witness :
  chronological "0000-00-00" (map date_of (parsed_table order_ledger)) = true
  /\ List.length (validated usd_only order_ledger)
     = List.length (parsed_table order_ledger)
  /\ map date_of (validated usd_only order_ledger)
     = map date_of (parsed_table order_ledger).
Proof.
  apply (pass2_chronological usd_only). vm_compute. reflexivity.
Defined.

(** ** Validated entries as pass 3 reads them *)


Lemma getitem_text {num : Type} (l : line num) (k s : string) :
  get_str l k = OK s -> getitem l k = OK (VStr s).
Proof. intros Hs. apply get_str_inv in Hs. apply getitem_ok. exact Hs. Qed.

Lemma get_str_mem {num : Type} (l : line num) (k s : string) :
  get_str l k = OK s -> dict_mem l k = true.
Proof. intros Hs. apply get_str_inv in Hs. unfold dict_mem. rewrite Hs. reflexivity. Qed.

Lemma get_str_same {num : Type} (l l' : line num) (k : string) :
  dict_get l' k = dict_get l k -> get_str l' k = get_str l k.
Proof. intros E. unfold get_str, getitem. rewrite E. reflexivity. Qed.

(** X5.  A validated INCOME or EXPENSE entry carries as VALUE the number that
    [compute_value] gives for its own DATE, AMOUNT and FEE, counted as an
    income for INCOME and as an expense for EXPENSE. *)
Theorem validated_value :
  forall (rates : rate_provider) (last d action : string) (l l' : line float),
    validate_line rates last l = OK (d, l') ->
    get_str l "ACTION" = OK action ->
    action = "INCOME" \/ action = "EXPENSE" ->
    exists (amount fee : string) (v : float),
      get_str l "AMOUNT" = OK amount
      /\ get_str l "FEE" = OK fee
      /\ compute_value rates d amount fee (String.eqb action "INCOME") = OK v
      /\ get_num l' "VALUE" = OK v.
Proof.
  intros rates last d action l l' Hv Hact Hmoney.
  destruct (validate_line_inv rates last d l l' Hv)
    as (action' & spec & lc & lq & Ha & Hspec & Hreq & _ & _ & _ & _ & _ & _
        & Hfields & Hc & Hq & Hval & _).
  rewrite Hact in Ha. injection Ha as <-.
  set (lf := fill_optional (optional spec) l) in *.
  assert (Hno : forall k, ~ In k ("ACTION" :: required spec ++ optional spec) ->
                          dict_mem lf k = false).
  { intros k Hk. destruct (dict_mem lf k) eqn:Hm; [|reflexivity].
    contradiction Hk. apply Hfields. apply dict_get_keys. exact Hm. }
  assert (Hamount : In "AMOUNT" (required spec) /\ In "FEE" (required spec)
                    /\ dict_mem lf "COSTEACH" = false
                    /\ dict_mem lf "QUANTITY" = false).
  { destruct Hmoney as [-> | ->]; injection Hspec as <-;
      (split; [simpl; tauto|]); (split; [simpl; tauto|]);
      split; apply Hno; simpl; intros H; repeat destruct H as [H|H];
        solve [discriminate H | contradiction H]. }
  destruct Hamount as (Hra & Hrf & Hnc & Hnq).
  rewrite Hnc in Hc. injection Hc as <-.
  rewrite Hnq in Hq. injection Hq as <-.
  assert (Hcond : String.eqb action "INCOME" || String.eqb action "EXPENSE" = true)
    by (destruct Hmoney as [-> | ->]; reflexivity).
  rewrite Hcond in Hval.
  destruct (get_str lf "AMOUNT") as [amount|] eqn:Hga; cbn [bind] in Hval;
    [|discriminate Hval].
  destruct (get_str lf "FEE") as [fee|] eqn:Hgf; cbn [bind] in Hval;
    [|discriminate Hval].
  destruct (compute_value rates d amount fee (String.eqb action "INCOME"))
    as [v|] eqn:Hcv; cbn [bind] in Hval; [|discriminate Hval].
  injection Hval as <-.
  exists amount, fee, v.
  split.
  { rewrite <- Hga. symmetry. apply get_str_same, fill_optional_get, Hreq, Hra. }
  split.
  { rewrite <- Hgf. symmetry. apply get_str_same, fill_optional_get, Hreq, Hrf. }
  split; [exact Hcv|].
  unfold get_num, getitem. rewrite dict_get_set_same. reflexivity.
Qed.

Lemma validated_value_witness :
  exists (amount fee : string) (v : float),
    get_str out_of_order_second "AMOUNT" = OK amount
    /\ get_str out_of_order_second "FEE" = OK fee
    /\ compute_value usd_only "2024-01-01" amount fee (String.eqb "INCOME" "INCOME")
       = OK v
    /\ get_num [("ACTION", VStr "INCOME"); ("DATE", VStr "2024-01-01");
                ("TYPE", VStr "sales"); ("AMOUNT", VStr "USD10"); ("FEE", VStr "0%");
                ("REF", VStr ""); ("REMARKS", VStr ""); ("VALUE", VNum 10%float)]
               "VALUE" = OK v.
Proof.
  apply (validated_value usd_only "0000-00-00" "2024-01-01" "INCOME"
           out_of_order_second).
  - vm_compute. reflexivity.
  - reflexivity.
  - left. reflexivity.
Defined.



Lemma empty_key_stays (before : list (line float)) (st : ledger float) :
  pass3 before = OK st -> dict_mem (ref_value st) "" = true.
Proof.
  intros Hrun. exact (pass3_keeps_keys before "" initial st Hrun eq_refl).
Qed.

(** X7.  A validated INCOME entry that has no REF is always processed by
    pass 3, at any point of a run: its VALUE is added to the bucket of the
    empty reference, to the profit and to the cash flow. *)
Theorem validated_income_without_ref :
  forall (rates : rate_provider) (last d : string) (l l' : line float)
         (before : list (line float)) (st : ledger float),
    validate_line rates last l = OK (d, l') ->
    get_str l "ACTION" = OK "INCOME" ->
    dict_mem l "REF" = false ->
    pass3 before = OK st ->
    exists (v old : float) (st' : ledger float),
      get_num l' "VALUE" = OK v
      /\ dict_get (ref_value st) "" = Some old
      /\ step st l' = OK st'
      /\ ref_value st' = dict_set (ref_value st) "" (old + v)%float
      /\ profit st' = (profit st + v)%float
      /\ cash_flow st' = (cash_flow st + v)%float.
Proof.
  intros rates last d l l' before st Hv Hact Hnoref Hrun.
  destruct (validate_line_fields rates last d l l' Hv)
    as (action & spec & Ha & Hspec & Hkeep).
  rewrite Hact in Ha. injection Ha as <-. injection Hspec as <-.
  cbn [optional] in Hkeep.
  assert (Hout_action : getitem l' "ACTION" = OK (VStr "INCOME")).
  { apply getitem_ok. rewrite (Hkeep "ACTION" eq_refl).
    rewrite (fill_optional_get _ l "ACTION" (get_str_mem _ _ _ Hact)).
    apply get_str_inv. exact Hact. }
  assert (Hout_ref : get_str l' "REF" = OK "").
  { apply get_str_inv. rewrite (Hkeep "REF" eq_refl).
    apply fill_optional_default; [simpl; tauto | exact Hnoref]. }
  destruct (validate_line_inv rates last d l l' Hv)
    as (action & spec & lc & lq & Ha & _ & _ & _ & _ & _ & _ & _ & _ & _ & _ & _
        & Hval & _).
  rewrite Hact in Ha. injection Ha as <-.
  cbn [String.eqb Ascii.eqb Bool.eqb orb] in Hval.
  destruct (get_str lq "AMOUNT") as [amount|]; cbn [bind] in Hval; [|discriminate Hval].
  destruct (get_str lq "FEE") as [fee|]; cbn [bind] in Hval; [|discriminate Hval].
  destruct (compute_value rates d amount fee true) as [v|]; cbn [bind] in Hval;
    [|discriminate Hval].
  assert (Hout_value : get_num l' "VALUE" = OK v).
  { injection Hval as <-. unfold get_num, getitem. rewrite dict_get_set_same.
    reflexivity. }
  pose proof (empty_key_stays before st Hrun) as Hkey. unfold dict_mem in Hkey.
  destruct (dict_get (ref_value st) "") as [old|] eqn:Hold; [|discriminate Hkey].
  exists v, old. eexists.
  rewrite (step_income st l' Hout_action). unfold on_income.
  rewrite Hout_ref; cbn [bind remove_suffix is_empty negb].
  unfold getitem. rewrite Hold; cbn [bind]. rewrite Hout_value; cbn [bind].
  repeat split.
Qed.

Lemma validated_income_without_ref_witness :
  exists (v old : float) (st' : ledger float),
    get_num [("ACTION", VStr "INCOME"); ("DATE", VStr "2024-01-01");
             ("TYPE", VStr "sales"); ("AMOUNT", VStr "USD10"); ("FEE", VStr "0%");
             ("REF", VStr ""); ("REMARKS", VStr ""); ("VALUE", VNum 10%float)]
            "VALUE" = OK v
    /\ dict_get (ref_value three_reserved) "" = Some old
    /\ step three_reserved
         [("ACTION", VStr "INCOME"); ("DATE", VStr "2024-01-01");
          ("TYPE", VStr "sales"); ("AMOUNT", VStr "USD10"); ("FEE", VStr "0%");
          ("REF", VStr ""); ("REMARKS", VStr ""); ("VALUE", VNum 10%float)] = OK st'
    /\ ref_value st' = dict_set (ref_value three_reserved) "" (old + v)%float
    /\ profit st' = (profit three_reserved + v)%float
    /\ cash_flow st' = (cash_flow three_reserved + v)%float.
Proof.
  apply (validated_income_without_ref usd_only "0000-00-00" "2024-01-01"
           out_of_order_second _
           [ [("ACTION", VStr "OBTAIN"); ("PROJECT", VStr "ilonena");
              ("QUANTITY", VInt 3); ("COSTEACH", VNum 5%float)];
             reserve_three ]).
  - vm_compute. reflexivity.
  - reflexivity.
  - reflexivity.
  - vm_compute. reflexivity.
Defined.

(** X8.  A validated EXPENSE entry of TYPE material names a configured item
    as its PROJECT and has a BATCH and a SUPPLIER that are not empty. *)
Theorem validated_material_expense :
  forall (rates : rate_provider) (last d : string) (l l' : line float),
    validate_line rates last l = OK (d, l') ->
    get_str l "ACTION" = OK "EXPENSE" ->
    get_str l "TYPE" = OK "material" ->
    exists project batch supplier : string,
      get_str l "PROJECT" = OK project /\ In project AVAILABLE_ITEMS
      /\ get_str l "BATCH" = OK batch /\ batch <> ""
      /\ get_str l "SUPPLIER" = OK supplier /\ supplier <> "".
Proof.
  intros rates last d l l' Hv Hact Htype.
  destruct (validate_line_fields rates last d l l' Hv)
    as (action & spec & Ha & Hspec & Hkeep).
  rewrite Hact in Ha. injection Ha as <-. injection Hspec as <-.
  cbn [optional] in Hkeep.
  destruct (validate_line_inv rates last d l l' Hv)
    as (action & spec & lc & lq & Ha & _ & _ & _ & _ & _ & _ & Hproj & _ & _ & _ & _
        & _ & HC).
  rewrite Hact in Ha. injection Ha as <-.
  cbn [String.eqb Ascii.eqb Bool.eqb] in HC.
  assert (Hout_type : getitem l' "TYPE" = OK (VStr "material")).
  { apply getitem_ok. rewrite (Hkeep "TYPE" eq_refl).
    rewrite (fill_optional_get _ l "TYPE" (get_str_mem _ _ _ Htype)).
    apply get_str_inv. exact Htype. }
  rewrite Hout_type in HC; cbn [bind is_text String.eqb Ascii.eqb Bool.eqb] in HC.
  destruct (get_str l' "PROJECT") as [project|] eqn:Hp; cbn [bind] in HC;
    [|discriminate HC].
  destruct (get_str l' "BATCH") as [batch|] eqn:Hb; cbn [bind] in HC;
    [|discriminate HC].
  destruct (get_str l' "SUPPLIER") as [supplier|] eqn:Hs; cbn [bind] in HC;
    [|discriminate HC].
  apply check_ok, negb_true_iff in HC.
  apply orb_false_iff in HC as [HC Hs0]. apply orb_false_iff in HC as [Hp0 Hb0].
  assert (Hgiven : forall k s, In k ["PROJECT"; "BATCH"; "SUPPLIER"] ->
                               enriched k = false ->
                               get_str l' k = OK s -> is_empty s = false ->
                               get_str l k = OK s /\ dict_mem l k = true).
  { intros k s Hk Hek Hg Hne.
    apply get_str_inv in Hg. rewrite (Hkeep k Hek) in Hg.
    destruct (dict_mem l k) eqn:Hm.
    - rewrite (fill_optional_get _ l k Hm) in Hg. split; [|reflexivity].
      apply get_str_inv. exact Hg.
    - rewrite fill_optional_default in Hg; [|simpl in *; tauto | exact Hm].
      injection Hg as <-. discriminate Hne. }
  destruct (Hgiven "PROJECT" project ltac:(simpl; tauto) eq_refl Hp Hp0) as [Hlp Hmp].
  destruct (Hgiven "BATCH" batch ltac:(simpl; tauto) eq_refl Hb Hb0) as [Hlb _].
  destruct (Hgiven "SUPPLIER" supplier ltac:(simpl; tauto) eq_refl Hs Hs0) as [Hls _].
  rewrite Hmp, Hlp in Hproj. cbn [bind] in Hproj.
  apply check_ok, mem_string_In in Hproj.
  exists project, batch, supplier.
  repeat split; try assumption.
  - intros ->. discriminate Hb0.
  - intros ->. discriminate Hs0.
Qed.

Lemma validated_material_expense_witness :
  exists project batch supplier : string,
    get_str (nth 0 (parsed_table material_ledger) []) "PROJECT" = OK project
    /\ In project AVAILABLE_ITEMS
    /\ get_str (nth 0 (parsed_table material_ledger) []) "BATCH" = OK batch
    /\ batch <> ""
    /\ get_str (nth 0 (parsed_table material_ledger) []) "SUPPLIER" = OK supplier
    /\ supplier <> "".
Proof.
  apply (validated_material_expense usd_only "0000-00-00" "2024-01-01" _
           (nth 0 (validated usd_only material_ledger) [])).
  - vm_compute. reflexivity.
  - reflexivity.
  - reflexivity.
Defined.

(** ** The cash flow *)

(** A quantity [f] of the state that every iteration updates by [g]. *)
Lemma for_each_observed {A S T : Type} (body : S -> A -> result S)
    (f : S -> T) (g : T -> A -> T) :
  (forall s x s', body s x = OK s' -> f s' = g (f s) x) ->
  forall (xs : list A) (s s' : S),
    for_each body xs s = OK s' -> f s' = fold_left g xs (f s).
Proof.
  intros Hbody. induction xs as [|x xs IH]; intros s s' Hs.
  - simpl in Hs. injection Hs as <-. reflexivity.
  - cbn [for_each] in Hs.
    destruct (body s x) as [s1|] eqn:H1; cbn [bind] in Hs; [|discriminate Hs].
    cbn [fold_left]. rewrite <- (Hbody s x s1 H1). exact (IH s1 s' Hs).
Qed.

Section Cash.

Context {num : Type} `{Num num}.

Lemma step_cash (st st' : ledger num) (l : line num) :
  step st l = OK st' -> cash_flow st' = cash_after (cash_flow st) l.
Proof.
  intros Hs. unfold cash_after.
  destruct (step_branch st st' l Hs) as [Ha Hr|Ha Hr|Ha Hr|Ha Hr|Ha Hr|H1 H2 _ _ ->].
  - rewrite (action_is_of l _ _ Ha). cbn [String.eqb Ascii.eqb Bool.eqb].
    unfold on_income in Hr. run_ok_in Hr. injection Hr as <-. cbn [cash_flow].
    unfold value_of.
    match goal with Hv : get_num l "VALUE" = OK _ |- _ => rewrite Hv end.
    reflexivity.
  - rewrite !(action_is_of l _ _ Ha). cbn [String.eqb Ascii.eqb Bool.eqb].
    unfold on_expense in Hr. unfold value_of.
    destruct (get_num l "VALUE") as [v|]; cbn [bind] in Hr; [|discriminate Hr].
    run_ok_in Hr; injection Hr as <-; reflexivity.
  - rewrite !(action_is_of l _ _ Ha). cbn [String.eqb Ascii.eqb Bool.eqb].
    unfold on_obtain in Hr. run_ok_in Hr. injection Hr as <-. reflexivity.
  - rewrite !(action_is_of l _ _ Ha). cbn [String.eqb Ascii.eqb Bool.eqb].
    unfold on_reserve in Hr. run_ok_in Hr. injection Hr as <-. reflexivity.
  - rewrite !(action_is_of l _ _ Ha). cbn [String.eqb Ascii.eqb Bool.eqb].
    unfold on_release in Hr. run_ok_in Hr; injection Hr as <-; reflexivity.
  - rewrite H1, H2. reflexivity.
Qed.

End Cash.

(** X9.  The cash flow that pass 3 reaches depends on the INCOME and EXPENSE
    entries alone: it is the cash flow it started from, to which the VALUE of
    every INCOME entry has been added and from which the VALUE of every
    EXPENSE entry, of TYPE material or not, has been subtracted, in the order
    of the entries.  Entries that move stock leave it as it is. *)
Theorem cash_flow_of_entries :
  forall (num : Type) (N : Num num) (table : list (line num)) (st st' : ledger num),
    pass3_from st table = OK st' ->
    cash_flow st' = fold_left cash_after table (cash_flow st).
Proof.
  intros num N table st st' Hrun. unfold pass3_from in Hrun.
  apply (for_each_observed step cash_flow cash_after) with (2 := Hrun).
  intros s x s'. apply step_cash.
Qed.

Lemma cash_flow_of_entries_witness :
  cash_flow (reconciled usd_only tenths_ledger)
  = fold_left cash_after (validated usd_only tenths_ledger)
      (cash_flow (@initial float float_Num)).
Proof.
  apply (cash_flow_of_entries float float_Num (validated usd_only tenths_ledger)
           initial (reconciled usd_only tenths_ledger)).
  vm_compute. reflexivity.
Defined.

(** ** Taking units out of the cost queues *)

Lemma parse_items_nodup (itms : string) (parsed : dict Z) :
  parse_items itms = OK parsed -> NoDup (dict_keys parsed).
Proof.
  intros Hrun. unfold parse_items in Hrun.
  refine (for_each_invariant _ (fun d : dict Z => NoDup (dict_keys d))
            _ _ _ _ Hrun _); [|constructor].
  intros d item d' Hbody Hnd.
  destruct (re_match item_re item); [|discriminate Hbody].
  destruct (py_int _); cbn [bind] in Hbody; [|discriminate Hbody].
  injection Hbody as <-. apply dict_set_nodup. exact Hnd.
Qed.

Lemma dict_get_absent {V : Type} (d : dict V) (k : string) :
  ~ In k (dict_keys d) -> dict_get d k = None.
Proof.
  intros Hk. destruct (dict_get d k) eqn:Hg; [|reflexivity].
  contradiction Hk. apply dict_get_keys. unfold dict_mem. rewrite Hg. reflexivity.
Qed.

Section Stock.

Context {num : Type} `{Num num}.

Lemma times_take_unit_short (item_name : string) (n : nat) :
  forall (costs : dict (list num)) (queue : list num) (total : num),
    dict_get costs item_name = Some queue ->
    List.length queue < n ->
    times n (take_unit item_name) (total, costs) = Raise IndexError.
Proof.
  induction n as [|n IH]; intros costs queue total Hq Hn; [lia|].
  cbn [times take_unit]. unfold getitem. rewrite Hq. cbn [bind].
  destruct queue as [|c queue]; [reflexivity|]. cbn [bind].
  apply (IH _ queue); [apply dict_get_set_same | simpl in Hn; lia].
Qed.

Lemma times_take_unit_missing (item_name : string) (n : nat)
    (costs : dict (list num)) (total : num) :
  dict_get costs item_name = None ->
  times (S n) (take_unit item_name) (total, costs) = Raise (KeyError item_name).
Proof.
  intros Hq. cbn [times take_unit]. unfold getitem. rewrite Hq. reflexivity.
Qed.

Lemma in_stock_set_other (costs : dict (list num)) (k : string) (v : list num)
    (rest : dict Z) :
  ~ In k (dict_keys rest) ->
  forallb (in_stock (dict_set costs k v)) rest = forallb (in_stock costs) rest.
Proof.
  unfold dict_keys. induction rest as [|[k0 q0] rest IH]; intros Hk; [reflexivity|].
  cbn [forallb map fst In] in *. rewrite IH by tauto. f_equal.
  unfold in_stock. cbn [fst snd]. rewrite dict_get_set_other; [reflexivity|].
  intros E. apply Hk. left. symmetry. exact E.
Qed.

Lemma requested_cons (k item_name : string) (q : Z) (rest : dict Z) :
  ~ In k (dict_keys rest) ->
  requested ((k, q) :: rest) item_name
  = if String.eqb item_name k then Z.to_nat q else requested rest item_name.
Proof.
  intros _. unfold requested. cbn [dict_get].
  destruct (String.eqb item_name k); reflexivity.
Qed.

(** The run of the loop over a request: it goes through when the queues hold
    every unit asked for, and then leaves of each queue what follows the
    units taken. *)
Lemma take_loop_run (parsed : dict Z) :
  NoDup (dict_keys parsed) ->
  forall (costs : dict (list num)) (total : num),
    let run := for_each
                 (fun acc '(item_name, quantity) =>
                    times (Z.to_nat quantity) (take_unit item_name) acc)
                 parsed (total, costs) in
    if forallb (in_stock costs) parsed
    then exists total' costs',
        run = OK (total', costs')
        /\ forall item_name,
            dict_get costs' item_name
            = option_map (skipn (requested parsed item_name))
                         (dict_get costs item_name)
    else run = Raise IndexError
         \/ exists k, In k (dict_keys parsed) /\ dict_get costs k = None
                      /\ run = Raise (KeyError k).
Proof.
  unfold dict_keys.
  induction parsed as [|[k q] parsed IH]; intros Hnd costs total; cbn zeta.
  - cbn [forallb for_each]. exists total, costs. split; [reflexivity|].
    intros item_name. unfold requested. cbn [dict_get].
    destruct (dict_get costs item_name); reflexivity.
  - cbn [map fst] in Hnd. apply NoDup_cons_iff in Hnd as [Hk Hnd].
    specialize (IH Hnd). cbn zeta in IH.
    cbn [forallb for_each]. unfold in_stock at 1. cbn [fst snd].
    destruct (Z.to_nat q) as [|n] eqn:Hq.
    + cbn [times bind andb]. specialize (IH costs total).
      destruct (forallb (in_stock costs) parsed).
      2: { destruct IH as [IH|(k' & Hin & Hnone & IH)]; [left; exact IH|].
           right. exists k'. cbn [map fst In]. tauto. }
      destruct IH as (total' & costs' & Hrun & Hqueues).
      exists total', costs'. split; [exact Hrun|].
      intros item_name. rewrite Hqueues, (requested_cons k item_name q parsed Hk), Hq.
      destruct (String.eqb_spec item_name k) as [->|Hne]; [|reflexivity].
      unfold requested. rewrite (dict_get_absent parsed k Hk). reflexivity.
    + destruct (dict_get costs k) as [queue|] eqn:Hg.
      * destruct (Nat.leb (S n) (List.length queue)) eqn:Hle.
        -- apply Nat.leb_le in Hle.
           rewrite (times_take_unit k (S n) costs queue total Hg Hle). cbn [bind andb].
           specialize (IH (dict_set costs k (skipn (S n) queue))
                          (fold_left nadd (firstn (S n) queue) total)).
           rewrite (in_stock_set_other costs k _ parsed Hk) in IH.
           destruct (forallb (in_stock costs) parsed).
           2: { destruct IH as [IH|(k' & Hin & Hnone & IH)]; [left; exact IH|].
                right. exists k'. cbn [map fst In].
                repeat split; [right; exact Hin | | exact IH].
                rewrite dict_get_set_other in Hnone; [exact Hnone|].
                intros ->. exact (Hk Hin). }
           destruct IH as (total' & costs' & Hrun & Hqueues).
           exists total', costs'. split; [exact Hrun|].
           intros item_name.
           rewrite Hqueues, (requested_cons k item_name q parsed Hk), Hq.
           destruct (String.eqb_spec item_name k) as [->|Hne].
           ++ rewrite dict_get_set_same, Hg. unfold requested.
              rewrite (dict_get_absent parsed k Hk). reflexivity.
           ++ rewrite dict_get_set_other by (intros E; apply Hne; symmetry; exact E).
              reflexivity.
        -- apply Nat.leb_gt in Hle. cbn [andb]. left.
           rewrite (times_take_unit_short k (S n) costs queue total Hg Hle).
           reflexivity.
      * cbn [andb]. right. exists k.
        rewrite (times_take_unit_missing k n costs total Hg).
        cbn [map fst In]. repeat split; [left; reflexivity | exact Hg].
Qed.

Lemma popped_agree (parsed : dict Z) :
  forall costs1 costs2 : dict (list num),
    (forall k, In k (dict_keys parsed) -> dict_get costs1 k = dict_get costs2 k) ->
    popped costs1 parsed = popped costs2 parsed.
Proof.
  unfold dict_keys.
  induction parsed as [|[k q] parsed IH]; intros costs1 costs2 Hag; [reflexivity|].
  cbn [popped]. cbn [map fst In] in Hag.
  rewrite (Hag k (or_introl eq_refl)).
  destruct (dict_get costs2 k) as [queue|].
  - f_equal. apply IH. intros k' Hk'.
    destruct (String.eqb_spec k' k) as [->|Hne].
    + rewrite !dict_get_set_same. reflexivity.
    + rewrite !dict_get_set_other by (intros E; apply Hne; symmetry; exact E).
      apply Hag. right. exact Hk'.
  - apply IH. intros k' Hk'. apply Hag. right. exact Hk'.
Qed.

Lemma popped_oldest (parsed : dict Z) (costs : dict (list num)) :
  NoDup (dict_keys parsed) ->
  popped costs parsed = flat_map (oldest_units costs) parsed.
Proof.
  unfold dict_keys.
  induction parsed as [|[k q] parsed IH]; intros Hnd; [reflexivity|].
  cbn [map fst] in Hnd. apply NoDup_cons_iff in Hnd as [Hk Hnd].
  cbn [popped flat_map]. unfold oldest_units at 1. cbn [fst snd].
  destruct (dict_get costs k) as [queue|]; [|exact (IH Hnd)].
  f_equal. rewrite <- (IH Hnd). apply popped_agree.
  intros k' Hk'. apply dict_get_set_other. intros ->. exact (Hk Hk').
Qed.

End Stock.

(** X11.  Whether [take_item_and_compute_cost] returns is decided by the
    stock: it returns when the queues hold every unit the request asks for,
    and raises IndexError (a queue runs out) or KeyError (an item of the
    request has no queue) when they do not. *)
Theorem take_item_needs_stock :
  forall (num : Type) (N : Num num) (costs : dict (list num))
         (itms : string) (parsed : dict Z),
    parse_items itms = OK parsed ->
    (forallb (in_stock costs) parsed = true ->
     exists total costs', take_item_and_compute_cost costs itms = OK (total, costs'))
    /\ (forallb (in_stock costs) parsed = false ->
        take_item_and_compute_cost costs itms = Raise IndexError
        \/ exists k, In k (dict_keys parsed) /\ dict_get costs k = None
                     /\ take_item_and_compute_cost costs itms = Raise (KeyError k)).
Proof.
  intros num N costs itms parsed Hp.
  pose proof (take_loop_run parsed (parse_items_nodup itms parsed Hp) costs nzero)
    as Hrun.
  cbn zeta in Hrun. unfold take_item_and_compute_cost. rewrite Hp. cbn [bind].
  split; intros Hstock; rewrite Hstock in Hrun.
  - destruct Hrun as (total' & costs' & Hrun & _). exists total', costs'. exact Hrun.
  - exact Hrun.
Qed.

Lemma take_item_needs_stock_witness :
  (forallb (in_stock (item_cost stocked)) [("ilonena", 3%Z)] = true ->
   exists total costs',
     take_item_and_compute_cost (item_cost stocked) "ilonena3" = OK (total, costs'))
  /\ (forallb (in_stock (item_cost stocked)) [("ilonena", 3%Z)] = false ->
      take_item_and_compute_cost (item_cost stocked) "ilonena3" = Raise IndexError
      \/ exists k,
          In k (dict_keys [("ilonena", 3%Z)])
          /\ dict_get (item_cost stocked) k = None
          /\ take_item_and_compute_cost (item_cost stocked) "ilonena3"
             = Raise (KeyError k)).
Proof.
  apply (take_item_needs_stock float float_Num (item_cost stocked) "ilonena3").
  reflexivity.
Defined.

(** X12.  The queues are served first in, first out, whatever the request:
    when [take_item_and_compute_cost] returns, the total is the sum of the
    oldest unit costs of every item asked for, as many as asked, and every
    queue is left with the unit costs that followed them. *)
Theorem take_item_first_in_first_out :
  forall (num : Type) (N : Num num) (costs costs' : dict (list num))
         (itms : string) (parsed : dict Z) (total : num),
    parse_items itms = OK parsed ->
    take_item_and_compute_cost costs itms = OK (total, costs') ->
    total = nsum (flat_map (oldest_units costs) parsed)
    /\ forall item_name,
        dict_get costs' item_name
        = option_map (skipn (requested parsed item_name)) (dict_get costs item_name).
Proof.
  intros num N costs costs' itms parsed total Hp Hrun.
  pose proof (parse_items_nodup itms parsed Hp) as Hnd.
  split.
  - destruct (take_item_total costs costs' itms total Hrun) as (parsed' & Hp' & ->).
    rewrite Hp in Hp'. injection Hp' as <-.
    rewrite (popped_oldest parsed costs Hnd). reflexivity.
  - pose proof (take_loop_run parsed Hnd costs nzero) as Hloop. cbn zeta in Hloop.
    unfold take_item_and_compute_cost in Hrun. rewrite Hp in Hrun. cbn [bind] in Hrun.
    rewrite Hrun in Hloop.
    destruct (forallb (in_stock costs) parsed).
    + destruct Hloop as (total' & costs'' & [= _ <-] & Hqueues). exact Hqueues.
    + destruct Hloop as [Hl|(k & _ & _ & Hl)]; discriminate Hl.
Qed.

Lemma take_item_first_in_first_out_witness :
  (10%float = nsum (flat_map (oldest_units (item_cost stocked))
                             [("ilonena", 1%Z); ("ilomusiali", 0%Z)]))
  /\ forall item_name,
      dict_get [("ilonena", []); ("ilomusiali", [])] item_name
      = option_map
          (skipn (requested [("ilonena", 1%Z); ("ilomusiali", 0%Z)] item_name))
          (dict_get (item_cost stocked) item_name).
Proof.
  apply (take_item_first_in_first_out float float_Num (item_cost stocked) _
           "ilonena1 ilomusiali0").
  - reflexivity.
  - vm_compute. reflexivity.
Defined.

(** ** Entries that leave the ledger as it is, and entries that abort the run *)

(** X13.  An OBTAIN entry whose QUANTITY is zero or negative, down to -2^63,
    for a PROJECT that has a queue, goes through and leaves the ledger exactly
    as it was: no unit is added to the queue of its PROJECT, and none is taken
    away.  (Below -2^63 the QUANTITY is no index and the entry aborts the
    run.) *)
Theorem obtain_without_units :
  forall (num : Type) (N : Num num) (st : ledger num) (l : line num)
         (project : string) (costeach : num) (quantity : Z),
    getitem l "ACTION" = OK (VStr "OBTAIN") ->
    get_str l "PROJECT" = OK project ->
    dict_mem (item_cost st) project = true ->
    get_num l "COSTEACH" = OK costeach ->
    get_int l "QUANTITY" = OK quantity ->
    (- 2 ^ 63 <= quantity <= 0)%Z ->
    step st l = OK st.
Proof.
  intros num N st l project costeach quantity Ha Hp Hm Hc Hq Hle.
  rewrite (step_obtain st l Ha). unfold dict_mem in Hm.
  destruct (dict_get (item_cost st) project) as [queue|] eqn:Hg; [|discriminate Hm].
  rewrite (on_obtain_appends st l project queue costeach quantity Hp Hc Hq
             ltac:(lia) Hg).
  replace (Z.to_nat quantity) with 0 by lia.
  cbn [repeat]. rewrite app_nil_r, (dict_set_id _ _ _ Hg).
  destruct st. reflexivity.
Qed.

Lemma obtain_without_units_witness :
  step stocked (nth 0 (validated usd_only negative_obtain) [])
  = OK stocked.
Proof.
  apply (obtain_without_units float float_Num stocked
           (nth 0 (validated usd_only negative_obtain) [])
           "ilonena" 5%float (-3)%Z).
  - reflexivity.
  - reflexivity.
  - reflexivity.
  - reflexivity.
  - reflexivity.
  - lia.
Defined.

(** X14.  A RELEASE under a reference that holds a reservation aborts the
    run with the over-release ValueError when it asks for more units of an
    item than the reservation still lists for it. *)
Theorem release_beyond_reservation :
  forall (num : Type) (N : Num num) (st : ledger num) (l : line num)
         (ref key itms item_name : string) (quantity left : Z),
    getitem l "ACTION" = OK (VStr "RELEASE") ->
    get_str l "REF" = OK ref -> remove_suffix ref = OK key ->
    get_str l "ITEMS" = OK itms ->
    parse_items itms = OK [(item_name, quantity)] ->
    outstanding st key item_name = Some left ->
    (left < quantity)%Z ->
    step st l
    = Raise (ValueError
        "Attempting to RELEASE more items than it has from RESERVE'd items").
Proof.
  intros num N st l ref key itms item_name quantity left Ha Hr Hk Hi Hp Hout Hlt.
  rewrite (step_release st l Ha). unfold on_release.
  rewrite Hr; cbn [bind]. rewrite Hk; cbn [bind].
  unfold outstanding in Hout.
  destruct (dict_get (reserved_items_counter st) key) as [r|] eqn:Hg;
    [|discriminate Hout].
  unfold dict_mem. rewrite Hg. cbn [negb].
  rewrite Hi; cbn [bind]. unfold take_reserved_inventory.
  rewrite Hp; cbn [bind for_each]. unfold getitem.
  rewrite Hg; cbn [bind]. rewrite Hout; cbn [bind].
  assert (Hz : (left - quantity =? 0)%Z = false) by (apply Z.eqb_neq; lia).
  assert (Hn : (left - quantity <? 0)%Z = true) by (apply Z.ltb_lt; lia).
  rewrite Hz, Hn. reflexivity.
Qed.

Lemma release_beyond_reservation_witness :
  step three_reserved (release_of "7a" "ilonena4")
  = Raise (ValueError
      "Attempting to RELEASE more items than it has from RESERVE'd items").
Proof.
  apply (release_beyond_reservation float float_Num three_reserved
           (release_of "7a" "ilonena4") "7a" "7" "ilonena4" "ilonena" 4%Z 3%Z).
  - reflexivity.
  - reflexivity.
  - reflexivity.
  - reflexivity.
  - reflexivity.
  - reflexivity.
  - lia.
Defined.

(** ** The items of the inventory *)

Section Inventory.

Context {num : Type} `{Num num}.

Lemma take_unit_keys (item_name : string) (acc acc' : num * dict (list num)) :
  take_unit item_name acc = OK acc' ->
  dict_keys (snd acc') = dict_keys (snd acc).
Proof.
  destruct acc as [total costs]. unfold take_unit, getitem. intros Hr.
  destruct (dict_get costs item_name) as [queue|] eqn:Hg; cbn [bind] in Hr;
    [|discriminate Hr].
  destruct queue as [|first rest]; [discriminate Hr|].
  injection Hr as <-. cbn [snd].
  apply dict_keys_set_present. unfold dict_mem. rewrite Hg. reflexivity.
Qed.

Lemma take_item_keys (costs costs' : dict (list num)) (itms : string) (total : num) :
  take_item_and_compute_cost costs itms = OK (total, costs') ->
  dict_keys costs' = dict_keys costs.
Proof.
  unfold take_item_and_compute_cost. intros Hr.
  destruct (parse_items itms) as [parsed|]; cbn [bind] in Hr; [|discriminate Hr].
  refine (for_each_invariant _
            (fun acc : num * dict (list num) => dict_keys (snd acc) = dict_keys costs)
            _ _ _ _ Hr eq_refl).
  intros acc [item_name quantity] acc' Hbody Hacc.
  refine (times_invariant _
            (fun acc : num * dict (list num) => dict_keys (snd acc) = dict_keys costs)
            _ _ _ _ Hbody Hacc).
  intros s s' Hs Hk. rewrite (take_unit_keys item_name s s' Hs). exact Hk.
Qed.

Lemma step_item_keys (st st' : ledger num) (l : line num) :
  step st l = OK st' -> dict_keys (item_cost st') = dict_keys (item_cost st).
Proof.
  intros Hs.
  destruct (step_branch st st' l Hs) as [_ Hr|_ Hr|_ Hr|_ Hr|_ Hr|_ _ _ _ ->].
  - unfold on_income in Hr. run_ok_in Hr. injection Hr as <-. reflexivity.
  - unfold on_expense in Hr. run_ok_in Hr; injection Hr as <-; reflexivity.
  - unfold on_obtain in Hr.
    destruct (get_str l "PROJECT") as [project|]; cbn [bind] in Hr; [|discriminate Hr].
    unfold getitem in Hr.
    destruct (dict_get (item_cost st) project) as [queue|] eqn:Hg; cbn [bind] in Hr;
      [|discriminate Hr].
    run_ok_in Hr. injection Hr as <-. cbn [item_cost].
    apply dict_keys_set_present. unfold dict_mem. rewrite Hg. reflexivity.
  - unfold on_reserve in Hr.
    destruct (get_str l "REF") as [ref|]; cbn [bind] in Hr; [|discriminate Hr].
    destruct (remove_suffix ref) as [key|]; cbn [bind] in Hr; [|discriminate Hr].
    destruct (dict_mem (ref_value st) key); [discriminate Hr|].
    destruct (get_str l "ITEMS") as [itms|]; cbn [bind] in Hr; [|discriminate Hr].
    destruct (take_item_and_compute_cost (item_cost st) itms) as [[v costs]|] eqn:Ht;
      cbn [bind] in Hr; [|discriminate Hr].
    run_ok_in Hr. injection Hr as <-. cbn [item_cost].
    exact (take_item_keys _ _ _ _ Ht).
  - unfold on_release in Hr.
    destruct (get_str l "REF") as [ref|]; cbn [bind] in Hr; [|discriminate Hr].
    destruct (remove_suffix ref) as [key|]; cbn [bind] in Hr; [|discriminate Hr].
    destruct (negb (dict_mem (reserved_items_counter st) key)).
    + destruct (get_str l "ITEMS") as [itms|]; cbn [bind] in Hr; [|discriminate Hr].
      destruct (take_item_and_compute_cost (item_cost st) itms) as [[v costs]|] eqn:Ht;
        cbn [bind] in Hr; [|discriminate Hr].
      run_ok_in Hr. injection Hr as <-. cbn [item_cost].
      exact (take_item_keys _ _ _ _ Ht).
    + run_ok_in Hr. injection Hr as <-. reflexivity.
  - reflexivity.
Qed.

End Inventory.

(** X15.  The inventory always lists the configured items, and nothing else:
    at the end of pass 3 the keys of [item_cost] are [AVAILABLE_ITEMS], in
    that order, whatever the entries were. *)
Theorem inventory_lists_configured_items :
  forall (num : Type) (N : Num num) (table : list (line num)) (st : ledger num),
    pass3 table = OK st -> dict_keys (item_cost st) = AVAILABLE_ITEMS.
Proof.
  intros num N table st Hrun. unfold pass3, pass3_from in Hrun.
  refine (for_each_invariant _
            (fun s : ledger num => dict_keys (item_cost s) = AVAILABLE_ITEMS)
            _ _ _ _ Hrun eq_refl).
  intros s l s' Hs Hk. rewrite (step_item_keys s s' l Hs). exact Hk.
Qed.

Lemma inventory_lists_configured_items_witness :
  dict_keys (item_cost cents_final) = AVAILABLE_ITEMS.
Proof.
  apply (inventory_lists_configured_items Z Z_Num cents_table cents_final).
  reflexivity.
Defined.

(** ** What can happen to a validated RESERVE entry *)

Lemma remove_suffix_raises (s : string) (e : exn) :
  remove_suffix s = Raise e -> e = AttributeError.
Proof.
  unfold remove_suffix. destruct (negb (is_empty s)); [|discriminate].
  destruct (re_match ref_re s); [discriminate|]. intros [= <-]. reflexivity.
Qed.

Lemma add_reserved_returns {num : Type} (reserved : dict (reservation num))
    (key itms : string) (rem : option (pyval num)) (parsed : dict Z) :
  parse_items itms = OK parsed ->
  exists reserved', add_reserved_inventory reserved key itms rem = OK reserved'.
Proof.
  intros Hp. unfold add_reserved_inventory. rewrite Hp. cbn [bind]. clear Hp.
  revert reserved. induction parsed as [|[item_name quantity] parsed IH];
    intros reserved.
  - exists reserved. reflexivity.
  - cbn [for_each].
    set (reserved0 := if negb (dict_mem reserved key)
                      then dict_set reserved key {| items := []; remarks := rem |}
                      else reserved).
    assert (Hin : exists r0, dict_get reserved0 key = Some r0).
    { unfold reserved0, dict_mem.
      destruct (dict_get reserved key) as [r0|] eqn:Hg; cbn [negb].
      - exists r0. exact Hg.
      - eexists. apply dict_get_set_same. }
    destruct Hin as [r0 Hr0]. unfold getitem. rewrite Hr0. cbn [bind]. apply IH.
Qed.

(** X16.  A validated RESERVE entry whose REF is a text, as pass 1 makes it,
    never meets a missing field, a missing queue or a malformed request in
    pass 3.  At any point of a run it either goes through, or aborts the run
    in one of three ways: its reference is already a key of [ref_value] (the
    duplicate exception), a queue runs out of units (IndexError), or the key
    of its REF cannot be derived (AttributeError). *)
Theorem validated_reserve_outcome :
  forall (rates : rate_provider) (last d ref : string) (l l' : line float)
         (before : list (line float)) (st : ledger float),
    validate_line rates last l = OK (d, l') ->
    get_str l "ACTION" = OK "RESERVE" ->
    get_str l "REF" = OK ref ->
    pass3 before = OK st ->
    (exists st', step st l' = OK st')
    \/ step st l' = Raise (Exception "Duplicated RESERVE REF")
    \/ step st l' = Raise IndexError
    \/ step st l' = Raise AttributeError.
Proof.
  intros rates last d ref l l' before st Hv Hact Href Hrun.
  destruct (validate_line_fields rates last d l l' Hv)
    as (action & spec & Ha & Hspec & Hkeep).
  rewrite Hact in Ha. injection Ha as <-. injection Hspec as <-.
  cbn [optional] in Hkeep.
  destruct (validate_line_inv rates last d l l' Hv)
    as (action & spec & lc & lq & Ha & Hspec & Hreq & _ & _ & _ & _ & _ & Hitems & _).
  rewrite Hact in Ha. injection Ha as <-. injection Hspec as <-.
  cbn [required] in Hreq.
  assert (Hsame : forall k, enriched k = false -> dict_mem l k = true ->
                            get_str l' k = get_str l k).
  { intros k Hek Hm. apply get_str_same. rewrite (Hkeep k Hek).
    apply fill_optional_get. exact Hm. }
  assert (Hout_action : getitem l' "ACTION" = OK (VStr "RESERVE")).
  { apply getitem_ok. rewrite (Hkeep "ACTION" eq_refl).
    rewrite (fill_optional_get _ l "ACTION" (get_str_mem _ _ _ Hact)).
    apply get_str_inv. exact Hact. }
  rewrite (Hreq "ITEMS" ltac:(simpl; tauto)) in Hitems.
  destruct (get_str l "ITEMS") as [itms|] eqn:Hi; cbn [bind] in Hitems;
    [|discriminate Hitems].
  destruct (parse_items itms) as [parsed|] eqn:Hp; cbn [bind] in Hitems;
    [|discriminate Hitems].
  apply check_ok in Hitems.
  assert (Hkeys : dict_keys (item_cost st) = AVAILABLE_ITEMS).
  { unfold pass3, pass3_from in Hrun.
    refine (for_each_invariant _
              (fun s : ledger float => dict_keys (item_cost s) = AVAILABLE_ITEMS)
              _ _ _ _ Hrun eq_refl).
    intros s x s' Hs Hk. rewrite (step_item_keys s s' x Hs). exact Hk. }
  rewrite (step_reserve st l' Hout_action). unfold on_reserve.
  rewrite (Hsame "REF" eq_refl (get_str_mem _ _ _ Href)), Href. cbn [bind].
  destruct (remove_suffix ref) as [key|e] eqn:Hk; cbn [bind].
  2: { right. right. right. rewrite (remove_suffix_raises ref e Hk). reflexivity. }
  destruct (dict_mem (ref_value st) key); [right; left; reflexivity|].
  rewrite (Hsame "ITEMS" eq_refl (get_str_mem _ _ _ Hi)), Hi. cbn [bind].
  pose proof (take_loop_run parsed (parse_items_nodup itms parsed Hp)
                (item_cost st) nzero) as Hloop.
  cbn zeta in Hloop. unfold take_item_and_compute_cost. rewrite Hp. cbn [bind].
  destruct (forallb (in_stock (item_cost st)) parsed).
  - destruct Hloop as (total' & costs' & -> & _). cbn [bind].
    destruct (add_reserved_returns (reserved_items_counter st) key itms
                (dict_get l' "REMARKS") parsed Hp) as [reserved' ->].
    cbn [bind]. left. eexists. reflexivity.
  - destruct Hloop as [->|(k & Hin & Hnone & _)].
    + right. right. left. reflexivity.
    + exfalso. rewrite forallb_forall in Hitems.
      apply Hitems, mem_string_In in Hin. rewrite <- Hkeys in Hin.
      apply dict_get_keys in Hin. unfold dict_mem in Hin. rewrite Hnone in Hin.
      discriminate Hin.
Qed.

Lemma validated_reserve_outcome_witness :
  (exists st',
      step three_in_stock (nth 0 (validated usd_only reserve_record) []) = OK st')
  \/ step three_in_stock (nth 0 (validated usd_only reserve_record) [])
     = Raise (Exception "Duplicated RESERVE REF")
  \/ step three_in_stock (nth 0 (validated usd_only reserve_record) [])
     = Raise IndexError
  \/ step three_in_stock (nth 0 (validated usd_only reserve_record) [])
     = Raise AttributeError.
Proof.
  apply (validated_reserve_outcome usd_only "0000-00-00" "2024-01-03" "7a"
           (nth 0 (parsed_table reserve_record) []) _
           [ [("ACTION", VStr "OBTAIN"); ("PROJECT", VStr "ilonena");
              ("QUANTITY", VInt 3); ("COSTEACH", VNum 5%float)] ]
           three_in_stock).
  - vm_compute. reflexivity.
  - reflexivity.
  - reflexivity.
  - vm_compute. reflexivity.
Defined.

(** ** Pass 1 *)

Lemma pass1_loop (lines : list string) :
  forall acc table : list (line float),
    for_each
      (fun data_table raw =>
         let l := remove_char "010" raw in
         if is_empty l || starts_with "#" l then OK data_table
         else entry <- parse_line l ;; OK (data_table ++ [entry]))
      lines acc = OK table
    <-> exists entries,
          table = acc ++ entries
          /\ Forall2 (fun raw entry => parse_line (remove_char "010" raw) = OK entry)
                     (filter kept lines) entries.
Proof.
  induction lines as [|raw lines IH]; intros acc table.
  - cbn [for_each filter]. split.
    + intros [= <-]. exists []. rewrite app_nil_r. split; [reflexivity | constructor].
    + intros (entries & -> & Hall). inversion Hall. rewrite app_nil_r. reflexivity.
  - cbn [for_each filter]. unfold kept at 1. cbn zeta.
    destruct (is_empty (remove_char "010" raw) || starts_with "#" (remove_char "010" raw));
      cbn [negb bind]; [apply IH|].
    destruct (parse_line (remove_char "010" raw)) as [entry|e] eqn:Hp; cbn [bind].
    + rewrite IH. split.
      * intros (entries & -> & Hall). exists (entry :: entries).
        rewrite <- app_assoc. split; [reflexivity|]. constructor; assumption.
      * intros (entries & -> & Hall). inversion Hall as [|? e1 ? rest H1 Hrest]; subst.
        rewrite Hp in H1. injection H1 as <-.
        exists rest. rewrite <- app_assoc. split; [reflexivity | exact Hrest].
    + split; [discriminate|].
      intros (entries & _ & Hall). inversion Hall as [|? e1 ? rest H1 Hrest]; subst.
      rewrite Hp in H1. discriminate H1.
Qed.

(** X17.  Pass 1 reads the file line by line, each line on its own: it
    returns a table exactly when every line that is neither empty nor a
    comment parses, and the table then holds the entries of those lines, one
    for each, in the order of the file. *)
Theorem pass1_entries :
  forall (lines : list string) (table : list (line float)),
    pass1 lines = OK table
    <-> Forall2 (fun raw entry => parse_line (remove_char "010" raw) = OK entry)
                (filter kept lines) table.
Proof.
  intros lines table. unfold pass1. rewrite pass1_loop. split.
  - intros (entries & -> & Hall). exact Hall.
  - intros Hall. exists table. split; [reflexivity | exact Hall].
Qed.

Lemma pass1_entries_witness :
  Forall2 (fun raw entry => parse_line (remove_char "010" raw) = OK entry)
          (filter kept ilonena_ledger) (parsed_table ilonena_ledger).
Proof. apply (pass1_entries ilonena_ledger). reflexivity. Defined.

Lemma dict_union_get {V : Type} (b : dict V) (k : string) :
  NoDup (dict_keys b) ->
  forall a : dict V,
    dict_get (dict_union a b) k
    = match dict_get b k with Some v => Some v | None => dict_get a k end.
Proof.
  unfold dict_union, dict_keys.
  induction b as [|[k0 v0] b IH]; intros Hnd a; [reflexivity|].
  cbn [map fst] in Hnd. apply NoDup_cons_iff in Hnd as [Hk Hnd].
  cbn [fold_left fst snd dict_get]. rewrite (IH Hnd).
  destruct (String.eqb_spec k k0) as [->|Hne].
  - rewrite (dict_get_absent b k0 Hk). apply dict_get_set_same.
  - destruct (dict_get b k); [reflexivity|].
    apply dict_get_set_other. intros E. apply Hne. symmetry. exact E.
Qed.

Lemma parse_fields_nodup {num : Type} (fields : list string) (named : line num) :
  for_each parse_field fields [] = OK named -> NoDup (dict_keys named).
Proof.
  intros Hrun.
  refine (for_each_invariant _ (fun d : line num => NoDup (dict_keys d))
            _ _ _ _ Hrun _); [|constructor].
  intros d i d' Hbody Hnd. unfold parse_field in Hbody.
  destruct (split_once " " i) as [[name value]|]; [|discriminate Hbody].
  injection Hbody as <-. apply dict_set_nodup. exact Hnd.
Qed.

(** X18.  The remarks of an entry run to the end of its line: when the text
    after the colon holds [REMARKS] followed by a space, the REMARKS field of
    the entry is all that follows, commas included, without the white space
    around it. *)
Theorem remarks_run_to_end_of_line :
  forall (l action rest text : string) (n : nat) (entry : line float),
    split_once ":" l = Some (action, rest) ->
    find "REMARKS" rest = Some n ->
    drop n rest = ("REMARKS " ++ text)%string ->
    parse_line l = OK entry ->
    dict_get entry "REMARKS" = Some (VStr (strip text)).
Proof.
  intros l action rest text n entry Hsplit Hfind Hdrop Hrun.
  unfold parse_line in Hrun. rewrite Hsplit, Hfind in Hrun.
  rewrite for_each_app in Hrun.
  destruct (for_each parse_field _ []) as [named0|] eqn:Hfront; cbn [bind] in Hrun;
    [|discriminate Hrun].
  rewrite Hdrop in Hrun. cbn [for_each] in Hrun.
  change (parse_field named0 ("REMARKS " ++ text)%string)
    with (@OK (line float) (dict_set named0 "REMARKS" (VStr (strip text)))) in Hrun.
  cbn [bind] in Hrun. injection Hrun as <-.
  rewrite dict_union_get.
  - rewrite dict_get_set_same. reflexivity.
  - apply dict_set_nodup. exact (parse_fields_nodup _ named0 Hfront).
Qed.

Lemma remarks_run_to_end_of_line_witness :
  dict_get [("ACTION", VStr "INCOME"); ("DATE", VStr "2024-01-01");
            ("REMARKS", @VStr float "paid, in cash")] "REMARKS"
  = Some (VStr (strip "paid, in cash  ")).
Proof.
  apply (remarks_run_to_end_of_line
           "INCOME: DATE 2024-01-01, REMARKS paid, in cash  "
           "INCOME" " DATE 2024-01-01, REMARKS paid, in cash  "
           "paid, in cash  " 18).
  - reflexivity.
  - reflexivity.
  - reflexivity.
  - reflexivity.
Defined.

(** ** Conversion to USD *)

(** X19.  No amount is converted on a date whose rate table cannot be read,
    not even an amount in USD or the amount 0, which need no rate: the table
    is read before the currency is compared with USD.  [compute_value] then
    returns nothing either. *)
Theorem conversion_needs_rates :
  forall (rates : rate_provider) (d : string),
    rates d = None ->
    (forall (amount : string) (v : float), convert_to_usd rates d amount <> OK v)
    /\ (forall (amount fee : string) (income : bool) (v : float),
           compute_value rates d amount fee income <> OK v).
Proof.
  intros rates d Hd.
  assert (Hconv : forall (amount : string) (v : float),
             convert_to_usd rates d amount <> OK v).
  { intros amount v. unfold convert_to_usd.
    destruct (String.eqb (strip amount) "0"); cbn [bind].
    - rewrite Hd. discriminate.
    - destruct (re_match amount_re (strip amount)) as [matches|]; [|discriminate].
      destruct (py_float (group matches 2)); cbn [bind]; [|discriminate].
      rewrite Hd. discriminate. }
  split; [exact Hconv|].
  intros amount fee income v. unfold compute_value.
  destruct (convert_to_usd rates d amount) as [a|] eqn:Ha; [|discriminate].
  contradiction (Hconv amount a Ha).
Qed.

Lemma conversion_needs_rates_witness :
  (forall (amount : string) (v : float),
      convert_to_usd no_rates "2024-01-01" amount <> OK v)
  /\ (forall (amount fee : string) (income : bool) (v : float),
         compute_value no_rates "2024-01-01" amount fee income <> OK v).
Proof. apply (conversion_needs_rates no_rates "2024-01-01"). reflexivity. Defined.

Lemma run_length_done (p : ascii -> bool) (s : string) : run_length p (Some 0) s = 0.
Proof. destruct s; reflexivity. Qed.

(** A currency code of three letters is matched as a whole. *)
Lemma re_match_amount (a b c : ascii) (s : string) :
  is_alpha a = true -> is_alpha b = true -> is_alpha c = true ->
  re_match amount_re (String a (String b (String c s)))
  = match re_match [plus is_amount_char] s with
    | Some gs => Some (String a (String b (String c "")) :: gs)
    | None => None
    end.
Proof.
  intros Ha Hb Hc. unfold amount_re.
  change (re_match (exactly 3 is_alpha :: [plus is_amount_char])
            (String a (String b (String c s))))
    with (backtrack (exactly 3 is_alpha) (re_match [plus is_amount_char])
            (String a (String b (String c s)))
            (run_length is_alpha (Some 3) (String a (String b (String c s))))).
  cbn [run_length option_map Nat.pred]. rewrite Ha, Hb, Hc, run_length_done.
  cbn [backtrack exactly lo captured Nat.ltb Nat.leb drop take].
  destruct (re_match [plus is_amount_char] s); reflexivity.
Qed.

Lemma amount_char_not_space (c : ascii) : is_amount_char c = true -> is_space c = false.
Proof. by_char c. Qed.

(** X20.  On a date whose rate table can be read, an amount in USD, written
    as USD followed by digits and dots, is converted to what [float] makes of
    those digits and dots, whatever the table holds. *)
Theorem usd_amount_is_its_number :
  forall (rates : rate_provider) (d n : string) (table : dict float),
    rates d = Some table ->
    n <> "" -> forall_chars is_amount_char n = true ->
    convert_to_usd rates d ("USD" ++ n) = py_float n.
Proof.
  intros rates d n table Hd Hne Hn. unfold convert_to_usd, strip.
  assert (Hns : forall_chars not_space ("USD" ++ n) = true).
  { rewrite forall_chars_app. apply andb_true_iff. split; [reflexivity|].
    apply (forall_chars_weaken is_amount_char); [|exact Hn].
    intros c Hc. unfold not_space. rewrite (amount_char_not_space c Hc). reflexivity. }
  rewrite (lstrip_no_space _ Hns), (rstrip_no_space _ Hns).
  change (String.eqb ("USD" ++ n) "0") with false. cbv iota.
  assert (Hrest : re_match [plus is_amount_char] n = Some [n]).
  { change (re_match [plus is_amount_char] n)
      with (backtrack (plus is_amount_char) (re_match []) n
              (run_length is_amount_char None n)).
    rewrite (run_length_all _ _ Hn).
    rewrite (backtrack_hit _ _ _ _ []); simpl captured.
    - rewrite take_all. reflexivity.
    - destruct n; [contradiction Hne; reflexivity | reflexivity].
    - reflexivity. }
  change ("USD" ++ n)%string with (String "U" (String "S" (String "D" n))).
  rewrite (re_match_amount "U" "S" "D" n eq_refl eq_refl eq_refl), Hrest.
  cbn [group Nat.sub nth].
  destruct (py_float n) as [v|e]; cbn [bind]; [|reflexivity].
  change (String.eqb "USD" "RMB") with false. cbv iota.
  rewrite Hd. reflexivity.
Qed.

Lemma usd_amount_is_its_number_witness :
  convert_to_usd usd_only "2024-01-01" ("USD" ++ "12.50") = py_float "12.50".
Proof.
  apply (usd_amount_is_its_number usd_only "2024-01-01" "12.50" []).
  - reflexivity.
  - discriminate.
  - reflexivity.
Defined.

(** X21.  The currency RMB is read as CNY: an amount in RMB is converted as
    the same amount in CNY is. *)
Theorem rmb_is_cny :
  forall (rates : rate_provider) (d n : string),
    convert_to_usd rates d ("RMB" ++ n) = convert_to_usd rates d ("CNY" ++ n).
Proof.
  intros rates d n. unfold convert_to_usd, strip.
  change (lstrip ("RMB" ++ n)) with ("RMB" ++ n)%string.
  change (lstrip ("CNY" ++ n)) with ("CNY" ++ n)%string.
  change (rstrip ("RMB" ++ n)) with (String "R" (String "M" (String "B" (rstrip n)))).
  change (rstrip ("CNY" ++ n)) with (String "C" (String "N" (String "Y" (rstrip n)))).
  change (String.eqb (String "R" (String "M" (String "B" (rstrip n)))) "0") with false.
  change (String.eqb (String "C" (String "N" (String "Y" (rstrip n)))) "0") with false.
  cbv iota.
  rewrite (re_match_amount "R" "M" "B" (rstrip n) eq_refl eq_refl eq_refl).
  rewrite (re_match_amount "C" "N" "Y" (rstrip n) eq_refl eq_refl eq_refl).
  destruct (re_match [plus is_amount_char] (rstrip n)) as [gs|]; [|reflexivity].
  change (group ("RMB" :: gs) 2) with (group ("CNY" :: gs) 2).
  destruct (py_float (group ("CNY" :: gs) 2)) as [v|e]; reflexivity.
Qed.

(** ** The entries that pass 3 reads *)

(** X22.  An entry that validation accepts comes out complete: ACTION, every
    required field and every optional field of its action are present in the
    entry that pass 3 reads, so that pass 3 never looks up a field of the
    action that is missing. *)
Theorem validated_entry_complete :
  forall (rates : rate_provider) (last d action : string) (spec : fields_of_action)
         (l l' : line float),
    validate_line rates last l = OK (d, l') ->
    get_str l "ACTION" = OK action ->
    dict_get AVAILABLE_ACTIONS action = Some spec ->
    forall f, In f ("ACTION" :: required spec ++ optional spec) ->
              dict_mem l' f = true.
Proof.
  intros rates last d action spec l l' Hv Hact Hs f Hf.
  destruct (validate_line_inv rates last d l l' Hv)
    as (action' & spec' & lc & lq & Ha & Hspec & Hreq & _ & _ & _ & _ & _ & _ & _
        & Hc & Hq & Hval & _).
  rewrite Hact in Ha. injection Ha as <-.
  rewrite Hs in Hspec. injection Hspec as <-.
  set (lf := fill_optional (optional spec) l) in *.
  assert (Hfilled : dict_mem lf f = true).
  { destruct Hf as [<-|Hf].
    - apply fill_optional_mem. exact (get_str_mem l "ACTION" action Hact).
    - apply in_app_or in Hf as [Hf|Hf].
      + apply fill_optional_mem, Hreq, Hf.
      + apply fill_optional_fills, Hf. }
  assert (H1 : dict_mem lc f = true).
  { destruct (dict_mem lf "COSTEACH"); [|injection Hc as <-; exact Hfilled].
    destruct (reraise_as "Invalid currency in the following line" _) as [usd|];
      cbn [bind] in Hc; [|discriminate Hc].
    injection Hc as <-. apply dict_mem_set_mono. exact Hfilled. }
  assert (H2 : dict_mem lq f = true).
  { destruct (dict_mem lc "QUANTITY"); [|injection Hq as <-; exact H1].
    destruct (reraise_as "Invalid qualtity value in the following line" _) as [n|];
      cbn [bind] in Hq; [|discriminate Hq].
    injection Hq as <-. apply dict_mem_set_mono. exact H1. }
  destruct (_ || _); [|injection Hval as <-; exact H2].
  destruct (get_str lq "AMOUNT"); cbn [bind] in Hval; [|discriminate Hval].
  destruct (get_str lq "FEE"); cbn [bind] in Hval; [|discriminate Hval].
  destruct (compute_value _ _ _ _ _); cbn [bind] in Hval; [|discriminate Hval].
  injection Hval as <-. apply dict_mem_set_mono. exact H2.
Qed.

Lemma validated_entry_complete_witness :
  dict_mem (nth 0 (validated usd_only reserve_record) []) "REMARKS" = true.
Proof.
  apply (validated_entry_complete usd_only "0000-00-00" "2024-01-03" "RESERVE"
           {| required := ["DATE"; "REF"; "ITEMS"]; optional := ["REMARKS"] |}
           (nth 0 (parsed_table reserve_record) [])).
  - vm_compute. reflexivity.
  - reflexivity.
  - reflexivity.
  - simpl. tauto.
Defined.

(** X23.  A validated EXPENSE entry of TYPE material is always processed by
    pass 3, whatever the ledger and whatever its REF: its VALUE leaves the
    cash flow, and the profit, the references, the queues and the
    reservations stay as they are. *)
Theorem validated_material_deferred :
  forall (rates : rate_provider) (last d : string) (l l' : line float)
         (st : ledger float),
    validate_line rates last l = OK (d, l') ->
    get_str l "ACTION" = OK "EXPENSE" ->
    get_str l "TYPE" = OK "material" ->
    exists v : float,
      get_num l' "VALUE" = OK v
      /\ step st l'
         = OK {| item_cost := item_cost st;
                 ref_value := ref_value st;
                 reserved_items_counter := reserved_items_counter st;
                 cash_flow := (cash_flow st - v)%float;
                 profit := profit st |}.
Proof.
  intros rates last d l l' st Hv Hact Htype.
  destruct (validate_line_fields rates last d l l' Hv)
    as (action & spec & Ha & Hspec & Hkeep).
  rewrite Hact in Ha. injection Ha as <-. injection Hspec as <-.
  cbn [optional] in Hkeep.
  assert (Hout_action : getitem l' "ACTION" = OK (VStr "EXPENSE")).
  { apply getitem_ok. rewrite (Hkeep "ACTION" eq_refl).
    rewrite (fill_optional_get _ l "ACTION" (get_str_mem _ _ _ Hact)).
    apply get_str_inv. exact Hact. }
  assert (Hout_type : getitem l' "TYPE" = OK (VStr "material")).
  { apply getitem_ok. rewrite (Hkeep "TYPE" eq_refl).
    rewrite (fill_optional_get _ l "TYPE" (get_str_mem _ _ _ Htype)).
    apply get_str_inv. exact Htype. }
  destruct (validate_line_inv rates last d l l' Hv)
    as (action & spec & lc & lq & Ha & _ & _ & _ & _ & _ & _ & _ & _ & _ & _ & _
        & Hval & _).
  rewrite Hact in Ha. injection Ha as <-.
  cbn [String.eqb Ascii.eqb Bool.eqb orb] in Hval.
  destruct (get_str lq "AMOUNT") as [amount|]; cbn [bind] in Hval; [|discriminate Hval].
  destruct (get_str lq "FEE") as [fee|]; cbn [bind] in Hval; [|discriminate Hval].
  destruct (compute_value rates d amount fee false) as [v|]; cbn [bind] in Hval;
    [|discriminate Hval].
  assert (Hout_value : get_num l' "VALUE" = OK v).
  { injection Hval as <-. unfold get_num, getitem. rewrite dict_get_set_same.
    reflexivity. }
  exists v. split; [exact Hout_value|].
  rewrite (step_expense st l' Hout_action). unfold on_expense.
  rewrite Hout_value; cbn [bind]. rewrite Hout_type; cbn [bind].
  reflexivity.
Qed.

Lemma validated_material_deferred_witness :
  exists v : float,
    get_num (nth 0 (validated usd_only material_ledger) []) "VALUE" = OK v
    /\ step three_reserved (nth 0 (validated usd_only material_ledger) [])
       = OK {| item_cost := item_cost three_reserved;
               ref_value := ref_value three_reserved;
               reserved_items_counter := reserved_items_counter three_reserved;
               cash_flow := (cash_flow three_reserved - v)%float;
               profit := profit three_reserved |}.
Proof.
  apply (validated_material_deferred usd_only "0000-00-00" "2024-01-01"
           (nth 0 (parsed_table material_ledger) [])).
  - vm_compute. reflexivity.
  - reflexivity.
  - reflexivity.
Defined.

(** X24.  Money can only be booked under a reference that the ledger knows:
    an INCOME entry, or an EXPENSE entry whose TYPE is not material, aborts
    the run with KeyError when the key of its REF is not yet a key of
    [ref_value]. *)
Theorem money_needs_known_reference :
  forall (num : Type) (N : Num num) (st : ledger num) (l : line num)
         (ref key : string) (v : num),
    getitem l "ACTION" = OK (VStr "INCOME")
    \/ (getitem l "ACTION" = OK (VStr "EXPENSE")
        /\ exists ty, getitem l "TYPE" = OK ty /\ is_text ty "material" = false) ->
    get_str l "REF" = OK ref -> remove_suffix ref = OK key ->
    get_num l "VALUE" = OK v ->
    dict_mem (ref_value st) key = false ->
    step st l = Raise (KeyError key).
Proof.
  intros num N st l ref key v Hkind Hr Hk Hv Hm.
  assert (Hg : getitem (ref_value st) key = Raise (KeyError key)).
  { unfold getitem. unfold dict_mem in Hm.
    destruct (dict_get (ref_value st) key); [discriminate Hm | reflexivity]. }
  destruct Hkind as [Ha|(Ha & ty & Hty & Hmat)].
  - rewrite (step_income st l Ha). unfold on_income.
    rewrite Hr; cbn [bind]. rewrite Hk; cbn [bind]. rewrite Hg. reflexivity.
  - rewrite (step_expense st l Ha). unfold on_expense.
    rewrite Hv; cbn [bind]. rewrite Hty; cbn [bind]. rewrite Hmat; cbn [negb].
    rewrite Hr; cbn [bind]. rewrite Hk; cbn [bind]. rewrite Hg. reflexivity.
Qed.

Lemma money_needs_known_reference_witness :
  step stocked (nth 3 (validated usd_only order_ledger) []) = Raise (KeyError "1").
Proof.
  eapply (money_needs_known_reference float float_Num stocked
            (nth 3 (validated usd_only order_ledger) []) "1" "1").
  - left. reflexivity.
  - reflexivity.
  - reflexivity.
  - vm_compute. reflexivity.
  - reflexivity.
Defined.
